(** * The hawser transfer client (hawser/client.go)

    A shallow embedding of the transfer protocol engine: negotiation,
    status-driven branching between the legacy and the hypermedia upload
    paths, media-header validation on download, credential settlement
    and error-context recording.

    Go values are modelled as follows.
    - [int] and [int64] are [Z]; the one subtraction of the file is
      written with its 64-bit wrap-around.
    - [string] is [string] (a sequence of bytes), [[]byte] is
      [list byte].
    - A pointer that the code may find nil is an [option]; reading a
      field through a nil pointer is the run-time fault [Fault].
    - Go maps are [gmap]s; a nil map is [None] where the code tests for
      it and the empty map where it only ranges over it.
    - Everything outside the file (the HTTP executor, the local object
      store, the credential helper, the decoders of the Go library) is
      an oracle of the environment [Env].  Oracles that touch the world
      read the whole history of effects so far, and every call is
      appended to that history, so that "exactly one PUT, then one POST"
      is a statement about the history. *)

From stdpp Require Import gmap strings list fin_maps pretty.
From Stdlib Require Import ZArith Lia Strings.Byte Strings.Ascii.

Open Scope Z_scope.

(** ** Constants *)

Definition gitMediaType : string := "application/vnd.git-media".
Definition gitMediaMetaType : string := gitMediaType +:+ "+json; charset=utf-8".

(** ** Hypermedia links *)

Record link := mkLink {
  Href : string;
  link_Header : gmap string string
}.

(** [Links] is a Go map of pointers: the map itself may be nil, and an
    entry may hold a nil pointer (a JSON [null]). *)
Record linkMeta := mkLinkMeta {
  Links : option (gmap string (option link))
}.

Definition Rel (l : linkMeta) (name : string) : option link * bool :=
  match Links l with
  | None => (None, false)
  | Some m =>
      match m !! name with
      | Some lnk => (lnk, true)
      | None => (None, false)
      end
  end.

(** ** Errors *)

Record ClientError := mkClientError {
  ce_Message : string;
  ce_RequestId : string
}.

(** The [error] interface, by the dynamic types this file meets.
    [RedirectError] is the distinguished value [doRequest] compares
    against; [ExternalError] stands for whatever a collaborator
    reports. *)
Inductive error :=
| RedirectError
| io_EOF
| io_ErrUnexpectedEOF
| errors_New (msg : string)
| ExternalError (msg : string)
| EClientError (ce : ClientError)
| EWrapped (w : WrappedError)
with WrappedError :=
| mkWrappedError (Err : option error) (Message : string) (Panic : bool)
                 (context : gmap string string).

Definition Err (w : WrappedError) : option error :=
  match w with mkWrappedError e _ _ _ => e end.
Definition Message (w : WrappedError) : string :=
  match w with mkWrappedError _ m _ _ => m end.
Definition Panic (w : WrappedError) : bool :=
  match w with mkWrappedError _ _ p _ => p end.
Definition context (w : WrappedError) : gmap string string :=
  match w with mkWrappedError _ _ _ c => c end.

(** Modelled from the spec: [Errorf] and [Error] live in the package's
    errors file, which is not part of the sources at hand.  The spec's
    DiagnosticError is [{rootCause, message, isFatal, context}] with
    [isFatal] defaulting to true and an empty context at creation. *)
Definition Errorf (err : option error) (msg : string) : WrappedError :=
  mkWrappedError err msg true ∅.

(** Modelled from the spec: [Error] wraps a root cause without a message
    of its own. *)
Definition Error (err : error) : WrappedError :=
  Errorf (Some err) EmptyString.

(** Modelled from the spec: the [Set] method of [WrappedError]; "re-setting a key
    overwrites prior value". *)
Definition Set_ (w : WrappedError) (key value : string) : WrappedError :=
  mkWrappedError (Err w) (Message w) (Panic w) (<[key := value]> (context w)).

(** [wErr.Panic = false] *)
Definition set_Panic (w : WrappedError) (b : bool) : WrappedError :=
  mkWrappedError (Err w) (Message w) b (context w).

(** ** Requests, responses, streams *)

(** [type Creds map[string]string]; a missing key reads as the empty string. *)
Abbreviation Creds := (gmap string string).

Definition Creds_get (c : option Creds) (k : string) : string :=
  match c with
  | Some m => default EmptyString (m !! k)
  | None => EmptyString
  end.

(** [type CopyCallback func(int64, int64) error] *)
Definition CopyCallback : Type := Z → Z → option error.

(** An opened local object. *)
Record File := mkFile {
  file_name : string;
  file_data : list byte
}.

(** What a request carries as its body: nothing, a buffered string, or
    the [CallbackReader] around an opened file. *)
Inductive req_body :=
| NoBody
| StringBody (s : string)
| CallbackReader (C : CopyCallback) (TotalSize : Z) (Reader : File).

(** [http.Header]: canonical key to list of values. *)
Abbreviation http_Header := (gmap string (list string)).

Record Request := mkRequest {
  Method : string;
  URL : string;
  req_Header : http_Header;
  req_Body : req_body;
  req_ContentLength : Z
}.

(** An [io.Reader] over a response body: the bytes not read yet and the
    error the stream reports once they are exhausted ([io_EOF] for a
    body that ends normally). *)
Record Reader := mkReader {
  unread : list byte;
  at_end : error
}.

Record Response := mkResponse {
  StatusCode : Z;
  Status : string;
  res_Header : http_Header;
  res_Body : Reader;
  ContentLength : Z;
  res_Request : Request
}.

(** ** The Go library functions the file calls *)

Definition is_upper (c : ascii) : bool :=
  let n := nat_of_ascii c in (65 <=? n)%nat && (n <=? 90)%nat.
Definition is_lower (c : ascii) : bool :=
  let n := nat_of_ascii c in (97 <=? n)%nat && (n <=? 122)%nat.
Definition is_digit_byte (c : ascii) : bool :=
  let n := nat_of_ascii c in (48 <=? n)%nat && (n <=? 57)%nat.

(** net/textproto: the bytes allowed in a header field name (RFC 7230
    token characters). *)
Definition validHeaderFieldByte (c : ascii) : bool :=
  is_upper c || is_lower c || is_digit_byte c
  || bool_decide (c ∈ String.list_ascii_of_string "!#$%&'*+-.^_`|~").

Definition to_upper (c : ascii) : ascii :=
  if is_lower c then ascii_of_nat (nat_of_ascii c - 32) else c.
Definition to_lower (c : ascii) : ascii :=
  if is_upper c then ascii_of_nat (nat_of_ascii c + 32) else c.

Fixpoint canonical_bytes (upper : bool) (cs : list ascii) : list ascii :=
  match cs with
  | [] => []
  | c :: cs' =>
      let c' := if upper then to_upper c else to_lower c in
      c' :: canonical_bytes (bool_decide (c' = "-"%char)) cs'
  end.

(** net/textproto.CanonicalMIMEHeaderKey: a key with a byte that is not
    allowed in a field name is returned unchanged; otherwise the first
    letter and every letter after a hyphen are upper-cased and the rest
    lower-cased. *)
Definition CanonicalMIMEHeaderKey (s : string) : string :=
  let cs := String.list_ascii_of_string s in
  if forallb validHeaderFieldByte cs
  then String.string_of_list_ascii (canonical_bytes true cs)
  else s.

(** [h.Set(key, value)] *)
Definition Header_Set (h : http_Header) (key value : string) : http_Header :=
  <[CanonicalMIMEHeaderKey key := [value]]> h.

(** [h.Get(key)]: the first value under the canonical key, or the empty string. *)
Definition Header_Get (h : http_Header) (key : string) : string :=
  match h !! CanonicalMIMEHeaderKey key with
  | Some (v :: _) => v
  | _ => EmptyString
  end.

Definition is_slash (c : ascii) : bool := bool_decide (c = "/"%char).

Fixpoint drop_while {A} (p : A → bool) (l : list A) : list A :=
  match l with
  | x :: l' => if p x then drop_while p l' else l
  | [] => []
  end.

Fixpoint take_while {A} (p : A → bool) (l : list A) : list A :=
  match l with
  | x :: l' => if p x then x :: take_while p l' else []
  | [] => []
  end.

(** path/filepath.Base on a system whose separator is the slash. *)
Definition filepath_Base (path : string) : string :=
  if bool_decide (path = EmptyString) then "."
  else
    let stripped := drop_while is_slash (rev (String.list_ascii_of_string path)) in
    match stripped with
    | [] => "/"
    | _ => String.string_of_list_ascii
             (rev (take_while (λ c, negb (is_slash c)) stripped))
    end.

(** [io.ReadAtLeast(r, buf, n)] with [len(buf) = n] and [0 < n]: either
    [n] bytes, or the error of a stream that ended early; a stream that
    ended with [io_EOF] after some bytes reports
    [io_ErrUnexpectedEOF].  A short read consumes what there was. *)
Definition io_ReadAtLeast (r : Reader) (n : nat) : (list byte + error) * Reader :=
  if (n <=? length (unread r))%nat
  then (inl (take n (unread r)), mkReader (drop n (unread r)) (at_end r))
  else
    let e := match unread r, at_end r with
             | _ :: _, io_EOF => io_ErrUnexpectedEOF
             | _, e => e
             end in
    (inr e, mkReader [] (at_end r)).

(** Two's-complement wrap-around of [int64] arithmetic. *)
Definition wrap64 (z : Z) : Z := (z + 2 ^ 63) mod 2 ^ 64 - 2 ^ 63.

(** ** Effects *)

(** Every call that leaves the process is recorded, in order. *)
Inductive event :=
| EvStat (path : string)
| EvOpen (path : string)
| EvFileStat (f : File)
| EvCredentials (url : string)
| EvExecCreds (creds : Creds) (op : string)
| EvHTTP (req : Request).

Abbreviation history := (list event).

(** The collaborators.  [Config_ObjectUrl oid] is the text of
    [Config.ObjectUrl(oid)]; [url_Parse] is the URL parsing inside
    [http.NewRequest], returning the text of the parsed URL. *)
Record Env := mkEnv {
  Config_ObjectUrl : string → string;
  Config_Endpoint : string;
  UserAgent : string;
  url_Parse : string → error + string;
  os_Stat : history → string → option error;
  os_Open : history → string → error + File;
  file_Stat : history → File → error + Z;
  credentials : history → string → option Creds * option error;
  DoHTTP : history → Request → option Response * option error;
  json_Decode_linkMeta : Reader → error + linkMeta;
  json_Decode_ClientError : Reader → error + ClientError;
  mime_ParseMediaType : string → string * gmap string string * option error;
  base64_URLEncode : string → string
}.

(** A call either returns or stops the goroutine with a nil-pointer
    fault; in both cases the history up to that point stands. *)
Inductive outcome (A : Type) :=
| Ret (a : A)
| Fault.
Arguments Ret {A} a.
Arguments Fault {A}.

Definition M (A : Type) : Type := history → outcome A * history.

#[export] Instance M_ret : MRet M := λ A a h, (Ret a, h).
#[export] Instance M_bind : MBind M := λ A B f m h,
  match m h with
  | (Ret a, h') => f a h'
  | (Fault, h') => (Fault, h')
  end.

(** Record a call and hand back what the oracle answers at this point
    of the history. *)
Definition call {A} (ev : event) (oracle : history → A) : M A :=
  λ h, (Ret (oracle h), h ++ [ev]).

(** Reading a field through a pointer. *)
Definition deref {A} (p : option A) : M A :=
  λ h, match p with
       | Some a => (Ret a, h)
       | None => (Fault, h)
       end.

Section Client.

Context (env : Env).

(** [http.NewRequest(method, url, nil)] *)
Definition http_NewRequest (method url : string) : error + Request :=
  match url_Parse env url with
  | inl e => inl e
  | inr u => inr (mkRequest method u ∅ NoBody 0)
  end.

Definition set_Header (req : Request) (key value : string) : Request :=
  mkRequest (Method req) (URL req) (Header_Set (req_Header req) key value)
            (req_Body req) (req_ContentLength req).

Definition set_Body (req : Request) (b : req_body) : Request :=
  mkRequest (Method req) (URL req) (req_Header req) b (req_ContentLength req).

Definition set_ContentLength (req : Request) (n : Z) : Request :=
  mkRequest (Method req) (URL req) (req_Header req) (req_Body req) n.

(** [for h, v := range hdr { req.Header.Set(h, v) }], for one order of
    the entries. *)
Definition set_Headers (entries : list (string * string)) (req : Request) : Request :=
  foldl (λ r hv, set_Header r hv.1 hv.2) req entries.

(** The order in which [range] visits a map is unspecified in Go; the
    model visits [map_to_list]. *)
Definition range_Header (hdr : gmap string string) : list (string * string) :=
  map_to_list hdr.

(** *** Credentials *)

Definition execCreds (creds : Creds) (op : string) : M unit :=
  call (EvExecCreds creds op) (λ _, tt).

Definition saveCredentials (creds : option Creds) (res : option Response) : M unit :=
  match creds with
  | None => mret tt
  | Some c =>
      r ← deref res;
      if StatusCode r <? 300 then execCreds c "approve"
      else if StatusCode r <? 405 then execCreds c "reject"
      else mret tt
  end.

Definition setRequestHeaders (req : Request)
  : M (Request * option Creds * option error) :=
  let req := set_Header req "User-Agent" (UserAgent env) in
  match req_Header req !! "Authorization" with
  | Some _ => mret (req, None, None)
  | None =>
      '(creds, err) ← call (EvCredentials (URL req)) (λ h, credentials env h (URL req));
      match err with
      | Some e => mret (req, None, Some e)
      | None =>
          let token := Creds_get creds "username" +:+ ":" +:+ Creds_get creds "password" in
          let auth := "Basic " +:+ base64_URLEncode env token in
          mret (set_Header req "Authorization" auth, creds, None)
      end
  end.

Definition request (method oid : string)
  : M (option Request * option Creds * option error) :=
  let u := Config_ObjectUrl env oid in
  match http_NewRequest method u with
  | inl e => mret (None, None, Some e)
  | inr req =>
      '(req', creds, err) ← setRequestHeaders req;
      mret (Some req', creds, err)
  end.

(** *** Error context *)

Definition hiddenHeaders : gmap string bool := {[ "Authorization" := true ]}.

(** The body of the loop over the headers. *)
Definition setErrorHeaderContext_step (prefix : string) (head : http_Header)
    (err : WrappedError) (kv : string * list string) : WrappedError :=
  let key := kv.1 in
  let contextKey := prefix +:+ ":" +:+ key in
  match hiddenHeaders !! key with
  | Some _ => Set_ err contextKey "--"
  | None => Set_ err contextKey (Header_Get head key)
  end.

Definition setErrorHeaderContext (err : WrappedError) (prefix : string)
    (head : http_Header) : WrappedError :=
  foldl (setErrorHeaderContext_step prefix head) err (map_to_list head).

Definition setErrorRequestContext (err : WrappedError) (req : Request) : WrappedError :=
  let err := Set_ err "Endpoint" (Config_Endpoint env) in
  let err := Set_ err "URL" (Method req +:+ " " +:+ URL req) in
  setErrorHeaderContext err "Response" (req_Header req).

Definition setErrorResponseContext (err : WrappedError) (res : Response) : WrappedError :=
  let err := Set_ err "Status" (Status res) in
  let err := setErrorHeaderContext err "Request" (res_Header res) in
  setErrorRequestContext err (res_Request res).

(** *** Response classification *)

(** The caller dereferences [res]; a response obtained from the HTTP
    client always carries the request that produced it. *)
Definition handleResponseError (res : Response) : option WrappedError :=
  if (StatusCode res <? 400) || (StatusCode res =? 405) then None
  else
    let wErr :=
      match json_Decode_ClientError env (res_Body res) with
      | inl err => Errorf (Some err) "Error decoding JSON from response"
      | inr apiErr =>
          let msg :=
            if (StatusCode res =? 401) || (StatusCode res =? 403) then
              "Authorization error: " +:+ URL (res_Request res)
              +:+ String "010" "Check that you have proper access to the repository."
            else if StatusCode res =? 404 then
              "Repository not found: " +:+ URL (res_Request res)
              +:+ String "010" "Check that it exists and that you have proper access to it."
            else "Invalid response: " +:+ pretty (StatusCode res) in
          Errorf (Some (EClientError apiErr)) msg
      end in
    Some (if StatusCode res <? 500 then set_Panic wErr false else wErr).

Definition doRequest (req : Request) (creds : option Creds)
  : M (option Response * option WrappedError) :=
  '(res, err) ← call (EvHTTP req) (λ h, DoHTTP env h req);
  let err := match err with
             | Some RedirectError => None
             | _ => err
             end in
  wErr ← match err with
         | None =>
             _ ← match creds with
                 | Some _ => saveCredentials creds res
                 | None => mret tt
                 end;
             r ← deref res;
             mret (handleResponseError r)
         | Some e =>
             r ← deref res;
             if negb (StatusCode r =? 302)
             then mret (Some (Errorf (Some e)
                                ("Error sending HTTP request to " +:+ URL req)))
             else mret None
         end;
  let wErr := match wErr with
              | Some w =>
                  match res with
                  | Some r => Some (setErrorResponseContext w r)
                  | None => Some (setErrorRequestContext w req)
                  end
              | None => None
              end in
  mret (res, wErr).

(** *** Media header validation *)

(** The reader is passed by reference: the result carries what is left
    of it. *)
Definition validateMediaHeader (contentType : string) (reader : Reader)
  : bool * Z * option WrappedError * Reader :=
  let '(mediaType, params, err) := mime_ParseMediaType env contentType in
  match err with
  | Some e =>
      (false, 0, Some (Errorf (Some e) ("Invalid Media Type: " +:+ contentType)), reader)
  | None =>
      if bool_decide (mediaType = gitMediaType) then
        match params !! "header" with
        | None =>
            (false, 0,
             Some (Error (errors_New ("Missing Git Media header in " +:+ contentType))),
             reader)
        | Some givenHeader =>
            let fullGivenHeader := "--" +:+ givenHeader +:+ String "010" EmptyString in
            let headerSize := Z.of_nat (String.length fullGivenHeader) in
            match io_ReadAtLeast reader (String.length fullGivenHeader) with
            | (inr e, reader') =>
                (false, headerSize,
                 Some (Errorf (Some e) "Error reading response body."), reader')
            | (inl header, reader') =>
                if bool_decide (String.string_of_list_byte header = fullGivenHeader)
                then (true, headerSize, None, reader')
                else
                  (false, headerSize,
                   Some (Error (errors_New
                     ("Invalid header: " +:+ fullGivenHeader +:+ " expected, got "
                      +:+ String.string_of_list_byte header))),
                   reader')
            end
        end
      else (true, 0, None, reader)
  end.

(** *** Download *)

Definition Download (oidPath : string) : M (option Reader * Z * option WrappedError) :=
  let oid := filepath_Base oidPath in
  '(req, creds, err) ← request "GET" oid;
  match err with
  | Some e => mret (None, 0, Some (Error e))
  | None =>
      req ← deref req;
      let req := set_Header req "Accept" gitMediaType in
      '(res, wErr) ← doRequest req creds;
      match wErr with
      | Some w => mret (None, 0, Some w)
      | None =>
          res ← deref res;
          let contentType := Header_Get (res_Header res) "Content-Type" in
          if bool_decide (contentType = EmptyString) then
            let wErr := Error (errors_New "Empty Content-Type") in
            mret (None, 0, Some (setErrorResponseContext wErr res))
          else
            let '(ok, headerSize, wErr, body) :=
              validateMediaHeader contentType (res_Body res) in
            if negb ok then
              w ← deref wErr;
              mret (None, 0, Some (setErrorResponseContext w res))
            else
              mret (Some body, wrap64 (ContentLength res - headerSize), None)
      end
  end.

(** *** Upload *)

(** The negotiation and verification body. *)
Definition oid_size_json (oid : string) (fileSize : Z) : string :=
  "{" +:+ String "034" "oid" +:+ String "034" ":" +:+ String "034" oid
  +:+ String "034" ", " +:+ String "034" "size" +:+ String "034" ":"
  +:+ pretty fileSize +:+ "}".

Definition callOptions (filehash : string) : M (Z * option WrappedError) :=
  let oid := filepath_Base filehash in
  err ← call (EvStat filehash) (λ h, os_Stat env h filehash);
  match err with
  | Some e =>
      mret (0, Some (Errorf (Some e) ("Internal object does not exist: " +:+ filehash)))
  | None =>
      '(req, creds, err) ← request "OPTIONS" oid;
      match err with
      | Some e =>
          mret (0, Some (Errorf (Some e) ("Unable to build OPTIONS request for " +:+ oid)))
      | None =>
          req ← deref req;
          '(res, wErr) ← doRequest req creds;
          match wErr with
          | Some w => mret (0, Some w)
          | None =>
              r ← deref res;
              mret (StatusCode r, None)
          end
      end
  end.

Definition callPut (filehash filename : string) (cb : CopyCallback)
  : M (option WrappedError) :=
  let filename := if bool_decide (filename = EmptyString) then filehash else filename in
  let oid := filepath_Base filehash in
  file ← call (EvOpen filehash) (λ h, os_Open env h filehash);
  match file with
  | inl e => mret (Some (Errorf (Some e) ("Internal object does not exist: " +:+ filehash)))
  | inr file =>
      stat ← call (EvFileStat file) (λ h, file_Stat env h file);
      match stat with
      | inl e =>
          mret (Some (Errorf (Some e) ("Internal object does not exist: " +:+ filehash)))
      | inr fileSize =>
          '(req, creds, err) ← request "PUT" oid;
          match err with
          | Some e =>
              mret (Some (Errorf (Some e) ("Unable to build PUT request for " +:+ oid)))
          | None =>
              req ← deref req;
              let reader := CallbackReader cb fileSize file in
              let req := set_Header req "Content-Type" gitMediaType in
              let req := set_Header req "Accept" gitMediaMetaType in
              let req := set_Body req reader in
              let req := set_ContentLength req fileSize in
              '(res, wErr) ← doRequest req creds;
              _ ← deref res;
              mret wErr
          end
      end
  end.

(** The last block of [callExternalPut], "Run the verify callback": the
    POST to the [verify] link, when there is one. *)
Definition callExternalPut_verify (filehash filename : string) (lm : linkMeta)
    (fileSize : Z) : M (option WrappedError) :=
  let verify_failed e :=
    Some (Errorf (Some e) ("Error attempting to verify " +:+ filename)) in
  let '(cb, ok) := Rel lm "verify" in
  if ok then
    let oid := filepath_Base filehash in
    cb ← deref cb;
    match http_NewRequest "POST" (Href cb) with
    | inl e => mret (verify_failed e)
    | inr verifyReq =>
        let verifyReq := set_Headers (range_Header (link_Header cb)) verifyReq in
        '(verifyReq, verifyCreds, err) ← setRequestHeaders verifyReq;
        match err with
        | Some e => mret (verify_failed e)
        | None =>
            let d := oid_size_json oid fileSize in
            let verifyReq := set_Body verifyReq (StringBody d) in
            '(verifyRes, err) ← call (EvHTTP verifyReq) (λ h, DoHTTP env h verifyReq);
            match err with
            | Some e => mret (verify_failed e)
            | None =>
                _ ← deref verifyRes;
                _ ← saveCredentials verifyCreds verifyRes;
                mret None
            end
        end
    end
  else mret None.

Definition callExternalPut (filehash filename : string) (lm : option linkMeta)
    (cb : CopyCallback) : M (option WrappedError) :=
  match lm with
  | None =>
      mret (Some (Errorf (Some (errors_New "No hypermedia links provided"))
                         ("Error attempting to PUT " +:+ filename)))
  | Some lm =>
      let '(link, ok) := Rel lm "upload" in
      if negb ok then
        mret (Some (Errorf (Some (errors_New "No upload link provided"))
                           ("Error attempting to PUT " +:+ filename)))
      else
        let put_failed e :=
          Some (Errorf (Some e) ("Error attempting to PUT " +:+ filename)) in
        file ← call (EvOpen filehash) (λ h, os_Open env h filehash);
        match file with
        | inl e => mret (put_failed e)
        | inr file =>
        stat ← call (EvFileStat file) (λ h, file_Stat env h file);
        match stat with
        | inl e => mret (put_failed e)
        | inr fileSize =>
        let reader := CallbackReader cb fileSize file in
        link ← deref link;
        match http_NewRequest "PUT" (Href link) with
        | inl e => mret (put_failed e)
        | inr req =>
        let req := set_Headers (range_Header (link_Header link)) req in
        '(req, creds, err) ← setRequestHeaders req;
        match err with
        | Some e => mret (put_failed e)
        | None =>
        let req := set_Body req reader in
        let req := set_ContentLength req fileSize in
        '(res, err) ← call (EvHTTP req) (λ h, DoHTTP env h req);
        match err with
        | Some e => mret (put_failed e)
        | None =>
        _ ← deref res;
        _ ← saveCredentials creds res;
        callExternalPut_verify filehash filename lm fileSize
        end end end end end
  end.

Definition callPost (filehash filename : string)
  : M (option linkMeta * Z * option WrappedError) :=
  let oid := filepath_Base filehash in
  let failed e := Some (Errorf (Some e) ("Error attempting to POST " +:+ filename)) in
  '(req, creds, err) ← request "POST" EmptyString;
  match err with
  | Some e => mret (None, 0, failed e)
  | None =>
      file ← call (EvOpen filehash) (λ h, os_Open env h filehash);
      match file with
      | inl e => mret (None, 0, failed e)
      | inr file =>
          stat ← call (EvFileStat file) (λ h, file_Stat env h file);
          match stat with
          | inl e => mret (None, 0, failed e)
          | inr fileSize =>
              let d := oid_size_json oid fileSize in
              req ← deref req;
              let req := set_Body req (StringBody d) in
              let req := set_Header req "Accept" gitMediaMetaType in
              '(res, wErr) ← doRequest req creds;
              match wErr with
              | Some w => mret (None, 0, Some w)
              | None =>
                  res ← deref res;
                  if StatusCode res =? 202 then
                    match json_Decode_linkMeta env (res_Body res) with
                    | inl e =>
                        mret (None, StatusCode res,
                              Some (Errorf (Some e)
                                ("Error decoding JSON from " +:+ Method req +:+ " "
                                 +:+ URL req +:+ ".")))
                    | inr lm => mret (Some lm, StatusCode res, None)
                    end
                  else mret (None, StatusCode res, None)
              end
          end
      end
  end.

(** The [switch status] of [Upload]. *)
Definition Upload_switch (oidPath filename : string) (cb : CopyCallback)
    (linkMeta : option linkMeta) (status : Z) (err : option WrappedError)
  : M (option WrappedError) :=
  let oid := filepath_Base oidPath in
  let upload_failed e :=
    Some (Errorf (Some (EWrapped e))
            ("Error uploading file " +:+ filename +:+ " (" +:+ oid +:+ ")")) in
  if status =? 200 then mret None
  else if (status =? 405) || (status =? 302) then
    '(status, wErr) ← callOptions oidPath;
    match wErr with
    | Some w => mret (Some w)
    | None =>
        if negb (status =? 200) then
          err ← callPut oidPath filename cb;
          match err with
          | Some e => mret (upload_failed e)
          | None => mret None
          end
        else mret None
    end
  else if status =? 202 then
    err ← callExternalPut oidPath filename linkMeta cb;
    match err with
    | Some e => mret (upload_failed e)
    | None => mret None
    end
  else
    mret (Some (Errorf (EWrapped <$> err)
                  ("Unexpected HTTP response: " +:+ pretty status))).

(** What [Upload] does with the three values [callPost] returned: the
    guard on the negotiation error, then the switch. *)
Definition Upload_after_callPost (oidPath filename : string) (cb : CopyCallback)
    (negotiated : option linkMeta * Z * option WrappedError)
  : M (option WrappedError) :=
  let '(linkMeta, status, err) := negotiated in
  match err, negb (status =? 302) with
  | Some e, true =>
      mret (Some (Errorf (Some (EWrapped e)) "Error starting file upload."))
  | _, _ => Upload_switch oidPath filename cb linkMeta status err
  end.

Definition Upload (oidPath filename : string) (cb : CopyCallback)
  : M (option WrappedError) :=
  negotiated ← callPost oidPath filename;
  Upload_after_callPost oidPath filename cb negotiated.

End Client.

(** ** Reading a history *)

(** The HTTP requests of a history, in the order they were sent. *)
Definition http_requests (h : history) : list Request :=
  omap (λ ev, match ev with EvHTTP r => Some r | _ => None end) h.

(** The calls to the credential helper: fetches, approvals, rejections. *)
Definition is_credential_event (ev : event) : bool :=
  match ev with
  | EvCredentials _ | EvExecCreds _ _ => true
  | _ => false
  end.

Definition credential_events (h : history) : history :=
  filter (λ ev, is_credential_event ev = true) h.

Definition newline : string := String "010" EmptyString.

(** What [doRequest] returns, as a function of what [DoHTTP] answered:
    a nil response faults; the redirect signal counts as no error; a
    transport error next to a 302 response is dropped. *)
Definition doRequest_result (env : Env) (req : Request)
    (answer : option Response * option error)
  : outcome (option Response * option WrappedError) :=
  match answer with
  | (None, _) => Fault
  | (Some res, err) =>
      Ret (Some res,
           (λ w, setErrorResponseContext env w res) <$>
             (match err with
              | None | Some RedirectError => handleResponseError env res
              | Some e =>
                  if StatusCode res =? 302 then None
                  else Some (Errorf (Some e)
                               ("Error sending HTTP request to " +:+ URL req))
              end))
  end.

(** The request streams the local object [filehash]: its body is the
    callback reader over the opened file and its content length is the
    size the object store reported. *)
Definition streams_file (env : Env) (filehash : string) (cb : CopyCallback)
    (put : Request) : Prop :=
  ∃ file h0 h1,
    os_Open env h0 filehash = inr file ∧
    file_Stat env h1 file = inr (req_ContentLength put) ∧
    req_Body put = CallbackReader cb (req_ContentLength put) file.

(** The legacy PUT of an object: method, endpoint, media types, and the
    file as body. *)
Definition legacy_put (env : Env) (filehash : string) (cb : CopyCallback)
    (put : Request) : Prop :=
  Method put = "PUT" ∧
  url_Parse env (Config_ObjectUrl env (filepath_Base filehash)) = inr (URL put) ∧
  Header_Get (req_Header put) "Content-Type" = gitMediaType ∧
  Header_Get (req_Header put) "Accept" = gitMediaMetaType ∧
  streams_file env filehash cb put.

(** The OPTIONS probe for an object. *)
Definition options_probe (env : Env) (filehash : string) (opt : Request) : Prop :=
  Method opt = "OPTIONS" ∧
  url_Parse env (Config_ObjectUrl env (filepath_Base filehash)) = inr (URL opt) ∧
  req_Body opt = NoBody.

(** The hypermedia PUT to the [upload] link. *)
Definition upload_put (env : Env) (filehash : string) (cb : CopyCallback)
    (up : link) (put : Request) : Prop :=
  Method put = "PUT" ∧
  url_Parse env (Href up) = inr (URL put) ∧
  streams_file env filehash cb put.

(** The POST to the [verify] link, carrying the OID and the size. *)
Definition verify_post (env : Env) (filehash : string) (ve : link) (size : Z)
    (post : Request) : Prop :=
  Method post = "POST" ∧
  url_Parse env (Href ve) = inr (URL post) ∧
  req_Body post = StringBody (oid_size_json (filepath_Base filehash) size).

(** What [callOptions] makes of an exchange: the status when there is
    no error, zero next to the error otherwise. *)
Definition probe_outcome (r : outcome (option Response * option WrappedError))
  : outcome (Z * option WrappedError) :=
  match r with
  | Ret (_, Some w) => Ret (0, Some w)
  | Ret (Some res, None) => Ret (StatusCode res, None)
  | _ => Fault
  end.

(** What [callPut] makes of an exchange: its error, if any. *)
Definition put_outcome (r : outcome (option Response * option WrappedError))
  : outcome (option WrappedError) :=
  match r with
  | Ret (Some _, w) => Ret w
  | _ => Fault
  end.

(** The legacy path of [Upload]: the OPTIONS probe, then the PUT unless
    the probe answered 200. *)
Definition legacy_fallback (env : Env) (oidPath filename : string) (cb : CopyCallback)
  : M (option WrappedError) :=
  '(status, wErr) ← callOptions env oidPath;
  match wErr with
  | Some w => mret (Some w)
  | None =>
      if negb (status =? 200) then
        err ← callPut env oidPath filename cb;
        match err with
        | Some e =>
            mret (Some (Errorf (Some (EWrapped e))
                          ("Error uploading file " +:+ filename +:+ " ("
                           +:+ filepath_Base oidPath +:+ ")")))
        | None => mret None
        end
      else mret None
  end.

(** A computation is quiet when, from every history, it adds no call to
    the credential helper; [Q] holds of what it returns. *)
Definition quiet {A} (m : M A) (Q : A → Prop) : Prop :=
  ∀ h, ∃ r es, m h = (r, h ++ es) ∧ credential_events es = [] ∧
               ∀ a, r = Ret a → Q a.

(** Quiet up to a continuation: the events split into a part without
    credential calls and, possibly, a run of one of the computations
    [K size]. *)
Definition quiet_until {A} (m : M A) (K : Z → M A) : Prop :=
  ∀ h, ∃ r es1 es2, m h = (r, h ++ es1 ++ es2) ∧ credential_events es1 = [] ∧
    (es2 = [] ∨ ∃ size, K size (h ++ es1) = (r, (h ++ es1) ++ es2)).

(** What the header loop records for one header: the placeholder for
    [Authorization], and otherwise what [Get] returns for the key. *)
Definition recorded (head : http_Header) (key : string) : string :=
  if decide (key = "Authorization") then "--" else Header_Get head key.

(** A computation sends at most [n] HTTP requests, from every history. *)
Definition sends {A} (m : M A) (n : nat) : Prop :=
  ∀ h, ∃ r es, m h = (r, h ++ es) ∧ (length (http_requests es) ≤ n)%nat.

(** The [Authorization] value [setRequestHeaders] builds from a
    credential. *)
Definition basic_auth (env : Env) (creds : option Creds) : string :=
  "Basic " +:+ base64_URLEncode env
                 (Creds_get creds "username" +:+ ":" +:+ Creds_get creds "password").

(** The negotiation request: a POST to the endpoint without an OID,
    asking for the metadata media type, with the OID and the size the
    object store reported as body. *)
Definition negotiation_post (env : Env) (filehash : string) (post : Request) : Prop :=
  Method post = "POST" ∧
  url_Parse env (Config_ObjectUrl env EmptyString) = inr (URL post) ∧
  Header_Get (req_Header post) "Accept" = gitMediaMetaType ∧
  ∃ file h0 h1 size,
    os_Open env h0 filehash = inr file ∧
    file_Stat env h1 file = inr size ∧
    req_Body post = StringBody (oid_size_json (filepath_Base filehash) size).

(** What [callPost] makes of an exchange. *)
Definition post_outcome (env : Env) (post : Request)
    (r : outcome (option Response * option WrappedError))
  : outcome (option linkMeta * Z * option WrappedError) :=
  match r with
  | Ret (_, Some w) => Ret (None, 0, Some w)
  | Ret (Some res, None) =>
      if StatusCode res =? 202 then
        match json_Decode_linkMeta env (res_Body res) with
        | inl e =>
            Ret (None, StatusCode res,
                 Some (Errorf (Some e)
                         ("Error decoding JSON from " +:+ Method post +:+ " "
                          +:+ URL post +:+ ".")))
        | inr lm => Ret (Some lm, StatusCode res, None)
        end
      else Ret (None, StatusCode res, None)
  | _ => Fault
  end.

(** The credential fetch for [url] failed: it is the last thing that
    happened in [es], and the helper reported an error. *)
Definition fetch_failed (env : Env) (h es : history) (url : string) : Prop :=
  ∃ es' c e, es = es' ++ [EvCredentials url] ∧
             credentials env (h ++ es') url = (c, Some e).

(** The local object cannot be opened, or cannot be sized. *)
Definition object_unreadable (env : Env) (filehash : string) (h : history) : Prop :=
  (∃ e, os_Open env h filehash = inl e) ∨
  (∃ file e, os_Open env h filehash = inr file ∧
             file_Stat env (h ++ [EvOpen filehash]) file = inl e).

(** No request can be built for the URL: it does not parse, or the
    credential fetch for it failed. *)
Definition url_blocked (env : Env) (url : string) (h es : history) : Prop :=
  (∃ e, url_Parse env url = inl e) ∨
  (∃ u, url_Parse env url = inr u ∧ fetch_failed env h es u).

(** What keeps the OPTIONS probe from being sent. *)
Definition probe_blocked (env : Env) (filehash : string) (h es : history) : Prop :=
  (∃ e, os_Stat env h filehash = Some e) ∨
  url_blocked env (Config_ObjectUrl env (filepath_Base filehash)) h es.

(** What keeps the legacy PUT from being sent. *)
Definition legacy_put_blocked (env : Env) (filehash : string) (h es : history) : Prop :=
  object_unreadable env filehash h ∨
  url_blocked env (Config_ObjectUrl env (filepath_Base filehash)) h es.

(** What keeps the request to a link from being sent. *)
Definition link_blocked (env : Env) (lnk : link) (h es : history) : Prop :=
  url_blocked env (Href lnk) h es.

(** Whether [doRequest] reports an error for an exchange that came back
    with a response: a clean answer, or one with the redirect signal,
    fails on a status of 400 or above other than 405; a transport error
    fails unless the response is a 302. *)
Definition exchange_fails (res : Response) (err : option error) : bool :=
  match err with
  | None | Some RedirectError =>
      negb ((StatusCode res <? 400) || (StatusCode res =? 405))
  | Some _ => negb (StatusCode res =? 302)
  end.

(** The error [Upload] returns when a transfer step failed with [w]. *)
Definition upload_failed (oidPath filename : string) (w : WrappedError) : WrappedError :=
  Errorf (Some (EWrapped w))
    ("Error uploading file " +:+ filename +:+ " (" +:+ filepath_Base oidPath +:+ ")").

(** What [Upload] returns after a transfer step that returned [r]. *)
Definition transfer_result (oidPath filename : string)
    (r : outcome (option WrappedError)) : outcome (option WrappedError) :=
  match r with
  | Ret (Some w) => Ret (Some (upload_failed oidPath filename w))
  | Ret None => Ret None
  | Fault => Fault
  end.

(** * Sample environments

    Concrete collaborators on which the code is run below. *)

Definition sample_data : list byte := replicate 100 "x"%byte.

Definition sample_creds : Creds := {[ "username" := "u"; "password" := "p" ]}.

Definition sample_ParseMediaType (ct : string) : string * gmap string string * option error :=
  if bool_decide (ct = "application/vnd.git-media; header=abc123")
  then (gitMediaType, {[ "header" := "abc123" ]}, None)
  else (ct, ∅, None).

(** An environment whose object store holds [sample_data] under every
    path and whose credential helper always answers; the HTTP executor
    and the link decoder are given. *)
Definition sample_env
    (http : history → Request → option Response * option error)
    (links : Reader → error + linkMeta) : Env :=
  {| Config_ObjectUrl := λ oid, "https://api/objects/" +:+ oid;
     Config_Endpoint := "https://api";
     UserAgent := "hawser";
     url_Parse := inr;
     os_Stat := λ _ _, None;
     os_Open := λ _ p, inr (mkFile p sample_data);
     file_Stat := λ _ f, inr (Z.of_nat (length (file_data f)));
     credentials := λ _ _, (Some sample_creds, None);
     DoHTTP := http;
     json_Decode_linkMeta := links;
     json_Decode_ClientError := λ _, inr (mkClientError "no" EmptyString);
     mime_ParseMediaType := sample_ParseMediaType;
     base64_URLEncode := λ s, s |}.

Definition no_links : Reader → error + linkMeta :=
  λ _, inl (ExternalError "no JSON").

Definition empty_body : Reader := mkReader [] io_EOF.

(** A response with the given status and nothing else of interest. *)
Definition plain_response (status : Z) (req : Request) : Response :=
  mkResponse status "status" ∅ empty_body 0 req.

(** A download answered with a framed body of 109 bytes. *)
Definition framed_body : Reader :=
  mkReader (String.list_byte_of_string ("--abc123" +:+ String "010" EmptyString)
            ++ sample_data) io_EOF.

Definition download_http (h : history) (req : Request)
  : option Response * option error :=
  (Some (mkResponse 200 "200 OK"
           {[ "Content-Type" := ["application/vnd.git-media; header=abc123"] ]}
           framed_body 109 req), None).

Definition download_env : Env := sample_env download_http no_links.

Definition sample_cb : CopyCallback := λ _ _, None.

(** A legacy server: negotiation is answered 405, the probe and the PUT
    with the given statuses. *)
Definition legacy_http (probe put : Z) (h : history) (req : Request)
  : option Response * option error :=
  (Some (plain_response
           (if bool_decide (Method req = "POST") then 405
            else if bool_decide (Method req = "OPTIONS") then probe
            else put) req), None).

Definition legacy_env (probe put : Z) : Env :=
  sample_env (legacy_http probe put) no_links.

(** A hypermedia server: negotiation is answered 202 with the given
    links, the PUT as given, every other request with 200. *)
Definition sample_upload : link := mkLink "https://store/x" ∅.
Definition sample_verify : link := mkLink "https://api/verify" ∅.

Definition sample_links : linkMeta :=
  mkLinkMeta (Some {[ "upload" := Some sample_upload; "verify" := Some sample_verify ]}).

Definition hyper_http (put : Request → option Response * option error)
    (h : history) (req : Request) : option Response * option error :=
  if bool_decide (URL req = "https://api/objects/")
  then (Some (plain_response 202 req), None)
  else if bool_decide (Method req = "PUT") then put req
  else (Some (plain_response 200 req), None).

Definition hyper_env (put : Request → option Response * option error)
    (links : linkMeta) : Env :=
  sample_env (hyper_http put) (λ _, inr links).

Definition answer (status : Z) (req : Request) : option Response * option error :=
  (Some (plain_response status req), None).

Definition refuse (req : Request) : option Response * option error :=
  (None, Some (ExternalError "connection refused")).

(** Links that bring their own [Authorization] header. *)
Definition auth_header : gmap string string := {[ "Authorization" := "RemoteAuth token" ]}.

Definition auth_links : linkMeta :=
  mkLinkMeta (Some {[ "upload" := Some (mkLink "https://store/x" auth_header);
                      "verify" := Some (mkLink "https://api/verify" auth_header) ]}).

(** A request and a response with one header each, and an error to
    annotate. *)
Definition sample_request : Request :=
  mkRequest "GET" "https://api/objects/abc"
    {[ "User-Agent" := ["hawser"]; "Authorization" := ["Basic dTpw"] ]} NoBody 0.

Definition sample_response : Response :=
  mkResponse 404 "404 Not Found" {[ "Content-Type" := ["text/plain"] ]}
    empty_body 0 sample_request.

Definition sample_error : WrappedError := Error (errors_New "sample").

(** A server that answers every request with the same status. *)
Definition status_env (status : Z) : Env :=
  sample_env (λ _ req, answer status req) no_links.

(** An executor that reports the given error next to a response of the
    given status. *)
Definition failing_env (status : Z) (e : error) : Env :=
  sample_env (λ _ req, (Some (plain_response status req), Some e)) no_links.

(** An executor that reports an error and no response. *)
Definition refusing_env : Env := sample_env (λ _ req, refuse req) no_links.

(** An object store without the object. *)
Definition missing_object_env : Env :=
  {| Config_ObjectUrl := λ oid, "https://api/objects/" +:+ oid;
     Config_Endpoint := "https://api";
     UserAgent := "hawser";
     url_Parse := inr;
     os_Stat := λ _ _, Some (ExternalError "no such file");
     os_Open := λ _ _, inl (ExternalError "no such file");
     file_Stat := λ _ _, inl (ExternalError "no such file");
     credentials := λ _ _, (Some sample_creds, None);
     DoHTTP := λ _ req, answer 200 req;
     json_Decode_linkMeta := no_links;
     json_Decode_ClientError := λ _, inr (mkClientError "no" EmptyString);
     mime_ParseMediaType := sample_ParseMediaType;
     base64_URLEncode := λ s, s |}.

Definition bare_request : Request :=
  mkRequest "GET" "https://api/objects/abc" ∅ NoBody 0.

(** Link metadata with a relation that is present but null. *)
Definition null_verify_links : linkMeta :=
  mkLinkMeta (Some {[ "upload" := Some sample_upload; "verify" := None ]}).

Definition null_upload_links : linkMeta :=
  mkLinkMeta (Some {[ "upload" := None; "verify" := Some sample_verify ]}).

(** The negotiation request for the sample object. *)
Definition sample_negotiation : Request :=
  set_Header
    (set_Body
       (set_Header
          (set_Header (mkRequest "POST" "https://api/objects/" ∅ NoBody 0)
             "User-Agent" "hawser")
          "Authorization" "Basic u:p")
       (StringBody (oid_size_json "abc" 100)))
    "Accept" gitMediaMetaType.

(** An executor that stops at a redirect: it hands back the 302 response
    together with an error. *)
Definition redirecting_env : Env :=
  failing_env 302 (ExternalError "stopped after 10 redirects").

(** The hypermedia server, with a credential helper that has nothing for
    the storage host. *)
Definition no_store_credentials_env : Env :=
  let env := hyper_env (answer 200) sample_links in
  {| Config_ObjectUrl := Config_ObjectUrl env;
     Config_Endpoint := Config_Endpoint env;
     UserAgent := UserAgent env;
     url_Parse := url_Parse env;
     os_Stat := os_Stat env;
     os_Open := os_Open env;
     file_Stat := file_Stat env;
     credentials := λ h url,
       if bool_decide (url = "https://store/x")
       then (None, Some (ExternalError "no credentials"))
       else credentials env h url;
     DoHTTP := DoHTTP env;
     json_Decode_linkMeta := json_Decode_linkMeta env;
     json_Decode_ClientError := json_Decode_ClientError env;
     mime_ParseMediaType := mime_ParseMediaType env;
     base64_URLEncode := base64_URLEncode env |}.

(** The legacy server, with an object that can be opened but not
    stat'ed by path. *)
Definition unstatable_env : Env :=
  let env := legacy_env 204 200 in
  {| Config_ObjectUrl := Config_ObjectUrl env;
     Config_Endpoint := Config_Endpoint env;
     UserAgent := UserAgent env;
     url_Parse := url_Parse env;
     os_Stat := λ _ _, Some (ExternalError "permission denied");
     os_Open := os_Open env;
     file_Stat := file_Stat env;
     credentials := credentials env;
     DoHTTP := DoHTTP env;
     json_Decode_linkMeta := json_Decode_linkMeta env;
     json_Decode_ClientError := json_Decode_ClientError env;
     mime_ParseMediaType := mime_ParseMediaType env;
     base64_URLEncode := base64_URLEncode env |}.

(** Link metadata without an [upload] relation. *)
Definition verify_only_links : linkMeta :=
  mkLinkMeta (Some {[ "verify" := Some sample_verify ]}).

(** A server that answers negotiation with 202 and a body that does not
    decode. *)
Definition undecodable_links_env : Env :=
  sample_env (hyper_http (answer 200)) no_links.

(** * Properties *)

(** Running the monad one layer at a time. *)
Ltac mrun :=
  cbv beta iota zeta delta [mbind M_bind mret M_ret deref call execCreds].

(** ** Credential settlement *)

(** C4. Settling a credential after a response: with no credential
    attached nothing is recorded; with a credential, a status below 300
    records exactly one approve (and no reject), a status from 300
    through 404 exactly one reject (and no approve), and a status of 405
    or above records nothing. *)
Theorem saveCredentials_settles (creds : option Creds) (res : Response) (h : history) :
  ∃ es, saveCredentials creds (Some res) h = (Ret tt, h ++ es) ∧
    (creds = None → es = []) ∧
    (∀ c, creds = Some c → StatusCode res < 300 → es = [EvExecCreds c "approve"]) ∧
    (∀ c, creds = Some c → 300 ≤ StatusCode res < 405 → es = [EvExecCreds c "reject"]) ∧
    (405 ≤ StatusCode res → es = []).
Proof.
  destruct creds as [c|]; unfold saveCredentials; mrun.
  - destruct (StatusCode res <? 300) eqn:H300; [|destruct (StatusCode res <? 405) eqn:H405].
    + apply Z.ltb_lt in H300. eexists; split; [reflexivity|].
      repeat split; intros; simplify_eq; try lia; done.
    + apply Z.ltb_ge in H300. apply Z.ltb_lt in H405. eexists; split; [reflexivity|].
      repeat split; intros; simplify_eq; try lia; done.
    + apply Z.ltb_ge in H300. apply Z.ltb_ge in H405. exists []. rewrite app_nil_r.
      split; [reflexivity|]. repeat split; intros; simplify_eq; try lia; done.
  - exists []. rewrite app_nil_r. split; [reflexivity|].
    repeat split; intros; simplify_eq; done.
Qed.

(** ** Response classification *)

(** C2. The classifier returns no error for a status below 400 and for
    405, and an error for every other status from 400 up; the error's
    fatality flag is false below 500 and true from 500 up; when the
    error body does not decode, the error is the decode error. *)
Theorem handleResponseError_classifies (env : Env) (res : Response) :
  let st := StatusCode res in
  ((st < 400 ∨ st = 405) → handleResponseError env res = None) ∧
  ((400 ≤ st ∧ st ≠ 405) →
     ∃ w, handleResponseError env res = Some w ∧
          Panic w = bool_decide (500 ≤ st) ∧
          match json_Decode_ClientError env (res_Body res) with
          | inl e => Err w = Some e ∧ Message w = "Error decoding JSON from response"
          | inr apiErr => Err w = Some (EClientError apiErr)
          end).
Proof.
  cbv zeta. unfold handleResponseError. split.
  - intros Hst.
    assert ((StatusCode res <? 400) || (StatusCode res =? 405) = true) as ->; [|done].
    apply orb_true_iff. destruct Hst; [left; lia | right; lia].
  - intros [Hge Hne].
    assert ((StatusCode res <? 400) || (StatusCode res =? 405) = false) as ->.
    { apply orb_false_iff. split; lia. }
    eexists; split; [reflexivity|].
    destruct (StatusCode res <? 500) eqn:H500.
    + apply Z.ltb_lt in H500. rewrite bool_decide_eq_false_2 by lia.
      destruct (json_Decode_ClientError env (res_Body res)); done.
    + apply Z.ltb_ge in H500. rewrite bool_decide_eq_true_2 by lia.
      destruct (json_Decode_ClientError env (res_Body res)); done.
Qed.

(** ** Media header validation *)

(** C3. For a content type whose base media type is the binary media
    type: without a [header] parameter validation fails; with boundary
    [b] the expected marker is ["--" ++ b ++ newline]; exactly that many
    bytes are taken from the body; a body shorter than the marker is a
    read error; a mismatch is an error naming the expected and the
    actual bytes; on success the header size is the marker's length. *)
Theorem validateMediaHeader_framing (env : Env) (contentType : string)
    (params : gmap string string) (reader : Reader) :
  mime_ParseMediaType env contentType = (gitMediaType, params, None) →
  (params !! "header" = None →
     ∃ w, validateMediaHeader env contentType reader = (false, 0, Some w, reader)) ∧
  (∀ boundary, params !! "header" = Some boundary →
     let marker := "--" +:+ boundary +:+ newline in
     let n := String.length marker in
     let got := take n (unread reader) in
     let rest := mkReader (drop n (unread reader)) (at_end reader) in
     ((length (unread reader) < n)%nat →
        ∃ e r, validateMediaHeader env contentType reader
               = (false, Z.of_nat n,
                  Some (Errorf (Some e) "Error reading response body."), r)) ∧
     ((n ≤ length (unread reader))%nat → String.string_of_list_byte got ≠ marker →
        validateMediaHeader env contentType reader
        = (false, Z.of_nat n,
           Some (Error (errors_New ("Invalid header: " +:+ marker +:+ " expected, got "
                                    +:+ String.string_of_list_byte got))),
           rest)) ∧
     ((n ≤ length (unread reader))%nat → String.string_of_list_byte got = marker →
        validateMediaHeader env contentType reader = (true, Z.of_nat n, None, rest))).
Proof.
  intros Hparse. unfold validateMediaHeader. rewrite Hparse.
  rewrite bool_decide_eq_true_2 by reflexivity. split.
  - intros ->. eexists; reflexivity.
  - intros boundary ->. cbv zeta. unfold newline, io_ReadAtLeast.
    set (marker := "--" +:+ boundary +:+ String "010" EmptyString).
    split; [|split].
    + intros Hshort.
      assert ((String.length marker <=? length (unread reader))%nat = false) as ->
        by (apply Nat.leb_gt; exact Hshort).
      eexists _, _; reflexivity.
    + intros Hlen Hne.
      assert ((String.length marker <=? length (unread reader))%nat = true) as ->
        by (apply Nat.leb_le; exact Hlen).
      rewrite bool_decide_eq_false_2 by exact Hne. reflexivity.
    + intros Hlen Heq.
      assert ((String.length marker <=? length (unread reader))%nat = true) as ->
        by (apply Nat.leb_le; exact Hlen).
      rewrite bool_decide_eq_true_2 by exact Heq. reflexivity.
Qed.

(** Witness for C3: boundary [abc123], a body that starts with the nine
    marker bytes. *)
Lemma validateMediaHeader_framing_witness :
  validateMediaHeader download_env "application/vnd.git-media; header=abc123" framed_body
  = (true, 9, None, mkReader sample_data io_EOF).
Proof.
  pose proof (validateMediaHeader_framing download_env
                "application/vnd.git-media; header=abc123"
                {[ "header" := "abc123" ]} framed_body eq_refl) as [_ H].
  specialize (H "abc123" eq_refl). cbv zeta in H.
  destruct H as (_ & _ & H).
  apply H; [vm_compute; lia | reflexivity].
Defined.

(** ** Runs and histories *)

Lemma http_requests_app (h1 h2 : history) :
  http_requests (h1 ++ h2) = http_requests h1 ++ http_requests h2.
Proof. apply omap_app. Qed.

Lemma credential_events_app (h1 h2 : history) :
  credential_events (h1 ++ h2) = credential_events h1 ++ credential_events h2.
Proof. apply filter_app. Qed.

Lemma bind_Ret_inv {A B} (m : M A) (f : A → M B) h b h' :
  (m ≫= f) h = (Ret b, h') →
  ∃ a h1, m h = (Ret a, h1) ∧ f a h1 = (Ret b, h').
Proof.
  unfold mbind, M_bind. destruct (m h) as [[a|] h1]; [eauto | discriminate].
Qed.

Lemma bind_run {A B} (m : M A) (f : A → M B) h a h1 :
  m h = (Ret a, h1) → (m ≫= f) h = f a h1.
Proof. unfold mbind, M_bind. by intros ->. Qed.

Lemma bind_Fault {A B} (m : M A) (f : A → M B) h h1 :
  m h = (Fault, h1) → (m ≫= f) h = (Fault, h1).
Proof. unfold mbind, M_bind. by intros ->. Qed.

Lemma deref_Ret_inv {A} (p : option A) h a h' :
  deref p h = (Ret a, h') → p = Some a ∧ h' = h.
Proof. destruct p; cbn; intros [= ]; subst; done. Qed.

Lemma mret_inv {A} (a b : A) (h h' : history) :
  mret (M := M) a h = (Ret b, h') → a = b ∧ h' = h.
Proof. cbv. by intros [= -> ->]. Qed.

Lemma canonical_User_Agent : CanonicalMIMEHeaderKey "User-Agent" = "User-Agent".
Proof. reflexivity. Qed.
Lemma canonical_Authorization : CanonicalMIMEHeaderKey "Authorization" = "Authorization".
Proof. reflexivity. Qed.
Lemma canonical_Content_Type : CanonicalMIMEHeaderKey "Content-Type" = "Content-Type".
Proof. reflexivity. Qed.
Lemma canonical_Accept : CanonicalMIMEHeaderKey "Accept" = "Accept".
Proof. reflexivity. Qed.

(** Attaching credentials: the request keeps its method, URL and body;
    at most one fetch is made, and none when the request already has an
    [Authorization] header. *)
Lemma setRequestHeaders_run env req h :
  ∃ req' creds err es,
    setRequestHeaders env req h = (Ret (req', creds, err), h ++ es) ∧
    http_requests es = [] ∧
    Method req' = Method req ∧ URL req' = URL req ∧
    req_Body req' = req_Body req ∧ req_ContentLength req' = req_ContentLength req ∧
    (is_Some (req_Header req !! "Authorization") →
       es = [] ∧ creds = None ∧ err = None).
Proof.
  unfold setRequestHeaders.
  destruct (req_Header (set_Header req "User-Agent" (UserAgent env)) !! "Authorization")
    as [v|] eqn:Hauth.
  - eexists _, None, None, []. rewrite app_nil_r. done.
  - mrun. destruct (credentials env h _) as [c [e|]].
    + eexists _, None, (Some e), [_]. split_and!; try done.
      intros [v Hv]. cbn in Hauth. unfold Header_Set in Hauth.
      rewrite canonical_User_Agent, lookup_insert_ne in Hauth by done. congruence.
    + eexists _, c, None, [_]. split_and!; try done.
      intros [v Hv]. cbn in Hauth. unfold Header_Set in Hauth.
      rewrite canonical_User_Agent, lookup_insert_ne in Hauth by done. congruence.
Qed.

(** Settlement makes no HTTP request, does nothing without a credential
    and returns whenever there is a response. *)
Lemma saveCredentials_run creds res h :
  ∃ r es, saveCredentials creds res h = (r, h ++ es) ∧
    http_requests es = [] ∧
    (creds = None → es = [] ∧ r = Ret tt) ∧
    (is_Some res → r = Ret tt).
Proof.
  unfold saveCredentials. destruct creds as [c|].
  - destruct res as [res|]; mrun.
    + destruct (StatusCode res <? 300); [|destruct (StatusCode res <? 405)].
      * eexists _, [_]. done.
      * eexists _, [_]. done.
      * eexists _, []. rewrite app_nil_r. done.
    + eexists _, []. rewrite app_nil_r. split_and!; try done; by intros [? ?].
  - eexists _, []. rewrite app_nil_r. done.
Qed.

(** Building a request for the object endpoint. *)
Lemma request_run env method oid h :
  ∃ req creds err es,
    request env method oid h = (Ret (req, creds, err), h ++ es) ∧
    http_requests es = [] ∧
    match req with
    | Some r => Method r = method ∧
                url_Parse env (Config_ObjectUrl env oid) = inr (URL r) ∧
                req_Body r = NoBody ∧ req_ContentLength r = 0
    | None => is_Some err
    end.
Proof.
  unfold request, http_NewRequest.
  destruct (url_Parse env (Config_ObjectUrl env oid)) as [e|u] eqn:Hu.
  - eexists None, None, (Some e), []. rewrite app_nil_r. done.
  - destruct (setRequestHeaders_run env (mkRequest method u ∅ NoBody 0) h)
      as (req' & creds & err & es & Hrun & Hes & Hm & Hurl & Hb & Hcl & _).
    rewrite (bind_run _ _ _ _ _ Hrun). cbn in *.
    eexists (Some req'), creds, err, es. split_and!; try done.
    by rewrite Hurl.
Qed.

Lemma settle_then_classify env creds res h :
  ∃ es,
    (_ ← match creds with
         | Some _ => saveCredentials creds res
         | None => mret ()
         end;
     r ← deref res; mret (handleResponseError env r)) h
    = (match res with
       | Some r => Ret (handleResponseError env r)
       | None => Fault
       end, h ++ es) ∧
    http_requests es = [] ∧ (creds = None → es = []).
Proof.
  destruct creds as [c|].
  - destruct (saveCredentials_run (Some c) res h) as (r & es & Hs & Hes & _ & Hres).
    exists es. split; [|done].
    destruct res as [res|].
    + rewrite Hres in Hs by done. by rewrite (bind_run _ _ _ _ _ Hs).
    + destruct r as [[]|].
      * by rewrite (bind_run _ _ _ _ _ Hs).
      * by rewrite (bind_Fault _ _ _ _ Hs).
  - exists []. rewrite app_nil_r. split; [|done]. by destruct res.
Qed.

(** One exchange: the request is sent exactly once, settlement follows,
    and the result is [doRequest_result] of what the executor answered. *)
Lemma doRequest_run env req creds h :
  ∃ es, doRequest env req creds h
        = (doRequest_result env req (DoHTTP env h req), h ++ EvHTTP req :: es) ∧
    http_requests es = [] ∧ (creds = None → es = []).
Proof.
  unfold doRequest, doRequest_result.
  destruct (DoHTTP env h req) as [res err] eqn:Hhttp.
  erewrite bind_run; [|unfold call; rewrite Hhttp; reflexivity].
  cbv beta iota.
  destruct (settle_then_classify env creds res (h ++ [EvHTTP req]))
    as (es & Hs & Hes & Hnone).
  rewrite <- app_assoc in Hs. cbn [app] in Hs.
  assert (err = None ∨ err = Some RedirectError ∨
          ∃ e, err = Some e ∧ e ≠ RedirectError) as [->|[->|(e & -> & Hne)]].
  { destruct err as [[]|]; eauto. }
  - exists es. split; [|done]. destruct res as [r|].
    + rewrite (bind_run _ _ _ _ _ Hs). by destruct (handleResponseError env r).
    + by rewrite (bind_Fault _ _ _ _ Hs).
  - exists es. split; [|done]. destruct res as [r|].
    + rewrite (bind_run _ _ _ _ _ Hs). by destruct (handleResponseError env r).
    + by rewrite (bind_Fault _ _ _ _ Hs).
  - exists []. split; [|done].
    destruct res as [r|]; [|by destruct e].
    destruct e; try done; mrun; by destruct (StatusCode r =? 302).
Qed.

(** ** Download *)

Ltac break_match_in H :=
  match type of H with
  | context [match ?x with _ => _ end] =>
      first [ is_var x; destruct x | destruct x eqn:? ]
  end.

Lemma validateMediaHeader_ok env ct r hs w r' :
  validateMediaHeader env ct r = (true, hs, w, r') → w = None.
Proof.
  unfold validateMediaHeader. intros H.
  repeat (break_match_in H; simplify_eq); done.
Qed.

(** C7. A successful download returns the response's declared content
    length minus the header size the media validation reported; the
    subtraction is the 64-bit one, and is exact whenever the difference
    is in range (as it is for every content length from -1 up and every
    marker a Go string can hold). *)
Theorem Download_payload_length (env : Env) (oidPath : string) (h h' : history)
    (body : Reader) (n : Z) :
  Download env oidPath h = (Ret (Some body, n, None), h') →
  ∃ h0 req res err headerSize,
    DoHTTP env h0 req = (Some res, err) ∧
    Method req = "GET" ∧
    validateMediaHeader env (Header_Get (res_Header res) "Content-Type") (res_Body res)
      = (true, headerSize, None, body) ∧
    n = wrap64 (ContentLength res - headerSize) ∧
    (- 2 ^ 63 ≤ ContentLength res - headerSize < 2 ^ 63 →
       n = ContentLength res - headerSize).
Proof.
  intros H. unfold Download in H.
  apply bind_Ret_inv in H as ([[req creds] err] & h1 & Hreq & H).
  destruct err as [e|]; [by apply mret_inv in H as [[= ] _]|].
  apply bind_Ret_inv in H as (req' & h2 & Hderef & H).
  apply deref_Ret_inv in Hderef as [-> ->].
  destruct (request_run env "GET" (filepath_Base oidPath) h)
    as (req0 & creds0 & err0 & es0 & Hreq0 & _ & Hm).
  rewrite Hreq0 in Hreq. injection Hreq as -> _ _ _. destruct Hm as (Hm & _).
  apply bind_Ret_inv in H as ([res wErr] & h3 & Hdo & H).
  destruct (doRequest_run env (set_Header req' "Accept" gitMediaType) creds h1)
    as (es & Hrun & _).
  rewrite Hrun in Hdo. unfold doRequest_result in Hdo.
  destruct (DoHTTP env h1 _) as [res0 err] eqn:Hhttp.
  destruct res0 as [res0|]; [|discriminate]. injection Hdo as <- <- _.
  destruct (_ <$> _) as [w|]; [by apply mret_inv in H as [[= ] _]|].
  apply bind_Ret_inv in H as (res' & h4 & Hderef & H).
  apply deref_Ret_inv in Hderef as [[= ->] ->].
  case_bool_decide as Hct; [by apply mret_inv in H as [[= ] _]|].
  destruct (validateMediaHeader _ _ _) as [[[ok hs] wErr] body'] eqn:Hval.
  destruct ok; cbn [negb] in H.
  - apply mret_inv in H as [[= -> <-] _].
    pose proof (validateMediaHeader_ok _ _ _ _ _ _ Hval) as ->.
    eexists h1, _, res', err, hs. split_and!; [exact Hhttp|done|exact Hval|done|].
    intros Hrange. unfold wrap64.
    rewrite Z.mod_small by lia. lia.
  - apply bind_Ret_inv in H as (w & h5 & _ & H). by apply mret_inv in H as [[= ] _].
Qed.

(** Witness for C7: a response of declared length 109 behind a marker
    of nine bytes yields 100. *)
Lemma Download_payload_length_witness :
  ∃ h0 req res err headerSize,
    DoHTTP download_env h0 req = (Some res, err) ∧
    Method req = "GET" ∧
    validateMediaHeader download_env
      (Header_Get (res_Header res) "Content-Type") (res_Body res)
      = (true, headerSize, None, mkReader sample_data io_EOF) ∧
    100 = wrap64 (ContentLength res - headerSize) ∧
    (- 2 ^ 63 ≤ ContentLength res - headerSize < 2 ^ 63 →
       100 = ContentLength res - headerSize).
Proof.
  eapply (Download_payload_length download_env "/objects/abc" []).
  vm_compute. reflexivity.
Defined.

(** The run of the witness, spelled out: length 109, marker 9, payload 100. *)
Example Download_109_minus_9 :
  (Download download_env "/objects/abc" []).1
  = Ret (Some (mkReader sample_data io_EOF), 100, None).
Proof. vm_compute. reflexivity. Qed.

(** ** Negotiation errors *)

(** [callPost] never returns an error next to 302; its errors come with
    status 0 or 202. *)
Lemma callPost_error_status env filehash filename h lm status w h' :
  callPost env filehash filename h = (Ret (lm, status, Some w), h') →
  status = 0 ∨ status = 202.
Proof.
  unfold callPost. intros H.
  apply bind_Ret_inv in H as ([[req creds] err] & h1 & _ & H).
  destruct err; [apply mret_inv in H as [[= ] _]; by left|].
  apply bind_Ret_inv in H as (file & h2 & _ & H).
  destruct file; [apply mret_inv in H as [[= ] _]; by left|].
  apply bind_Ret_inv in H as (stat & h3 & _ & H).
  destruct stat; [apply mret_inv in H as [[= ] _]; by left|].
  apply bind_Ret_inv in H as (req' & h4 & _ & H).
  apply bind_Ret_inv in H as ([res wErr] & h5 & _ & H).
  destruct wErr; [apply mret_inv in H as [[= ] _]; by left|].
  apply bind_Ret_inv in H as (res' & h6 & _ & H).
  destruct (StatusCode res' =? 202) eqn:H202.
  - destruct (json_Decode_linkMeta env _); apply mret_inv in H as [[= ] _].
    right. lia.
  - apply mret_inv in H as [[= ] _].
Qed.

(** ** The legacy path *)

Lemma call_run {A} (ev : event) (oracle : history → A) h :
  call ev oracle h = (Ret (oracle h), h ++ [ev]).
Proof. reflexivity. Qed.

(** The probe: nothing is sent when the object cannot be found or the
    request cannot be built; otherwise exactly one OPTIONS request. *)
Lemma callOptions_run env filehash h :
  ∃ r es, callOptions env filehash h = (r, h ++ es) ∧
    ((http_requests es = [] ∧ ∃ w, r = Ret (0, Some w)) ∨
     ∃ es1 opt es2,
       es = es1 ++ EvHTTP opt :: es2 ∧
       http_requests es1 = [] ∧ http_requests es2 = [] ∧
       options_probe env filehash opt ∧
       r = probe_outcome (doRequest_result env opt (DoHTTP env (h ++ es1) opt))).
Proof.
  unfold callOptions.
  rewrite (bind_run _ _ _ _ _ (call_run _ _ _)).
  destruct (os_Stat env h filehash) as [e|].
  { eexists _, [_]. split; [reflexivity|]. left. eauto. }
  destruct (request_run env "OPTIONS" (filepath_Base filehash) (h ++ [EvStat filehash]))
    as (req & creds & err & es & Hreq & Hes & Hr).
  rewrite (bind_run _ _ _ _ _ Hreq). cbv beta iota.
  destruct err as [e|].
  { eexists _, (_ :: es). rewrite <- app_assoc. split; [reflexivity|]. left.
    split; [done|eauto]. }
  destruct req as [req|]; [|by destruct Hr as [? [=]]].
  destruct Hr as (Hm & Hu & Hb & _).
  destruct (doRequest_run env req creds ((h ++ [EvStat filehash]) ++ es))
    as (es2 & Hdo & Hes2 & _).
  rewrite <- (app_assoc h) in Hdo.
  set (ans := doRequest_result env req (DoHTTP env (h ++ [EvStat filehash] ++ es) req)) in *.
  eexists (probe_outcome ans), (([EvStat filehash] ++ es) ++ EvHTTP req :: es2).
  split.
  - mrun. rewrite <- (app_assoc h), Hdo, <- (app_assoc h).
    by destruct ans as [[[res|] [w|]]|].
  - right. eexists _, req, es2. split; [reflexivity|]. split_and!; done.
Qed.

Lemma Header_Get_Set (hdr : http_Header) k v : Header_Get (Header_Set hdr k v) k = v.
Proof. unfold Header_Get, Header_Set. by rewrite lookup_insert_eq. Qed.

Lemma Header_Get_Set_ne (hdr : http_Header) k k' v :
  CanonicalMIMEHeaderKey k' ≠ CanonicalMIMEHeaderKey k →
  Header_Get (Header_Set hdr k' v) k = Header_Get hdr k.
Proof. intros Hne. unfold Header_Get, Header_Set. by rewrite lookup_insert_ne. Qed.

(** The legacy PUT: nothing is sent when the object cannot be opened or
    sized or the request cannot be built; otherwise exactly one PUT of
    the file, with the two media types. *)
Lemma callPut_run env filehash filename cb h :
  ∃ r es, callPut env filehash filename cb h = (r, h ++ es) ∧
    ((http_requests es = [] ∧ ∃ w, r = Ret (Some w)) ∨
     ∃ es1 put es2,
       es = es1 ++ EvHTTP put :: es2 ∧
       http_requests es1 = [] ∧ http_requests es2 = [] ∧
       legacy_put env filehash cb put ∧
       r = put_outcome (doRequest_result env put (DoHTTP env (h ++ es1) put))).
Proof.
  unfold callPut.
  rewrite (bind_run _ _ _ _ _ (call_run _ _ _)).
  destruct (os_Open env h filehash) as [e|file] eqn:Hopen.
  { eexists _, [_]. split; [reflexivity|]. left. eauto. }
  rewrite (bind_run _ _ _ _ _ (call_run _ _ _)).
  destruct (file_Stat env (h ++ [EvOpen filehash]) file) as [e|fileSize] eqn:Hstat.
  { eexists _, [_; _]. rewrite <- app_assoc. split; [reflexivity|]. left. eauto. }
  set (pre := [EvOpen filehash; EvFileStat file]).
  replace ((h ++ [EvOpen filehash]) ++ [EvFileStat file]) with (h ++ pre)
    by (by rewrite <- app_assoc).
  destruct (request_run env "PUT" (filepath_Base filehash) (h ++ pre))
    as (req & creds & err & es & Hreq & Hes & Hr).
  rewrite (bind_run _ _ _ _ _ Hreq). cbv beta iota.
  destruct err as [e|].
  { eexists _, (pre ++ es). rewrite app_assoc. split; [reflexivity|]. left.
    split; [|eauto]. by rewrite http_requests_app, Hes. }
  destruct req as [req|]; [|by destruct Hr as [? [=]]].
  destruct Hr as (Hm & Hu & Hb & Hcl).
  mrun. set (put := set_ContentLength _ fileSize).
  destruct (doRequest_run env put creds ((h ++ pre) ++ es)) as (es2 & Hdo & Hes2 & _).
  rewrite <- (app_assoc h) in Hdo.
  set (ans := doRequest_result env put (DoHTTP env (h ++ pre ++ es) put)) in *.
  eexists (put_outcome ans), ((pre ++ es) ++ EvHTTP put :: es2).
  split.
  - rewrite <- (app_assoc h), Hdo, <- (app_assoc h).
    by destruct ans as [[[res|] [w|]]|].
  - right. eexists _, put, es2. split; [reflexivity|].
    split; [by rewrite http_requests_app, Hes|].
    split; [exact Hes2|]. split; [|reflexivity].
    unfold legacy_put. split; [exact Hm|]. split; [exact Hu|].
    split; [|split].
    + cbn. rewrite Header_Get_Set_ne by done. apply Header_Get_Set.
    + cbn. apply Header_Get_Set.
    + eexists file, _, _. split; [exact Hopen|]. split; [exact Hstat|]. reflexivity.
Qed.

Lemma handleResponseError_None env res :
  handleResponseError env res = None ↔ StatusCode res < 400 ∨ StatusCode res = 405.
Proof.
  unfold handleResponseError.
  destruct ((StatusCode res <? 400) || (StatusCode res =? 405)) eqn:Hb.
  - apply orb_true_iff in Hb. split; [|done]. intros _. destruct Hb; [left|right]; lia.
  - apply orb_false_iff in Hb as [H1 H2]. split; [done|]. intros [?|?]; lia.
Qed.

Lemma doRequest_result_answered env req res err :
  err = None ∨ err = Some RedirectError →
  doRequest_result env req (Some res, err)
  = Ret (Some res, (λ w, setErrorResponseContext env w res) <$> handleResponseError env res).
Proof. by intros [->| ->]. Qed.

Lemma Upload_switch_legacy env oidPath filename cb lm status err :
  status = 405 ∨ status = 302 →
  Upload_switch env oidPath filename cb lm status err
  = legacy_fallback env oidPath filename cb.
Proof. by intros [->| ->]. Qed.

(** A run of the legacy path: one POST, one OPTIONS, one PUT, success. *)
Example Upload_legacy_run :
  let run := Upload (legacy_env 204 200) "/objects/abc" "abc.bin" sample_cb [] in
  run.1 = Ret None ∧ Method <$> http_requests run.2 = ["POST"; "OPTIONS"; "PUT"].
Proof. vm_compute. done. Qed.

(** Counterexample to C5 as stated: the probe is answered 404, which is
    not 200, and no PUT is sent; the upload fails instead. *)
Lemma Upload_probe_404_sends_no_PUT :
  let env := legacy_env 404 200 in
  let run := Upload env "/objects/abc" "abc.bin" sample_cb [] in
  (callPost env "/objects/abc" "abc.bin" []).1 = Ret (None, 405, None) ∧
  (∀ h req, Method req = "OPTIONS" →
     ∃ res, DoHTTP env h req = (Some res, None) ∧ StatusCode res = 404) ∧
  Method <$> http_requests run.2 = ["POST"; "OPTIONS"] ∧
  run.1 ≠ Ret None.
Proof.
  cbv zeta. split_and!.
  - vm_compute. reflexivity.
  - intros h req Hm. eexists. cbn. unfold legacy_http. rewrite Hm. done.
  - vm_compute. reflexivity.
  - vm_compute. discriminate.
Qed.

(** ** The hypermedia path *)

Lemma set_Headers_fields entries req :
  Method (set_Headers entries req) = Method req ∧
  URL (set_Headers entries req) = URL req ∧
  req_Body (set_Headers entries req) = req_Body req ∧
  req_ContentLength (set_Headers entries req) = req_ContentLength req.
Proof.
  revert req. induction entries as [|[k v] entries IH]; intros req; [done|].
  destruct (IH (set_Header req k v)) as (H1 & H2 & H3 & H4).
  split_and!; (etrans; [eassumption|reflexivity]).
Qed.

(** The verify block: without a [verify] relation nothing happens; with
    one, at most one POST, carrying the OID and the size, and a failed
    transport is returned as the error. *)
Lemma callExternalPut_verify_run env filehash filename lm size h :
  ∃ r es, callExternalPut_verify env filehash filename lm size h = (r, h ++ es) ∧
    match Rel lm "verify" with
    | (_, false) => es = [] ∧ r = Ret None
    | (None, true) => es = [] ∧ r = Fault
    | (Some ve, true) =>
        (http_requests es = [] ∧ ∃ w, r = Ret (Some w)) ∨
        ∃ es1 post es2,
          es = es1 ++ EvHTTP post :: es2 ∧
          http_requests es1 = [] ∧ http_requests es2 = [] ∧
          verify_post env filehash ve size post ∧
          match DoHTTP env (h ++ es1) post with
          | (_, Some e) =>
              es2 = [] ∧
              r = Ret (Some (Errorf (Some e) ("Error attempting to verify " +:+ filename)))
          | (None, None) => es2 = [] ∧ r = Fault
          | (Some _, None) => r = Ret None
          end
    end.
Proof.
  unfold callExternalPut_verify.
  destruct (Rel lm "verify") as [[ve|] [|]].
  2-4: eexists _, []; rewrite app_nil_r; split; [reflexivity|done].
  mrun. unfold http_NewRequest.
  destruct (url_Parse env (Href ve)) as [e|u] eqn:Hu.
  { eexists _, []. rewrite app_nil_r. split; [reflexivity|]. left. eauto. }
  set (req0 := set_Headers _ _).
  destruct (setRequestHeaders_run env req0 h)
    as (req' & creds & err & es & Hrun & Hes & Hm & Hurl & Hb & Hcl & _).
  rewrite Hrun.
  destruct err as [e|].
  { eexists _, es. split; [reflexivity|]. left. eauto. }
  set (post := set_Body req' _).
  assert (verify_post env filehash ve size post) as Hpost.
  { destruct (set_Headers_fields (range_Header (link_Header ve))
                (mkRequest "POST" u ∅ NoBody 0)) as (H1 & H2 & _).
    fold req0 in H1, H2. rewrite <- Hm in H1. rewrite <- Hurl in H2.
    unfold verify_post. split; [exact H1|]. split; [|reflexivity].
    rewrite Hu. f_equal. symmetry. exact H2. }
  destruct (DoHTTP env (h ++ es) post) as [res [e|]] eqn:Hhttp.
  { eexists _, (es ++ [EvHTTP post]). rewrite app_assoc. split; [reflexivity|].
    right. eexists es, post, []. rewrite Hhttp. split_and!; try done; by destruct res. }
  destruct res as [res|].
  2:{ eexists _, (es ++ [EvHTTP post]). rewrite app_assoc. split; [reflexivity|].
      right. eexists es, post, []. rewrite Hhttp. split_and!; done. }
  destruct (saveCredentials_run creds (Some res) ((h ++ es) ++ [EvHTTP post]))
    as (r & es2 & Hs & Hes2 & _ & Hr).
  rewrite Hr in Hs by done. rewrite Hs.
  eexists _, (es ++ EvHTTP post :: es2). split.
  - rewrite <- !app_assoc. reflexivity.
  - right. eexists es, post, es2. split_and!; try done. by rewrite Hhttp.
Qed.

(** The hypermedia PUT: nothing is sent when the object cannot be opened
    or sized or the request cannot be built; otherwise exactly one PUT
    to the [upload] link, after which a transport error is returned at
    once and a response of any status leads on to the verify block. *)
Lemma callExternalPut_run env filehash filename lm up cb h :
  Rel lm "upload" = (Some up, true) →
  ∃ r es, callExternalPut env filehash filename (Some lm) cb h = (r, h ++ es) ∧
    ((http_requests es = [] ∧ ∃ w, r = Ret (Some w)) ∨
     ∃ es1 put es2,
       es = es1 ++ EvHTTP put :: es2 ∧
       http_requests es1 = [] ∧
       upload_put env filehash cb up put ∧
       match DoHTTP env (h ++ es1) put with
       | (_, Some e) =>
           es2 = [] ∧
           r = Ret (Some (Errorf (Some e) ("Error attempting to PUT " +:+ filename)))
       | (None, None) => es2 = [] ∧ r = Fault
       | (Some _, None) =>
           ∃ es_s es_v,
             es2 = es_s ++ es_v ∧ http_requests es_s = [] ∧
             callExternalPut_verify env filehash filename lm (req_ContentLength put)
               (h ++ es1 ++ EvHTTP put :: es_s)
             = (r, (h ++ es1 ++ EvHTTP put :: es_s) ++ es_v)
       end).
Proof.
  intros Hup. unfold callExternalPut. rewrite Hup. cbn [negb].
  rewrite (bind_run _ _ _ _ _ (call_run _ _ _)).
  destruct (os_Open env h filehash) as [e|file] eqn:Hopen.
  { eexists _, [_]. split; [reflexivity|]. left. eauto. }
  rewrite (bind_run _ _ _ _ _ (call_run _ _ _)).
  destruct (file_Stat env (h ++ [EvOpen filehash]) file) as [e|fileSize] eqn:Hstat.
  { eexists _, [_; _]. rewrite <- app_assoc. split; [reflexivity|]. left. eauto. }
  set (pre := [EvOpen filehash; EvFileStat file]).
  replace ((h ++ [EvOpen filehash]) ++ [EvFileStat file]) with (h ++ pre)
    by (by rewrite <- app_assoc).
  mrun. unfold http_NewRequest.
  destruct (url_Parse env (Href up)) as [e|u] eqn:Hu.
  { eexists _, pre. split; [reflexivity|]. left. eauto. }
  set (req0 := set_Headers _ _).
  destruct (setRequestHeaders_run env req0 (h ++ pre))
    as (req' & creds & err & es & Hrun & Hes & Hm & Hurl & Hb & Hcl & _).
  rewrite Hrun.
  destruct err as [e|].
  { eexists _, (pre ++ es). rewrite app_assoc. split; [reflexivity|]. left.
    split; [|eauto]. by rewrite http_requests_app, Hes. }
  set (put := set_ContentLength _ fileSize).
  assert (upload_put env filehash cb up put) as Hput.
  { destruct (set_Headers_fields (range_Header (link_Header up))
                (mkRequest "PUT" u ∅ NoBody 0)) as (H1 & H2 & _).
    fold req0 in H1, H2. rewrite <- Hm in H1. rewrite <- Hurl in H2.
    unfold upload_put. split; [exact H1|]. split.
    - rewrite Hu. f_equal. symmetry. exact H2.
    - eexists file, _, _. split; [exact Hopen|]. split; [exact Hstat|reflexivity]. }
  assert (http_requests (pre ++ es) = []) as Hpre
    by (by rewrite http_requests_app, Hes).
  destruct (DoHTTP env ((h ++ pre) ++ es) put) as [res [e|]] eqn:Hhttp.
  { eexists _, ((pre ++ es) ++ [EvHTTP put]). rewrite !app_assoc. split; [reflexivity|].
    right. eexists (pre ++ es), put, []. rewrite app_assoc, Hhttp.
    split_and!; try done; by destruct res. }
  destruct res as [res|].
  2:{ eexists _, ((pre ++ es) ++ [EvHTTP put]). rewrite !app_assoc. split; [reflexivity|].
      right. eexists (pre ++ es), put, []. rewrite app_assoc, Hhttp.
      split_and!; done. }
  destruct (saveCredentials_run creds (Some res) (((h ++ pre) ++ es) ++ [EvHTTP put]))
    as (r & es2 & Hs & Hes2 & _ & Hr).
  rewrite Hr in Hs by done. rewrite Hs.
  destruct (callExternalPut_verify_run env filehash filename lm fileSize
              ((((h ++ pre) ++ es) ++ [EvHTTP put]) ++ es2)) as (rv & esv & Hv & _).
  eexists rv, ((pre ++ es) ++ EvHTTP put :: es2 ++ esv). split.
  - rewrite Hv. f_equal. rewrite <- !app_assoc. reflexivity.
  - right. eexists (pre ++ es), put, (es2 ++ esv). split_and!; try done.
    rewrite app_assoc, Hhttp. eexists es2, esv. split_and!; try done.
    replace (h ++ (pre ++ es) ++ EvHTTP put :: es2)
      with ((((h ++ pre) ++ es) ++ [EvHTTP put]) ++ es2)
      by (rewrite <- !app_assoc; reflexivity).
    exact Hv.
Qed.

Lemma Upload_switch_hypermedia env oidPath filename cb lm err :
  Upload_switch env oidPath filename cb lm 202 err
  = (err ← callExternalPut env oidPath filename lm cb;
     match err with
     | Some e =>
         mret (Some (Errorf (Some (EWrapped e))
                       ("Error uploading file " +:+ filename +:+ " ("
                        +:+ filepath_Base oidPath +:+ ")")))
     | None => mret None
     end).
Proof. reflexivity. Qed.

Lemma http_requests_one (es1 es2 : history) (req : Request) :
  http_requests es1 = [] → http_requests es2 = [] →
  http_requests (es1 ++ EvHTTP req :: es2) = [req].
Proof.
  intros H1 H2. rewrite http_requests_app, H1. cbn.
  unfold http_requests in H2. by rewrite H2.
Qed.

Lemma http_requests_two (es1 es2 es3 : history) (req1 req2 : Request) :
  http_requests es1 = [] → http_requests es2 = [] → http_requests es3 = [] →
  http_requests (es1 ++ EvHTTP req1 :: es2 ++ EvHTTP req2 :: es3) = [req1; req2].
Proof.
  intros H1 H2 H3. rewrite http_requests_app, H1. cbn.
  fold (http_requests (es2 ++ EvHTTP req2 :: es3)).
  by rewrite (http_requests_one _ _ _ H2 H3).
Qed.

(** A run of the hypermedia path, read off. *)
Example Upload_hypermedia_run :
  let run := Upload (hyper_env (answer 200) sample_links)
               "/objects/abc" "abc.bin" sample_cb [] in
  run.1 = Ret None ∧
  (λ req, (Method req, URL req, req_Body req)) <$> http_requests run.2
  = [("POST", "https://api/objects/", StringBody (oid_size_json "abc" 100));
     ("PUT", "https://store/x",
      CallbackReader sample_cb 100 (mkFile "/objects/abc" sample_data));
     ("POST", "https://api/verify", StringBody (oid_size_json "abc" 100))].
Proof. vm_compute. done. Qed.

(** Counterexample to C1 as stated: negotiation answers 202 with both
    links, the transport of the PUT fails, and no POST to the verify
    link follows. *)
Lemma Upload_PUT_refused_no_verify :
  let env := hyper_env refuse sample_links in
  let run := Upload env "/objects/abc" "abc.bin" sample_cb [] in
  (callPost env "/objects/abc" "abc.bin" []).1 = Ret (Some sample_links, 202, None) ∧
  Rel sample_links "upload" = (Some sample_upload, true) ∧
  Rel sample_links "verify" = (Some sample_verify, true) ∧
  (λ req, (Method req, URL req)) <$> http_requests run.2
  = [("POST", "https://api/objects/"); ("PUT", "https://store/x")] ∧
  run.1 ≠ Ret None.
Proof.
  cbv zeta. split_and!.
  - vm_compute. reflexivity.
  - reflexivity.
  - reflexivity.
  - vm_compute. reflexivity.
  - vm_compute. discriminate.
Qed.

(** ** Failing sub-requests *)

Lemma Err_setErrorHeaderContext w prefix head :
  Err (setErrorHeaderContext w prefix head) = Err w.
Proof.
  unfold setErrorHeaderContext. generalize (map_to_list head). intros l.
  revert w. induction l as [|[k v] l IH]; intros w; [done|].
  cbn [foldl]. rewrite IH. unfold setErrorHeaderContext_step.
  by destruct (hiddenHeaders !! _).
Qed.

Lemma Err_setErrorRequestContext env w req :
  Err (setErrorRequestContext env w req) = Err w.
Proof. unfold setErrorRequestContext. by rewrite Err_setErrorHeaderContext. Qed.

Lemma Err_setErrorResponseContext env w res :
  Err (setErrorResponseContext env w res) = Err w.
Proof.
  unfold setErrorResponseContext.
  by rewrite Err_setErrorRequestContext, Err_setErrorHeaderContext.
Qed.

(** The first HTTP request of a history is determined by the history. *)
Lemma first_http_unique (es1 es2 es1' es2' : history) (req req' : Request) :
  es1 ++ EvHTTP req :: es2 = es1' ++ EvHTTP req' :: es2' →
  http_requests es1 = [] → http_requests es1' = [] →
  es1 = es1' ∧ req = req' ∧ es2 = es2'.
Proof.
  revert es1'. induction es1 as [|ev es1 IH]; intros [|ev' es1'] Heq H1 H1'.
  - by injection Heq as -> ->.
  - injection Heq as <- _. done.
  - injection Heq as -> _. done.
  - injection Heq as -> Heq.
    destruct (IH es1' Heq) as (-> & -> & ->); [by destruct ev'..|done].
Qed.

(** C6, as the code has it.  Legacy PUT: an answer of 400 or above,
    other than 405, and a transport failure whose response is not a 302,
    make [callPut] return an error, and nothing is sent after the PUT.
    Hypermedia PUT and verify POST: a transport failure makes
    [callExternalPut] return that error, and nothing at all happens
    after the failed request.  [Upload] returns the error of the
    sub-request, wrapped, without doing anything more. *)
Theorem Upload_subrequest_failure (env : Env) (oidPath filename : string)
    (cb : CopyCallback) :
  (∀ h, ∃ r es, callPut env oidPath filename cb h = (r, h ++ es) ∧
     ((http_requests es = [] ∧ ∃ w, r = Ret (Some w)) ∨
      ∃ es1 put es2,
        es = es1 ++ EvHTTP put :: es2 ∧
        http_requests es1 = [] ∧ http_requests es2 = [] ∧
        legacy_put env oidPath cb put ∧
        ∀ res err, DoHTTP env (h ++ es1) put = (Some res, err) →
          (err = None ∨ err = Some RedirectError →
           400 ≤ StatusCode res → StatusCode res ≠ 405 →
           ∃ w, r = Ret (Some w)) ∧
          (∀ e, err = Some e → e ≠ RedirectError → StatusCode res ≠ 302 →
           ∃ w, r = Ret (Some w) ∧ Err w = Some e))) ∧
  (∀ lm up h, Rel lm "upload" = (Some up, true) →
     ∃ r es, callExternalPut env oidPath filename (Some lm) cb h = (r, h ++ es) ∧
       ((http_requests es = [] ∧ ∃ w, r = Ret (Some w)) ∨
        ∃ es1 put es2,
          es = es1 ++ EvHTTP put :: es2 ∧
          http_requests es1 = [] ∧
          upload_put env oidPath cb up put ∧
          (∀ res e, DoHTTP env (h ++ es1) put = (res, Some e) →
             es2 = [] ∧ ∃ w, r = Ret (Some w) ∧ Err w = Some e) ∧
          (∀ es3 post es4,
             es2 = es3 ++ EvHTTP post :: es4 → http_requests es3 = [] →
             ∀ res e, DoHTTP env (h ++ es1 ++ EvHTTP put :: es3) post = (res, Some e) →
               es4 = [] ∧ ∃ w, r = Ret (Some w) ∧ Err w = Some e))) ∧
  (∀ lm status err h w h2,
     let wrapped :=
       Errorf (Some (EWrapped w))
         ("Error uploading file " +:+ filename +:+ " ("
          +:+ filepath_Base oidPath +:+ ")") in
     (status = 202 →
      callExternalPut env oidPath filename lm cb h = (Ret (Some w), h2) →
      Upload_switch env oidPath filename cb lm status err h = (Ret (Some wrapped), h2)) ∧
     (status = 405 ∨ status = 302 →
      ∀ st h1, callOptions env oidPath h = (Ret (st, None), h1) → st ≠ 200 →
      callPut env oidPath filename cb h1 = (Ret (Some w), h2) →
      Upload_switch env oidPath filename cb lm status err h = (Ret (Some wrapped), h2))).
Proof.
  split; [|split].
  - intros h.
    destruct (callPut_run env oidPath filename cb h) as (r & es & Hrun & Hcase).
    exists r, es. split; [done|].
    destruct Hcase as [?|(es1 & put & es2 & -> & H1 & H2 & Hput & ->)]; [by left|].
    right. exists es1, put, es2. split_and!; try done.
    intros res err Hhttp. rewrite Hhttp. split.
    + intros Herr Hge Hne. rewrite doRequest_result_answered by done. cbn.
      destruct (handleResponseError env res) eqn:Hh; [by eauto|].
      apply handleResponseError_None in Hh. lia.
    + intros e -> Hne H302. cbn.
      assert ((StatusCode res =? 302) = false) as H302' by lia.
      destruct e; try done; cbn; rewrite H302'; cbn;
        (eexists; split; [reflexivity|]; by rewrite Err_setErrorResponseContext).
  - intros lm up h Hup.
    destruct (callExternalPut_run env oidPath filename lm up cb h Hup)
      as (r & es & Hrun & Hcase).
    exists r, es. split; [done|].
    destruct Hcase as [?|(es1 & put & es2 & -> & H1 & Hput & Hans)]; [by left|].
    right. exists es1, put, es2. split_and!; try done.
    + intros res e Hhttp. rewrite Hhttp in Hans.
      assert (es2 = [] ∧ r = Ret (Some (Errorf (Some e)
                ("Error attempting to PUT " +:+ filename)))) as [-> ->]
        by (by destruct res).
      split; [done|]. by eexists.
    + intros es3 post es4 -> H3 res e Hhttp.
      destruct (DoHTTP env (h ++ es1) put) as [[res0|] [e0|]].
      1,3,4: by destruct Hans as [Hnil _]; destruct es3.
      destruct Hans as (es_s & es_v & Hes2 & Hs & Hv).
      destruct (callExternalPut_verify_run env oidPath filename lm (req_ContentLength put)
                  (h ++ es1 ++ EvHTTP put :: es_s)) as (rv & esv & Hv' & Hmatch).
      rewrite Hv in Hv'. injection Hv' as <- Hesv. apply app_inv_head in Hesv as <-.
      assert (http_requests (es3 ++ EvHTTP post :: es4) = http_requests es_v) as Hcount.
      { by rewrite Hes2, http_requests_app, Hs. }
      rewrite http_requests_app, H3 in Hcount. cbn in Hcount.
      destruct (Rel lm "verify") as [[ve|] [|]].
      2-4: by destruct Hmatch as [-> _].
      destruct Hmatch as [[Hnone _]|(e1 & post0 & e2 & -> & He1 & He2 & Hvp & Hans)].
      { by rewrite Hnone in Hcount. }
      rewrite app_assoc in Hes2.
      apply first_http_unique in Hes2 as (-> & -> & ->);
        [|done|by rewrite http_requests_app, Hs, He1].
      replace ((h ++ es1 ++ EvHTTP put :: es_s) ++ e1)
        with (h ++ es1 ++ EvHTTP put :: es_s ++ e1) in Hans
        by (by rewrite <- !app_assoc).
      rewrite Hhttp in Hans.
      assert (e2 = [] ∧ r = Ret (Some (Errorf (Some e)
                ("Error attempting to verify " +:+ filename)))) as [-> ->]
        by (by destruct res).
      split; [done|]. by eexists.
  - intros lm status err h w h2. cbv zeta. split.
    + intros -> Hrun. rewrite Upload_switch_hypermedia.
      by rewrite (bind_run _ _ _ _ _ Hrun).
    + intros Hst st h1 Hopt Hne Hrun. rewrite Upload_switch_legacy by done.
      unfold legacy_fallback. rewrite (bind_run _ _ _ _ _ Hopt). cbv beta iota.
      assert (negb (st =? 200) = true) as -> by (apply negb_true_iff; lia).
      by rewrite (bind_run _ _ _ _ _ Hrun).
Qed.

(** Counterexample to C6 as stated: the legacy PUT is answered 301, a
    status outside 2xx, and the upload returns without error. *)
Lemma Upload_legacy_PUT_301_succeeds :
  let env := legacy_env 204 301 in
  let run := Upload env "/objects/abc" "abc.bin" sample_cb [] in
  (∀ h req, Method req = "PUT" →
     ∃ res, DoHTTP env h req = (Some res, None) ∧ StatusCode res = 301) ∧
  Method <$> http_requests run.2 = ["POST"; "OPTIONS"; "PUT"] ∧
  run.1 = Ret None.
Proof.
  cbv zeta. split_and!.
  - intros h req Hm. eexists. cbn. unfold legacy_http. rewrite Hm. done.
  - vm_compute. reflexivity.
  - vm_compute. reflexivity.
Qed.

(** Runs of the failures the theorem speaks of: a legacy PUT answered
    500, and a hypermedia PUT whose transport fails. *)
Example Upload_legacy_PUT_500_fails :
  let run := Upload (legacy_env 204 500) "/objects/abc" "abc.bin" sample_cb [] in
  Method <$> http_requests run.2 = ["POST"; "OPTIONS"; "PUT"] ∧
  ∃ w w0, run.1 = Ret (Some w) ∧ Err w = Some (EWrapped w0) ∧ Panic w0 = true.
Proof. vm_compute. split; [done|]. eexists _, _. done. Qed.

(** A hypermedia PUT answered 500 is not looked at: the verify POST is
    sent and the upload returns without error. *)
Example Upload_hypermedia_PUT_500_ignored :
  let run := Upload (hyper_env (answer 500) sample_links)
               "/objects/abc" "abc.bin" sample_cb [] in
  run.1 = Ret None ∧
  (λ req, (Method req, URL req)) <$> http_requests run.2
  = [("POST", "https://api/objects/"); ("PUT", "https://store/x");
     ("POST", "https://api/verify")].
Proof. vm_compute. done. Qed.

(** ** Links that bring their own Authorization *)

Lemma quiet_bind {A B} (m : M A) (f : A → M B) (Q : A → Prop) (R : B → Prop) :
  quiet m Q → (∀ a, Q a → quiet (f a) R) → quiet (m ≫= f) R.
Proof.
  intros Hm Hf h. destruct (Hm h) as (r & es & Hrun & Hes & HQ).
  destruct r as [a|].
  - destruct (Hf a (HQ a eq_refl) (h ++ es)) as (r' & es' & Hrun' & Hes' & HR).
    exists r', (es ++ es'). rewrite (bind_run _ _ _ _ _ Hrun), Hrun', app_assoc.
    split; [done|]. split; [|done]. by rewrite credential_events_app, Hes, Hes'.
  - exists Fault, es. rewrite (bind_Fault _ _ _ _ Hrun). done.
Qed.

Lemma quiet_until_bind {A B} (m : M A) (f : A → M B) (Q : A → Prop) (K : Z → M B) :
  quiet m Q → (∀ a, Q a → quiet_until (f a) K) → quiet_until (m ≫= f) K.
Proof.
  intros Hm Hf h. destruct (Hm h) as (r & es & Hrun & Hes & HQ).
  destruct r as [a|].
  - destruct (Hf a (HQ a eq_refl) (h ++ es)) as (r' & es1 & es2 & Hrun' & Hes1 & HK).
    exists r', (es ++ es1), es2.
    rewrite (bind_run _ _ _ _ _ Hrun), Hrun', <- !app_assoc.
    split; [done|]. split; [by rewrite credential_events_app, Hes, Hes1|].
    destruct HK as [->|[size HK]]; [by left|right].
    exists size. by rewrite <- !app_assoc in HK.
  - exists Fault, es, []. rewrite (bind_Fault _ _ _ _ Hrun), app_nil_r.
    split; [done|]. split; [done|by left].
Qed.

Lemma quiet_ret {A} (a : A) (Q : A → Prop) : Q a → quiet (mret a) Q.
Proof.
  intros HQ h. exists (Ret a), []. rewrite app_nil_r.
  split; [done|]. split; [done|]. by intros ? [= <-].
Qed.

Lemma quiet_until_ret {A} (a : A) (K : Z → M A) : quiet_until (mret a) K.
Proof.
  intros h. exists (Ret a), [], []. rewrite !app_nil_r.
  split; [done|]. split; [done|by left].
Qed.

Lemma quiet_until_self {A} (K : Z → M A) size :
  (∀ h, ∃ r es, K size h = (r, h ++ es)) → quiet_until (K size) K.
Proof.
  intros Hext h. destruct (Hext h) as (r & es & Hrun).
  exists r, [], es. rewrite app_nil_r. cbn [app].
  split; [done|]. split; [done|]. right. by exists size.
Qed.

Lemma quiet_call {A} (ev : event) (oracle : history → A) :
  is_credential_event ev = false → quiet (call ev oracle) (λ _, True).
Proof.
  intros Hev h. exists (Ret (oracle h)), [ev]. split; [done|]. split; [|done].
  unfold credential_events. cbn. rewrite decide_False; [done|]. by rewrite Hev.
Qed.

Lemma quiet_deref {A} (p : option A) : quiet (deref p) (λ a, p = Some a).
Proof.
  intros h. destruct p as [a|].
  - exists (Ret a), []. rewrite app_nil_r. split; [done|]. split; [done|].
    by intros ? [= <-].
  - exists Fault, []. rewrite app_nil_r. done.
Qed.

(** Applying a link's headers, in whatever order, leaves the request
    with an [Authorization] header when the link has one. *)
Lemma set_Headers_preserves entries req k :
  is_Some (req_Header req !! k) → is_Some (req_Header (set_Headers entries req) !! k).
Proof.
  revert req. induction entries as [|[k' v'] entries IH]; intros req Hk; [done|].
  apply (IH (set_Header req k' v')). cbn. unfold Header_Set.
  destruct (decide (CanonicalMIMEHeaderKey k' = k)) as [->|Hne].
  - by rewrite lookup_insert_eq.
  - by rewrite lookup_insert_ne.
Qed.

Lemma set_Headers_Authorization entries req v :
  ("Authorization", v) ∈ entries →
  is_Some (req_Header (set_Headers entries req) !! "Authorization").
Proof.
  revert req. induction entries as [|[k' v'] entries IH]; intros req Hin.
  - by apply elem_of_nil in Hin.
  - apply elem_of_cons in Hin as [[= <- <-]|Hin].
    + apply (set_Headers_preserves entries (set_Header req "Authorization" v)).
      cbn. unfold Header_Set. by rewrite canonical_Authorization, lookup_insert_eq.
    + apply (IH (set_Header req k' v') Hin).
Qed.

Lemma range_Header_Authorization (hdr : gmap string string) req :
  is_Some (hdr !! "Authorization") →
  is_Some (req_Header (set_Headers (range_Header hdr) req) !! "Authorization").
Proof.
  intros [v Hv]. apply (set_Headers_Authorization _ _ v).
  unfold range_Header. by apply elem_of_map_to_list.
Qed.

Lemma setRequestHeaders_quiet env req :
  is_Some (req_Header req !! "Authorization") →
  quiet (setRequestHeaders env req) (λ x, x.1.2 = None ∧ x.2 = None).
Proof.
  intros Hauth h.
  destruct (setRequestHeaders_run env req h)
    as (req' & creds & err & es & Hrun & _ & _ & _ & _ & _ & Hskip).
  destruct (Hskip Hauth) as (-> & -> & ->).
  eexists _, []. split; [exact Hrun|]. split; [done|]. by intros ? [= <-].
Qed.

Lemma saveCredentials_quiet res : quiet (saveCredentials None res) (λ _, True).
Proof. intros h. exists (Ret ()), []. rewrite app_nil_r. done. Qed.

Lemma callExternalPut_verify_quiet env filehash filename lm size ve :
  Rel lm "verify" = (Some ve, true) →
  is_Some (link_Header ve !! "Authorization") →
  quiet (callExternalPut_verify env filehash filename lm size) (λ _, True).
Proof.
  intros Hve Hauth. unfold callExternalPut_verify. rewrite Hve.
  eapply quiet_bind; [apply quiet_deref|]. intros ? [= <-].
  destruct (http_NewRequest env "POST" (Href ve)) as [e|req]; [by apply quiet_ret|].
  eapply quiet_bind.
  { apply setRequestHeaders_quiet. by apply range_Header_Authorization. }
  intros [[req' creds] err] [Hc He]. cbn in Hc, He. subst.
  eapply quiet_bind; [by apply quiet_call|]. intros [res [e|]] _; [by apply quiet_ret|].
  eapply quiet_bind; [apply quiet_deref|]. intros ? _.
  eapply quiet_bind; [apply saveCredentials_quiet|]. intros ? _. by apply quiet_ret.
Qed.

Lemma callExternalPut_quiet_until env filehash filename lm up cb :
  Rel lm "upload" = (Some up, true) →
  is_Some (link_Header up !! "Authorization") →
  quiet_until (callExternalPut env filehash filename (Some lm) cb)
              (callExternalPut_verify env filehash filename lm).
Proof.
  intros Hup Hauth. unfold callExternalPut. rewrite Hup. cbn [negb].
  eapply quiet_until_bind; [by apply quiet_call|].
  intros [e|file] _; [by apply quiet_until_ret|].
  eapply quiet_until_bind; [by apply quiet_call|].
  intros [e|fileSize] _; [by apply quiet_until_ret|].
  eapply quiet_until_bind; [apply quiet_deref|]. intros ? [= <-].
  destruct (http_NewRequest env "PUT" (Href up)) as [e|req]; [by apply quiet_until_ret|].
  eapply quiet_until_bind.
  { apply setRequestHeaders_quiet. by apply range_Header_Authorization. }
  intros [[req' creds] err] [Hc He]. cbn in Hc, He. subst.
  eapply quiet_until_bind; [by apply quiet_call|].
  intros [res [e|]] _; [by apply quiet_until_ret|].
  eapply quiet_until_bind; [apply quiet_deref|]. intros ? _.
  eapply quiet_until_bind; [apply saveCredentials_quiet|]. intros ? _.
  apply quiet_until_self. intros h.
  destruct (callExternalPut_verify_run env filehash filename lm fileSize h)
    as (r & es & Hrun & _). eauto.
Qed.

(** C10. In both hypermedia sub-requests the link's headers are applied
    before credentials are attached.  So, for a link with an
    [Authorization] entry: whatever the order of the entries, the
    request has the header; attaching credentials then fetches nothing
    and returns no credential; settling no credential does nothing; the
    verify block calls the credential helper not once; and in
    [callExternalPut] everything up to the verify block is free of such
    calls. *)
Theorem link_Authorization_skips_credentials (env : Env) :
  (∀ entries req v, ("Authorization", v) ∈ entries →
     is_Some (req_Header (set_Headers entries req) !! "Authorization")) ∧
  (∀ req h, is_Some (req_Header req !! "Authorization") →
     ∃ req', setRequestHeaders env req h = (Ret (req', None, None), h)) ∧
  (∀ res h, saveCredentials None res h = (Ret (), h)) ∧
  (∀ filehash filename lm size ve h,
     Rel lm "verify" = (Some ve, true) →
     is_Some (link_Header ve !! "Authorization") →
     ∃ r es, callExternalPut_verify env filehash filename lm size h = (r, h ++ es) ∧
             credential_events es = []) ∧
  (∀ filehash filename lm up cb h,
     Rel lm "upload" = (Some up, true) →
     is_Some (link_Header up !! "Authorization") →
     ∃ r es1 es2,
       callExternalPut env filehash filename (Some lm) cb h = (r, h ++ es1 ++ es2) ∧
       credential_events es1 = [] ∧
       (es2 = [] ∨
        ∃ size, callExternalPut_verify env filehash filename lm size (h ++ es1)
                = (r, (h ++ es1) ++ es2))).
Proof.
  split_and!.
  - intros entries req v. apply set_Headers_Authorization.
  - intros req h Hauth.
    destruct (setRequestHeaders_run env req h)
      as (req' & creds & err & es & Hrun & _ & _ & _ & _ & _ & Hskip).
    destruct (Hskip Hauth) as (-> & -> & ->). rewrite app_nil_r in Hrun. eauto.
  - done.
  - intros filehash filename lm size ve h Hve Hauth.
    destruct (callExternalPut_verify_quiet env filehash filename lm size ve Hve Hauth h)
      as (r & es & Hrun & Hes & _). eauto.
  - intros filehash filename lm up cb h Hup Hauth.
    apply (callExternalPut_quiet_until env filehash filename lm up cb Hup Hauth h).
Qed.

(** Two runs side by side: with links that carry [Authorization] the
    credential helper is not called after negotiation; with plain links
    it is asked twice and told twice. *)
Example Upload_with_link_Authorization :
  let credential_calls env :=
    credential_events
      (drop (length (callPost env "/objects/abc" "abc.bin" []).2)
            (Upload env "/objects/abc" "abc.bin" sample_cb []).2) in
  credential_calls (hyper_env (answer 200) auth_links) = [] ∧
  credential_calls (hyper_env (answer 200) sample_links)
  = [EvCredentials "https://store/x"; EvExecCreds sample_creds "approve";
     EvCredentials "https://api/verify"; EvExecCreds sample_creds "approve"].
Proof. vm_compute. done. Qed.

(** ** Error context *)

Lemma append_inj_l (s a b : string) : s +:+ a = s +:+ b → a = b.
Proof. induction s as [|c s IH]; cbn; [done|]. intros [= H]. by apply IH. Qed.

Lemma context_Set_ w k v : context (Set_ w k v) = <[k := v]> (context w).
Proof. by destruct w. Qed.

Section HeaderLoop.

Context (prefix : string) (head : http_Header).

Local Abbreviation step := (setErrorHeaderContext_step prefix head).

Lemma step_context e kv :
  context (step e kv) = <[prefix +:+ ":" +:+ kv.1 := recorded head kv.1]> (context e).
Proof.
  unfold setErrorHeaderContext_step, recorded, hiddenHeaders. destruct (decide (kv.1 = "Authorization")) as [->|Hne].
  - by rewrite lookup_singleton_eq, context_Set_.
  - by rewrite lookup_singleton_ne, context_Set_.
Qed.

(** A context key that the loop does not write keeps its value. *)
Lemma loop_other (l : list (string * list string)) e ckey :
  (∀ kv, kv ∈ l → prefix +:+ ":" +:+ kv.1 ≠ ckey) →
  context (foldl step e l) !! ckey = context e !! ckey.
Proof.
  revert e. induction l as [|kv l IH]; intros e Hne; [done|].
  cbn [foldl]. rewrite IH.
  - rewrite step_context, lookup_insert_ne; [done|]. apply Hne. by left.
  - intros kv' Hin. apply Hne. by right.
Qed.

(** A header of the list is recorded under its prefixed key. *)
Lemma loop_records (l : list (string * list string)) e key vs :
  NoDup l.*1 → (key, vs) ∈ l →
  context (foldl step e l) !! (prefix +:+ ":" +:+ key) = Some (recorded head key).
Proof.
  revert e. induction l as [|kv l IH]; intros e Hnd Hin.
  - by apply elem_of_nil in Hin.
  - cbn in Hnd. apply NoDup_cons in Hnd as [Hfresh Hnd]. cbn [foldl].
    apply elem_of_cons in Hin as [<-|Hin].
    + rewrite loop_other.
      * by rewrite step_context, lookup_insert_eq.
      * intros kv' Hin' Heq. apply append_inj_l, (append_inj_l ":") in Heq.
        apply Hfresh. cbn. rewrite <- Heq. by apply list_elem_of_fmap_2.
    + by apply IH.
Qed.

End HeaderLoop.

Lemma setErrorHeaderContext_records w prefix head key vs :
  head !! key = Some vs →
  context (setErrorHeaderContext w prefix head) !! (prefix +:+ ":" +:+ key)
  = Some (recorded head key).
Proof.
  intros Hkey. unfold setErrorHeaderContext.
  apply (loop_records prefix head _ w key vs).
  - apply NoDup_fst_map_to_list.
  - by apply elem_of_map_to_list.
Qed.

Lemma setErrorHeaderContext_other w prefix head ckey :
  (∀ key, prefix +:+ ":" +:+ key ≠ ckey) →
  context (setErrorHeaderContext w prefix head) !! ckey = context w !! ckey.
Proof.
  intros Hne. unfold setErrorHeaderContext.
  apply (loop_other prefix head). intros kv _. apply Hne.
Qed.

(** C8, what the code records.  Every header is recorded, with the
    placeholder in place of the value of [Authorization] and with the
    value [Get] returns otherwise; but the headers of the request are
    filed under the prefix [Response] and the headers of the response
    under the prefix [Request]. *)
Theorem setErrorContext_prefixes_swapped (env : Env) (w : WrappedError) :
  (∀ req key vs, req_Header req !! key = Some vs →
     context (setErrorRequestContext env w req) !! ("Response" +:+ ":" +:+ key)
     = Some (recorded (req_Header req) key)) ∧
  (∀ res key vs, res_Header res !! key = Some vs →
     context (setErrorResponseContext env w res) !! ("Request" +:+ ":" +:+ key)
     = Some (recorded (res_Header res) key)) ∧
  context (setErrorRequestContext env sample_error sample_request)
  = {[ "Endpoint" := Config_Endpoint env;
       "URL" := "GET https://api/objects/abc";
       "Response:User-Agent" := "hawser";
       "Response:Authorization" := "--" ]} ∧
  context (setErrorResponseContext env sample_error sample_response)
  = {[ "Status" := "404 Not Found";
       "Request:Content-Type" := "text/plain";
       "Endpoint" := Config_Endpoint env;
       "URL" := "GET https://api/objects/abc";
       "Response:User-Agent" := "hawser";
       "Response:Authorization" := "--" ]}.
Proof.
  split_and!.
  - intros req key vs Hkey. unfold setErrorRequestContext.
    by apply (setErrorHeaderContext_records _ _ _ _ vs).
  - intros res key vs Hkey. unfold setErrorResponseContext, setErrorRequestContext.
    rewrite setErrorHeaderContext_other by (by intros k [=]).
    rewrite !context_Set_, !lookup_insert_ne by (by intros [=]).
    by apply (setErrorHeaderContext_records _ _ _ _ vs).
  - apply map_eq. intros k. vm_compute. reflexivity.
  - apply map_eq. intros k. vm_compute. reflexivity.
Qed.

(** * Further properties *)

(** ** Media header validation, for every content type *)

(** X1. Whatever the content type and the body, validation reports
    success exactly when it returns no error, the header size is never
    negative, and on success the reader has advanced by exactly the
    header size and is otherwise the same stream. *)
Theorem validateMediaHeader_result (env : Env) (contentType : string) (reader : Reader) :
  ∃ ok headerSize wErr reader',
    validateMediaHeader env contentType reader = (ok, headerSize, wErr, reader') ∧
    (ok = true ↔ wErr = None) ∧
    0 ≤ headerSize ∧
    (ok = true →
       (Z.to_nat headerSize ≤ length (unread reader))%nat ∧
       unread reader' = drop (Z.to_nat headerSize) (unread reader) ∧
       at_end reader' = at_end reader).
Proof.
  unfold validateMediaHeader.
  destruct (mime_ParseMediaType env contentType) as [[mediaType params] [e|]].
  { eexists _, _, _, _. split; [reflexivity|]. split_and!; [done|lia|done]. }
  case_bool_decide as Hmedia.
  2:{ eexists _, _, _, _. split; [reflexivity|]. split_and!; [done|lia|].
      intros _. destruct reader. cbn. split_and!; [lia|done|done]. }
  destruct (params !! "header") as [givenHeader|].
  2:{ eexists _, _, _, _. split; [reflexivity|]. split_and!; [done|lia|done]. }
  cbv zeta. unfold io_ReadAtLeast.
  set (marker := "--" +:+ givenHeader +:+ String "010" EmptyString).
  destruct (String.length marker <=? length (unread reader))%nat eqn:Hlen.
  - apply Nat.leb_le in Hlen. case_bool_decide as Heq.
    + eexists _, _, _, _. split; [reflexivity|]. split_and!; [done|lia|].
      intros _. rewrite Nat2Z.id. cbn. done.
    + eexists _, _, _, _. split; [reflexivity|]. split_and!; [done|lia|done].
  - eexists _, _, _, _. split; [reflexivity|]. split_and!; [done|lia|done].
Qed.

(** X2. The body is read only for the binary media type with a [header]
    parameter: for a content type that does not parse, for any other
    media type, and for the binary media type without the parameter, the
    reader comes back untouched and the header size is zero. *)
Theorem validateMediaHeader_leaves_body (env : Env) (contentType : string)
    (reader : Reader) (mediaType : string) (params : gmap string string)
    (err : option error) :
  mime_ParseMediaType env contentType = (mediaType, params, err) →
  is_Some err ∨ mediaType ≠ gitMediaType ∨ params !! "header" = None →
  ∃ ok wErr,
    validateMediaHeader env contentType reader = (ok, 0, wErr, reader) ∧
    (ok = true ↔ err = None ∧ mediaType ≠ gitMediaType).
Proof.
  intros Hparse. unfold validateMediaHeader. rewrite Hparse.
  destruct err as [e|].
  { intros _. eexists _, _. split; [reflexivity|]. split; [done|]. by intros [? _]. }
  intros [[? [=]]|[Hne|Hnone]].
  - rewrite bool_decide_eq_false_2 by done. eexists _, _. split; [reflexivity|]. done.
  - case_bool_decide as Hmedia.
    + rewrite Hnone. eexists _, _. split; [reflexivity|]. split; [done|]. by intros [_ ?].
    + eexists _, _. split; [reflexivity|]. done.
Qed.

(** Witness for X2: a text content type. *)
Lemma validateMediaHeader_leaves_body_witness :
  ∃ ok wErr,
    validateMediaHeader download_env "text/plain" framed_body = (ok, 0, wErr, framed_body) ∧
    (ok = true ↔ (None : option error) = None ∧ "text/plain" ≠ gitMediaType).
Proof.
  apply (validateMediaHeader_leaves_body download_env "text/plain" framed_body
           "text/plain" ∅ None).
  - reflexivity.
  - right. left. vm_compute. discriminate.
Defined.

(** ** Response classification: the messages *)

(** X3. When the error body decodes, the message of the classified
    error depends on the status only: 401 and 403 give the authorization
    message and 404 the not-found message, both naming the request URL;
    every other error status gives the message with the status number.
    The root cause is the decoded error and the context is empty. *)
Theorem handleResponseError_message (env : Env) (res : Response) (apiErr : ClientError) :
  json_Decode_ClientError env (res_Body res) = inr apiErr →
  400 ≤ StatusCode res → StatusCode res ≠ 405 →
  ∃ w, handleResponseError env res = Some w ∧
       Err w = Some (EClientError apiErr) ∧ context w = ∅ ∧
       Message w =
         (if decide (StatusCode res = 401 ∨ StatusCode res = 403) then
            "Authorization error: " +:+ URL (res_Request res) +:+ newline
            +:+ "Check that you have proper access to the repository."
          else if decide (StatusCode res = 404) then
            "Repository not found: " +:+ URL (res_Request res) +:+ newline
            +:+ "Check that it exists and that you have proper access to it."
          else "Invalid response: " +:+ pretty (StatusCode res)).
Proof.
  intros Hdec Hge Hne. unfold handleResponseError. rewrite Hdec.
  assert ((StatusCode res <? 400) || (StatusCode res =? 405) = false) as ->.
  { apply orb_false_iff. split; lia. }
  eexists. split; [reflexivity|].
  assert (∀ (w : WrappedError) (b : bool),
            Err (if b then set_Panic w false else w) = Err w ∧
            context (if b then set_Panic w false else w) = context w ∧
            Message (if b then set_Panic w false else w) = Message w) as Hflag.
  { intros [] []; done. }
  match goal with
  | |- Err (if ?b then set_Panic ?w _ else _) = _ ∧ _ =>
      destruct (Hflag w b) as (-> & -> & ->)
  end.
  split; [done|]. split; [done|]. cbn [Message Errorf].
  destruct (decide (StatusCode res = 401 ∨ StatusCode res = 403)) as [H4|H4].
  - assert ((StatusCode res =? 401) || (StatusCode res =? 403) = true) as ->.
    { apply orb_true_iff. destruct H4; [left|right]; lia. }
    reflexivity.
  - assert ((StatusCode res =? 401) || (StatusCode res =? 403) = false) as ->.
    { apply orb_false_iff. split; lia. }
    destruct (decide (StatusCode res = 404)) as [H404|H404].
    + assert ((StatusCode res =? 404) = true) as -> by lia. reflexivity.
    + assert ((StatusCode res =? 404) = false) as -> by lia. reflexivity.
Qed.

(** Witness for X3: a 404. *)
Lemma handleResponseError_message_witness :
  ∃ w, handleResponseError download_env sample_response = Some w ∧
       Err w = Some (EClientError (mkClientError "no" EmptyString)) ∧ context w = ∅ ∧
       Message w =
         "Repository not found: https://api/objects/abc" +:+ newline
         +:+ "Check that it exists and that you have proper access to it.".
Proof.
  apply (handleResponseError_message download_env sample_response
           (mkClientError "no" EmptyString)).
  - reflexivity.
  - vm_compute. discriminate.
  - vm_compute. discriminate.
Defined.

(** ** Error annotation *)

Lemma fields_Set_ w k v :
  Err (Set_ w k v) = Err w ∧ Message (Set_ w k v) = Message w ∧
  Panic (Set_ w k v) = Panic w.
Proof. by destruct w. Qed.

Lemma fields_setErrorHeaderContext w prefix head :
  Message (setErrorHeaderContext w prefix head) = Message w ∧
  Panic (setErrorHeaderContext w prefix head) = Panic w.
Proof.
  unfold setErrorHeaderContext. generalize (map_to_list head). intros l.
  revert w. induction l as [|[k v] l IH]; intros w; [done|].
  cbn [foldl]. destruct (IH (setErrorHeaderContext_step prefix head w (k, v))) as [-> ->].
  unfold setErrorHeaderContext_step. by destruct (hiddenHeaders !! _), w.
Qed.

Lemma fields_setErrorRequestContext env w req :
  Message (setErrorRequestContext env w req) = Message w ∧
  Panic (setErrorRequestContext env w req) = Panic w.
Proof.
  unfold setErrorRequestContext.
  destruct (fields_setErrorHeaderContext
              (Set_ (Set_ w "Endpoint" (Config_Endpoint env))
                 "URL" (Method req +:+ " " +:+ URL req))
              "Response" (req_Header req)) as [-> ->].
  by destruct w.
Qed.

Lemma fields_setErrorResponseContext env w res :
  Message (setErrorResponseContext env w res) = Message w ∧
  Panic (setErrorResponseContext env w res) = Panic w.
Proof.
  unfold setErrorResponseContext.
  destruct (fields_setErrorRequestContext env
              (setErrorHeaderContext (Set_ w "Status" (Status res))
                 "Request" (res_Header res)) (res_Request res)) as [-> ->].
  destruct (fields_setErrorHeaderContext (Set_ w "Status" (Status res))
              "Request" (res_Header res)) as [-> ->].
  by destruct w.
Qed.

Lemma setErrorResponseContext_Status env w res :
  context (setErrorResponseContext env w res) !! "Status" = Some (Status res).
Proof.
  unfold setErrorResponseContext, setErrorRequestContext.
  rewrite setErrorHeaderContext_other by (by intros k [=]).
  rewrite !context_Set_, !lookup_insert_ne by done.
  rewrite setErrorHeaderContext_other by (by intros k [=]).
  by rewrite context_Set_, lookup_insert_eq.
Qed.

(** X4. Annotating an error with a response records the status line,
    the endpoint and the method and URL of the request under the keys
    [Status], [Endpoint] and [URL], whatever headers are recorded next
    to them, and changes nothing but the context: the root cause, the
    message and the fatality flag stay. *)
Theorem setErrorResponseContext_records (env : Env) (w : WrappedError) (res : Response) :
  let w' := setErrorResponseContext env w res in
  context w' !! "Status" = Some (Status res) ∧
  context w' !! "Endpoint" = Some (Config_Endpoint env) ∧
  context w' !! "URL" = Some (Method (res_Request res) +:+ " " +:+ URL (res_Request res)) ∧
  Err w' = Err w ∧ Message w' = Message w ∧ Panic w' = Panic w.
Proof.
  cbv zeta. destruct (fields_setErrorResponseContext env w res) as [HM HP].
  split_and!;
    [apply setErrorResponseContext_Status| |
    |apply Err_setErrorResponseContext|exact HM|exact HP];
    unfold setErrorResponseContext, setErrorRequestContext.
  - rewrite setErrorHeaderContext_other by (by intros k [=]).
    by rewrite !context_Set_, lookup_insert_ne, lookup_insert_eq.
  - rewrite setErrorHeaderContext_other by (by intros k [=]).
    by rewrite !context_Set_, lookup_insert_eq.
Qed.

(** ** Attaching credentials *)

(** X5. For a request without an [Authorization] header the credential
    helper is asked exactly once, for the request's URL.  When it
    answers, the request gets the header [Basic] followed by the
    encoding of [username:password] (of [:] for a nil credential) and
    the credential is returned for settlement; when it fails, its error
    is returned with no credential and the request stays without the
    header.  The [User-Agent] is set either way. *)
Theorem setRequestHeaders_attaches (env : Env) (req : Request) (h : history) :
  req_Header req !! "Authorization" = None →
  ∃ req' creds' err',
    setRequestHeaders env req h
    = (Ret (req', creds', err'), h ++ [EvCredentials (URL req)]) ∧
    Header_Get (req_Header req') "User-Agent" = UserAgent env ∧
    match credentials env h (URL req) with
    | (c, None) =>
        creds' = c ∧ err' = None ∧
        Header_Get (req_Header req') "Authorization" = basic_auth env c
    | (_, Some e) =>
        creds' = None ∧ err' = Some e ∧
        req_Header req' !! "Authorization" = None
    end.
Proof.
  intros Hnone. unfold setRequestHeaders.
  assert (req_Header (set_Header req "User-Agent" (UserAgent env)) !! "Authorization"
          = None) as Hnone'.
  { cbn. unfold Header_Set.
    by rewrite canonical_User_Agent, lookup_insert_ne. }
  rewrite Hnone'. mrun. cbn [URL set_Header].
  destruct (credentials env h (URL req)) as [c [e|]].
  - eexists _, _, _. split; [reflexivity|]. split; [apply Header_Get_Set|done].
  - eexists _, _, _. split; [reflexivity|]. split.
    + cbn. rewrite Header_Get_Set_ne by done. apply Header_Get_Set.
    + split_and!; [done..|]. cbn. apply Header_Get_Set.
Qed.

(** Witness for X5: a fresh request and a helper that answers u / p. *)
Lemma setRequestHeaders_attaches_witness :
  ∃ req' creds' err',
    setRequestHeaders download_env bare_request []
    = (Ret (req', creds', err'), [EvCredentials "https://api/objects/abc"]) ∧
    Header_Get (req_Header req') "User-Agent" = "hawser" ∧
    creds' = Some sample_creds ∧ err' = None ∧
    Header_Get (req_Header req') "Authorization" = "Basic u:p".
Proof.
  apply (setRequestHeaders_attaches download_env bare_request []). reflexivity.
Defined.

(** ** One exchange *)

Lemma doRequest_run_error env req creds h res e :
  DoHTTP env h req = (res, Some e) → e ≠ RedirectError →
  doRequest env req creds h
  = (doRequest_result env req (res, Some e), h ++ [EvHTTP req]).
Proof.
  intros Hhttp Hne. unfold doRequest.
  rewrite (bind_run _ _ _ _ _ (call_run _ _ _)), Hhttp. cbv beta iota.
  destruct res as [res|]; [|by destruct e].
  destruct e; try done; mrun; cbn [negb doRequest_result];
    destruct (StatusCode res =? 302); reflexivity.
Qed.

(** X6. A transport error other than the redirect signal, reported next
    to a response: the credential is neither approved nor rejected; a
    response of status 302 makes [doRequest] drop the error and return
    the response alone; any other status gives an error whose root
    cause is the transport error, whose message names the request URL,
    which is fatal, and which carries the response's status line. *)
Theorem doRequest_transport_error (env : Env) (req : Request) (creds : option Creds)
    (h : history) (res : Response) (e : error) :
  DoHTTP env h req = (Some res, Some e) → e ≠ RedirectError →
  ∃ wErr,
    doRequest env req creds h = (Ret (Some res, wErr), h ++ [EvHTTP req]) ∧
    (StatusCode res = 302 → wErr = None) ∧
    (StatusCode res ≠ 302 →
       ∃ w, wErr = Some w ∧ Err w = Some e ∧ Panic w = true ∧
            Message w = "Error sending HTTP request to " +:+ URL req ∧
            context w !! "Status" = Some (Status res)).
Proof.
  intros Hhttp Hne. rewrite (doRequest_run_error _ _ _ _ _ _ Hhttp Hne).
  unfold doRequest_result.
  assert (match Some e with
          | None | Some RedirectError => handleResponseError env res
          | Some e0 =>
              if StatusCode res =? 302 then None
              else Some (Errorf (Some e0) ("Error sending HTTP request to " +:+ URL req))
          end
          = if StatusCode res =? 302 then None
            else Some (Errorf (Some e) ("Error sending HTTP request to " +:+ URL req)))
    as -> by (by destruct e).
  eexists. split; [reflexivity|]. split.
  - intros H302. assert ((StatusCode res =? 302) = true) as -> by lia. done.
  - intros H302. assert ((StatusCode res =? 302) = false) as -> by lia.
    eexists. split; [reflexivity|].
    destruct (fields_setErrorResponseContext env
                (Errorf (Some e) ("Error sending HTTP request to " +:+ URL req)) res)
      as [-> ->].
    rewrite Err_setErrorResponseContext, setErrorResponseContext_Status. done.
Qed.

(** Witness for X6: an error reported next to a 500. *)
Lemma doRequest_transport_error_witness :
  ∃ wErr,
    doRequest (failing_env 500 (ExternalError "reset")) bare_request
      (Some sample_creds) []
    = (Ret (Some (plain_response 500 bare_request), wErr), [EvHTTP bare_request]) ∧
    (500 = 302 → wErr = None) ∧
    (500 ≠ 302 →
       ∃ w, wErr = Some w ∧ Err w = Some (ExternalError "reset") ∧ Panic w = true ∧
            Message w = "Error sending HTTP request to https://api/objects/abc" ∧
            context w !! "Status" = Some "status").
Proof.
  apply (doRequest_transport_error (failing_env 500 (ExternalError "reset"))
           bare_request (Some sample_creds) [] (plain_response 500 bare_request)
           (ExternalError "reset")).
  - reflexivity.
  - discriminate.
Defined.

(** X7. When the executor returns no response, [doRequest] stops on a
    nil-pointer read right after the request was sent, whether or not
    an error came with it and whether or not a credential is attached:
    no error value is returned and nothing is settled. *)
Theorem doRequest_without_response (env : Env) (req : Request) (creds : option Creds)
    (h : history) (err : option error) :
  DoHTTP env h req = (None, err) →
  doRequest env req creds h = (Fault, h ++ [EvHTTP req]).
Proof.
  intros Hhttp. unfold doRequest.
  rewrite (bind_run _ _ _ _ _ (call_run _ _ _)), Hhttp. cbv beta iota.
  destruct err as [[]|]; destruct creds; reflexivity.
Qed.

(** Witness for X7: a refused connection. *)
Lemma doRequest_without_response_witness :
  doRequest refusing_env bare_request (Some sample_creds) []
  = (Fault, [EvHTTP bare_request]).
Proof.
  apply (doRequest_without_response refusing_env bare_request (Some sample_creds) []
           (Some (ExternalError "connection refused"))).
  reflexivity.
Defined.

(** X8. When the executor returns a response with no error, or with the
    redirect signal, the two cases are treated alike: an attached
    credential is settled against the response first, then the response
    is classified, and a classified error is returned annotated with
    the response. *)
Theorem doRequest_answered (env : Env) (req : Request) (creds : option Creds)
    (h : history) (res : Response) (err : option error) :
  DoHTTP env h req = (Some res, err) → err = None ∨ err = Some RedirectError →
  ∃ es,
    saveCredentials creds (Some res) (h ++ [EvHTTP req])
    = (Ret (), (h ++ [EvHTTP req]) ++ es) ∧
    doRequest env req creds h
    = (Ret (Some res,
            (λ w, setErrorResponseContext env w res) <$> handleResponseError env res),
       (h ++ [EvHTTP req]) ++ es).
Proof.
  intros Hhttp Herr.
  destruct (saveCredentials_run creds (Some res) (h ++ [EvHTTP req]))
    as (r & es & Hs & _ & _ & Hr).
  rewrite Hr in Hs by done. exists es. split; [exact Hs|].
  unfold doRequest.
  rewrite (bind_run _ _ _ _ _ (call_run _ _ _)), Hhttp. cbv beta iota.
  assert (match err with Some RedirectError => None | _ => err end = None) as ->
    by (by destruct Herr as [->| ->]).
  destruct creds as [c|].
  - rewrite (bind_run _ _ _ _ _ (bind_run _ _ _ _ _ Hs)). mrun.
    by destruct (handleResponseError env res).
  - unfold saveCredentials in Hs. injection Hs as Hes.
    rewrite <- Hes. mrun. by destruct (handleResponseError env res).
Qed.

(** Witness for X8: the redirect signal next to a 200. *)
Lemma doRequest_answered_witness :
  ∃ es,
    saveCredentials (Some sample_creds) (Some (plain_response 200 bare_request))
      ([] ++ [EvHTTP bare_request])
    = (Ret (), ([] ++ [EvHTTP bare_request]) ++ es) ∧
    doRequest (failing_env 200 RedirectError) bare_request (Some sample_creds) []
    = (Ret (Some (plain_response 200 bare_request),
            (λ w, setErrorResponseContext (failing_env 200 RedirectError) w
                    (plain_response 200 bare_request))
              <$> handleResponseError (failing_env 200 RedirectError)
                    (plain_response 200 bare_request)),
       ([] ++ [EvHTTP bare_request]) ++ es).
Proof.
  apply (doRequest_answered (failing_env 200 RedirectError) bare_request
           (Some sample_creds) [] (plain_response 200 bare_request)
           (Some RedirectError)).
  - reflexivity.
  - right. reflexivity.
Defined.

(** ** How many requests *)

Lemma sends_weaken {A} (m : M A) (n n' : nat) :
  (n ≤ n')%nat → sends m n → sends m n'.
Proof.
  intros Hle Hm h. destruct (Hm h) as (r & es & Hrun & Hn). exists r, es.
  split; [done|lia].
Qed.

Lemma sends_ret {A} (a : A) (n : nat) : sends (mret a) n.
Proof. intros h. exists (Ret a), []. rewrite app_nil_r. split; [done|cbn; lia]. Qed.

Lemma sends_bind {A B} (m : M A) (f : A → M B) (a b : nat) :
  sends m a → (∀ x, sends (f x) b) → sends (m ≫= f) (a + b).
Proof.
  intros Hm Hf h. destruct (Hm h) as (r & es & Hrun & Hn).
  destruct r as [x|].
  - destruct (Hf x (h ++ es)) as (r' & es' & Hrun' & Hn').
    exists r', (es ++ es'). rewrite (bind_run _ _ _ _ _ Hrun), Hrun', app_assoc.
    split; [done|]. rewrite http_requests_app, length_app. lia.
  - exists Fault, es. rewrite (bind_Fault _ _ _ _ Hrun). split; [done|lia].
Qed.

Lemma sends_bind_0 {A B} (m : M A) (f : A → M B) (n : nat) :
  sends m 0 → (∀ x, sends (f x) n) → sends (m ≫= f) n.
Proof. intros Hm Hf. by apply (sends_bind m f 0 n). Qed.

Lemma sends_bind_1 {A B} (m : M A) (f : A → M B) (n : nat) :
  sends m 1 → (∀ x, sends (f x) n) → sends (m ≫= f) (S n).
Proof. intros Hm Hf. by apply (sends_bind m f 1 n). Qed.

Lemma sends_call {A} (ev : event) (oracle : history → A) :
  sends (call ev oracle) (length (http_requests [ev])).
Proof. intros h. exists (Ret (oracle h)), [ev]. done. Qed.

Lemma sends_deref {A} (p : option A) : sends (deref p) 0.
Proof.
  intros h. destruct p as [a|].
  - exists (Ret a), []. rewrite app_nil_r. done.
  - exists Fault, []. rewrite app_nil_r. done.
Qed.

Lemma sends_setRequestHeaders env req : sends (setRequestHeaders env req) 0.
Proof.
  intros h. destruct (setRequestHeaders_run env req h)
    as (req' & creds & err & es & Hrun & Hes & _).
  eexists _, es. split; [exact Hrun|]. by rewrite Hes.
Qed.

Lemma sends_saveCredentials creds res : sends (saveCredentials creds res) 0.
Proof.
  intros h. destruct (saveCredentials_run creds res h) as (r & es & Hrun & Hes & _).
  exists r, es. split; [exact Hrun|]. by rewrite Hes.
Qed.

Lemma sends_request env method oid : sends (request env method oid) 0.
Proof.
  intros h. destruct (request_run env method oid h)
    as (req & creds & err & es & Hrun & Hes & _).
  eexists _, es. split; [exact Hrun|]. by rewrite Hes.
Qed.

Lemma sends_doRequest env req creds : sends (doRequest env req creds) 1.
Proof.
  intros h. destruct (doRequest_run env req creds h) as (es & Hrun & Hes & _).
  eexists _, (EvHTTP req :: es). split; [exact Hrun|].
  cbn. unfold http_requests in Hes. by rewrite Hes.
Qed.

Lemma sends_callOptions env filehash : sends (callOptions env filehash) 1.
Proof.
  intros h. destruct (callOptions_run env filehash h) as (r & es & Hrun & Hcase).
  exists r, es. split; [exact Hrun|].
  destruct Hcase as [[-> _]|(es1 & opt & es2 & -> & H1 & H2 & _)]; [cbn; lia|].
  by rewrite (http_requests_one _ _ _ H1 H2).
Qed.

Lemma sends_callPut env filehash filename cb : sends (callPut env filehash filename cb) 1.
Proof.
  intros h. destruct (callPut_run env filehash filename cb h) as (r & es & Hrun & Hcase).
  exists r, es. split; [exact Hrun|].
  destruct Hcase as [[-> _]|(es1 & put & es2 & -> & H1 & H2 & _)]; [cbn; lia|].
  by rewrite (http_requests_one _ _ _ H1 H2).
Qed.

Lemma sends_callExternalPut_verify env filehash filename lm size :
  sends (callExternalPut_verify env filehash filename lm size) 1.
Proof.
  unfold callExternalPut_verify. destruct (Rel lm "verify") as [cb [|]]; [|apply sends_ret].
  apply sends_bind_0; [apply sends_deref|]. intros ve.
  destruct (http_NewRequest env "POST" (Href ve)) as [e|req]; [apply sends_ret|].
  apply sends_bind_0; [apply sends_setRequestHeaders|]. intros [[req' creds] err].
  destruct err; [apply sends_ret|].
  apply (sends_bind _ _ 1 0); [apply sends_call|]. intros [res [e|]]; [apply sends_ret|].
  apply sends_bind_0; [apply sends_deref|]. intros _.
  apply sends_bind_0; [apply sends_saveCredentials|]. intros _. apply sends_ret.
Qed.

Lemma sends_callExternalPut env filehash filename lm cb :
  sends (callExternalPut env filehash filename lm cb) 2.
Proof.
  unfold callExternalPut. destruct lm as [lm|]; [|apply sends_ret].
  destruct (Rel lm "upload") as [link [|]]; cbn [negb]; [|apply sends_ret].
  apply (sends_bind _ _ 0 2); [apply sends_call|]. intros [e|file]; [apply sends_ret|].
  apply (sends_bind _ _ 0 2); [apply sends_call|]. intros [e|size]; [apply sends_ret|].
  apply sends_bind_0; [apply sends_deref|]. intros up.
  destruct (http_NewRequest env "PUT" (Href up)) as [e|req]; [apply sends_ret|].
  apply sends_bind_0; [apply sends_setRequestHeaders|]. intros [[req' creds] err].
  destruct err; [apply sends_ret|].
  apply (sends_bind _ _ 1 1); [apply sends_call|]. intros [res [e|]]; [apply sends_ret|].
  apply sends_bind_0; [apply sends_deref|]. intros _.
  apply sends_bind_0; [apply sends_saveCredentials|]. intros _.
  apply sends_callExternalPut_verify.
Qed.

Lemma sends_callPost env filehash filename : sends (callPost env filehash filename) 1.
Proof.
  unfold callPost.
  apply sends_bind_0; [apply sends_request|]. intros [[req creds] err].
  destruct err; [apply sends_ret|].
  apply (sends_bind _ _ 0 1); [apply sends_call|]. intros [e|file]; [apply sends_ret|].
  apply (sends_bind _ _ 0 1); [apply sends_call|]. intros [e|size]; [apply sends_ret|].
  apply sends_bind_0; [apply sends_deref|]. intros req'.
  apply (sends_bind _ _ 1 0); [apply sends_doRequest|]. intros [res wErr].
  destruct wErr; [apply sends_ret|].
  apply sends_bind_0; [apply sends_deref|]. intros res'.
  destruct (StatusCode res' =? 202); [|apply sends_ret].
  destruct (json_Decode_linkMeta env _); apply sends_ret.
Qed.

Lemma sends_Upload_switch env oidPath filename cb lm status err :
  sends (Upload_switch env oidPath filename cb lm status err) 2.
Proof.
  unfold Upload_switch. destruct (status =? 200); [apply sends_ret|].
  destruct ((status =? 405) || (status =? 302)).
  - apply (sends_bind _ _ 1 1); [apply sends_callOptions|]. intros [st wErr].
    destruct wErr; [apply sends_ret|].
    destruct (negb (st =? 200)); [|apply sends_ret].
    apply (sends_bind _ _ 1 0); [apply sends_callPut|]. intros [e|]; apply sends_ret.
  - destruct (status =? 202); [|apply sends_ret].
    apply (sends_bind _ _ 2 0); [apply sends_callExternalPut|].
    intros [e|]; apply sends_ret.
Qed.

(** X9. Whatever the environment answers, one call of [Upload] sends at
    most three HTTP requests and one call of [Download] at most one. *)
Theorem Upload_Download_request_bound (env : Env) :
  (∀ oidPath filename cb h, ∃ r es,
     Upload env oidPath filename cb h = (r, h ++ es) ∧
     (length (http_requests es) ≤ 3)%nat) ∧
  (∀ oidPath h, ∃ r es,
     Download env oidPath h = (r, h ++ es) ∧
     (length (http_requests es) ≤ 1)%nat).
Proof.
  split.
  - intros oidPath filename cb.
    change (sends (Upload env oidPath filename cb) 3). unfold Upload.
    apply (sends_bind _ _ 1 2); [apply sends_callPost|]. intros [[lm status] err].
    unfold Upload_after_callPost.
    destruct err as [e|]; [destruct (negb (status =? 302))|];
      [apply sends_ret|apply sends_Upload_switch..].
  - intros oidPath. change (sends (Download env oidPath) 1). unfold Download.
    apply sends_bind_0; [apply sends_request|]. intros [[req creds] err].
    destruct err; [apply sends_ret|].
    apply sends_bind_0; [apply sends_deref|]. intros req'.
    apply (sends_bind _ _ 1 0); [apply sends_doRequest|]. intros [res wErr].
    destruct wErr; [apply sends_ret|].
    apply sends_bind_0; [apply sends_deref|]. intros res'.
    case_bool_decide; [apply sends_ret|].
    destruct (validateMediaHeader _ _ _) as [[[ok hs] w] body].
    destruct (negb ok); [|apply sends_ret].
    apply sends_bind_0; [apply sends_deref|]. intros w'. apply sends_ret.
Qed.

(** ** Download, step by step *)

(** What an exchange adds after the request: nothing, or one verdict on
    the attached credential. *)
Lemma doRequest_shape env req creds h :
  ∃ es, doRequest env req creds h
        = (doRequest_result env req (DoHTTP env h req), h ++ EvHTTP req :: es) ∧
    (es = [] ∨ ∃ c op, creds = Some c ∧ es = [EvExecCreds c op]).
Proof.
  destruct (DoHTTP env h req) as [res err] eqn:Hhttp.
  assert (err = None ∨ err = Some RedirectError ∨
          ∃ e, err = Some e ∧ e ≠ RedirectError) as Herr.
  { destruct err as [[]|]; eauto. }
  destruct Herr as [Hclean|[Hclean|(e & -> & Hne)]].
  3:{ exists []. split; [|by left]. by apply doRequest_run_error. }
  all: unfold doRequest; rewrite (bind_run _ _ _ _ _ (call_run _ _ _)), Hhttp;
    cbv beta iota; subst err; unfold saveCredentials, doRequest_result.
  all: destruct creds as [c|]; destruct res as [res|]; mrun;
    try (exists []; split; [|by left]; by destruct (handleResponseError env res)).
  all: try (exists []; split; [reflexivity|by left]).
  all: destruct (StatusCode res <? 300); [|destruct (StatusCode res <? 405)]; mrun;
    rewrite <- ?app_assoc; cbn [app];
    (eexists; split;
     [by destruct (handleResponseError env res)
     |first [by left | right; by eexists _, _]]).
Qed.

(** A request for the object endpoint starts without an [Authorization]
    header, so the credential helper is always asked. *)
Lemma request_exact env method oid h :
  request env method oid h =
  match url_Parse env (Config_ObjectUrl env oid) with
  | inl e => (Ret (None, None, Some e), h)
  | inr u =>
      let req := set_Header (mkRequest method u ∅ NoBody 0) "User-Agent" (UserAgent env) in
      match credentials env h u with
      | (_, Some e) => (Ret (Some req, None, Some e), h ++ [EvCredentials u])
      | (c, None) =>
          (Ret (Some (set_Header req "Authorization" (basic_auth env c)), c, None),
           h ++ [EvCredentials u])
      end
  end.
Proof.
  unfold request, http_NewRequest.
  destruct (url_Parse env (Config_ObjectUrl env oid)) as [e|u]; [done|].
  unfold setRequestHeaders.
  assert (req_Header (set_Header (mkRequest method u ∅ NoBody 0) "User-Agent"
                        (UserAgent env)) !! "Authorization" = None) as ->.
  { cbn. unfold Header_Set. by rewrite canonical_User_Agent, lookup_insert_ne. }
  mrun. cbn [URL set_Header].
  by destruct (credentials env h u) as [c [e|]].
Qed.

(** X10. The steps of [Download], in order.  An object URL that does not
    parse ends it before anything happens.  Otherwise the credential
    helper is asked once for the URL; if it fails nothing is sent.  If
    it answers, exactly one request is sent: a GET for that URL without
    a body, with [Accept] naming the binary media type, the [Basic]
    authorization built from the credential and the [User-Agent]; after
    it comes at most one verdict, on the credential that was fetched. *)
Theorem Download_steps (env : Env) (oidPath : string) (h : history) :
  ∃ r es, Download env oidPath h = (r, h ++ es) ∧
    match url_Parse env (Config_ObjectUrl env (filepath_Base oidPath)) with
    | inl e => es = [] ∧ r = Ret (None, 0, Some (Error e))
    | inr url =>
        match credentials env h url with
        | (_, Some e) => es = [EvCredentials url] ∧ r = Ret (None, 0, Some (Error e))
        | (c, None) =>
            ∃ req settle,
              es = EvCredentials url :: EvHTTP req :: settle ∧
              Method req = "GET" ∧ URL req = url ∧ req_Body req = NoBody ∧
              Header_Get (req_Header req) "Accept" = gitMediaType ∧
              Header_Get (req_Header req) "Authorization" = basic_auth env c ∧
              Header_Get (req_Header req) "User-Agent" = UserAgent env ∧
              (settle = [] ∨ ∃ c' op, c = Some c' ∧ settle = [EvExecCreds c' op])
        end
    end.
Proof.
  unfold Download.
  pose proof (request_exact env "GET" (filepath_Base oidPath) h) as Hreq.
  destruct (url_Parse env (Config_ObjectUrl env (filepath_Base oidPath))) as [e|url].
  { rewrite (bind_run _ _ _ _ _ Hreq). eexists _, []. rewrite app_nil_r. done. }
  cbv zeta in Hreq. destruct (credentials env h url) as [c [e|]].
  { rewrite (bind_run _ _ _ _ _ Hreq). eexists _, [_]. done. }
  rewrite (bind_run _ _ _ _ _ Hreq). cbv beta iota.
  erewrite bind_run by reflexivity.
  set (req := set_Header _ "Accept" gitMediaType).
  destruct (doRequest_shape env req c (h ++ [EvCredentials url])) as (settle & Hdo & Hsettle).
  assert (Method req = "GET" ∧ URL req = url ∧ req_Body req = NoBody ∧
          Header_Get (req_Header req) "Accept" = gitMediaType ∧
          Header_Get (req_Header req) "Authorization" = basic_auth env c ∧
          Header_Get (req_Header req) "User-Agent" = UserAgent env) as Hshape.
  { split; [done|]. split; [done|]. split; [done|].
    split; [cbn; apply Header_Get_Set|].
    split; [cbn; rewrite Header_Get_Set_ne by done; apply Header_Get_Set|].
    cbn. rewrite !Header_Get_Set_ne by done. apply Header_Get_Set. }
  destruct Hshape as (? & ? & ? & ? & ? & ?).
  rewrite <- app_assoc in Hdo. cbn [app] in Hdo.
  destruct (doRequest_result env req (DoHTTP env (h ++ [EvCredentials url]) req))
    as [[res wErr]|].
  2:{ rewrite (bind_Fault _ _ _ _ Hdo). eexists _, _. split; [reflexivity|].
      exists req, settle; split_and!; first [assumption|reflexivity]. }
  rewrite (bind_run _ _ _ _ _ Hdo). cbv beta iota.
  destruct wErr as [w|].
  { eexists _, _. split; [reflexivity|]. exists req, settle; split_and!; first [assumption|reflexivity]. }
  destruct res as [res|].
  2:{ eexists _, _. split; [reflexivity|]. exists req, settle; split_and!; first [assumption|reflexivity]. }
  erewrite bind_run by reflexivity.
  case_bool_decide.
  { eexists _, _. split; [reflexivity|]. exists req, settle; split_and!; first [assumption|reflexivity]. }
  destruct (validateMediaHeader _ _ _) as [[[[|] hs] [w|]] body]; cbn [negb];
    (eexists _, _; split; [reflexivity|]; exists req, settle; split_and!; first [assumption|reflexivity]).
Qed.

Lemma validateMediaHeader_failed env ct reader hs wErr reader' :
  validateMediaHeader env ct reader = (false, hs, wErr, reader') → is_Some wErr.
Proof.
  unfold validateMediaHeader. intros H.
  repeat (break_match_in H; simplify_eq); done.
Qed.

Lemma doRequest_result_Fault env req answer :
  doRequest_result env req answer = Fault → ∃ err, answer = (None, err).
Proof. destruct answer as [[res|] err]; [done|]. intros _. by exists err. Qed.

Lemma doRequest_result_Ret env req answer res wErr :
  doRequest_result env req answer = Ret (res, wErr) → is_Some res.
Proof. destruct answer as [[res0|] err]; [|done]. intros [= <- _]. done. Qed.

(** X11. What [Download] returns: either a body with no error, or an
    error with no body and length zero, never both and never neither;
    and it stops on a nil-pointer read only when the executor returned
    no response. *)
Theorem Download_result (env : Env) (oidPath : string) (h : history) :
  ∃ r h', Download env oidPath h = (r, h') ∧
    match r with
    | Ret (body, n, wErr) =>
        (is_Some body ↔ wErr = None) ∧ (is_Some wErr → n = 0)
    | Fault => ∃ h0 req err, DoHTTP env h0 req = (None, err)
    end.
Proof.
  unfold Download.
  pose proof (request_exact env "GET" (filepath_Base oidPath) h) as Hreq.
  destruct (url_Parse env (Config_ObjectUrl env (filepath_Base oidPath))) as [e|url].
  { rewrite (bind_run _ _ _ _ _ Hreq). eexists _, _. split; [reflexivity|].
    split; [|done]. split; [by intros [? ?]|done]. }
  cbv zeta in Hreq. destruct (credentials env h url) as [c [e|]].
  { rewrite (bind_run _ _ _ _ _ Hreq). eexists _, _. split; [reflexivity|].
    split; [|done]. split; [by intros [? ?]|done]. }
  rewrite (bind_run _ _ _ _ _ Hreq). cbv beta iota.
  erewrite bind_run by reflexivity.
  set (req := set_Header _ "Accept" gitMediaType).
  destruct (doRequest_shape env req c (h ++ [EvCredentials url])) as (settle & Hdo & _).
  destruct (doRequest_result env req (DoHTTP env (h ++ [EvCredentials url]) req))
    as [[res wErr]|] eqn:Hres.
  2:{ rewrite (bind_Fault _ _ _ _ Hdo). eexists _, _. split; [reflexivity|].
      apply doRequest_result_Fault in Hres as [err Herr]. eauto. }
  rewrite (bind_run _ _ _ _ _ Hdo). cbv beta iota.
  destruct wErr as [w|].
  { eexists _, _. split; [reflexivity|]. split; [|done]. split; [by intros [? ?]|done]. }
  apply doRequest_result_Ret in Hres as [res' ->].
  erewrite bind_run by reflexivity.
  case_bool_decide.
  { eexists _, _. split; [reflexivity|]. split; [|done]. split; [by intros [? ?]|done]. }
  destruct (validateMediaHeader _ _ _) as [[[ok hs] wErr] body] eqn:Hval.
  destruct ok; cbn [negb].
  - eexists _, _. split; [reflexivity|]. split; [done|]. by intros [? ?].
  - apply validateMediaHeader_failed in Hval as [w ->].
    erewrite bind_run by reflexivity.
    eexists _, _. split; [reflexivity|]. split; [|done]. split; [by intros [? ?]|done].
Qed.

(** ** Negotiation *)

Lemma callPost_run env filehash filename h :
  ∃ r es, callPost env filehash filename h = (r, h ++ es) ∧
    ((http_requests es = [] ∧ ∃ w, r = Ret (None, 0, Some w)) ∨
     ∃ es1 post es2,
       es = es1 ++ EvHTTP post :: es2 ∧
       http_requests es1 = [] ∧ http_requests es2 = [] ∧
       negotiation_post env filehash post ∧
       r = post_outcome env post (doRequest_result env post (DoHTTP env (h ++ es1) post))).
Proof.
  unfold callPost.
  destruct (request_run env "POST" EmptyString h)
    as (req & creds & err & es & Hreq & Hes & Hr).
  rewrite (bind_run _ _ _ _ _ Hreq). cbv beta iota.
  destruct err as [e|].
  { eexists _, es. split; [reflexivity|]. left. eauto. }
  destruct req as [req|]; [|by destruct Hr as [? [=]]].
  destruct Hr as (Hm & Hu & Hb & Hcl).
  rewrite (bind_run _ _ _ _ _ (call_run _ _ _)).
  destruct (os_Open env (h ++ es) filehash) as [e|file] eqn:Hopen.
  { eexists _, (es ++ [_]). rewrite app_assoc. split; [reflexivity|]. left.
    split; [|eauto]. by rewrite http_requests_app, Hes. }
  rewrite (bind_run _ _ _ _ _ (call_run _ _ _)).
  destruct (file_Stat env ((h ++ es) ++ [EvOpen filehash]) file) as [e|fileSize] eqn:Hstat.
  { eexists _, (es ++ [EvOpen filehash; EvFileStat file]).
    replace (h ++ es ++ [EvOpen filehash; EvFileStat file])
      with (((h ++ es) ++ [EvOpen filehash]) ++ [EvFileStat file])
      by (by rewrite <- !app_assoc).
    split; [reflexivity|]. left.
    split; [|eauto]. by rewrite http_requests_app, Hes. }
  erewrite bind_run by reflexivity.
  set (pre := es ++ [EvOpen filehash; EvFileStat file]).
  replace (((h ++ es) ++ [EvOpen filehash]) ++ [EvFileStat file]) with (h ++ pre)
    by (unfold pre; by rewrite <- !app_assoc).
  set (post := set_Header _ "Accept" gitMediaMetaType).
  destruct (doRequest_run env post creds (h ++ pre)) as (es2 & Hdo & Hes2 & _).
  set (ans := doRequest_result env post (DoHTTP env (h ++ pre) post)) in *.
  eexists (post_outcome env post ans), (pre ++ EvHTTP post :: es2).
  split.
  - rewrite app_assoc. destruct ans as [[[res|] [w|]]|];
      first [rewrite (bind_run _ _ _ _ _ Hdo) | rewrite (bind_Fault _ _ _ _ Hdo)];
      try reflexivity.
    cbv beta iota. erewrite bind_run by reflexivity. cbn [post_outcome].
    destruct (StatusCode res =? 202); [|reflexivity].
    by destruct (json_Decode_linkMeta env (res_Body res)).
  - right. exists pre, post, es2. split; [reflexivity|].
    split; [unfold pre; by rewrite http_requests_app, Hes|].
    split; [exact Hes2|]. split; [|reflexivity].
    unfold negotiation_post. split; [exact Hm|]. split; [exact Hu|].
    split; [cbn; apply Header_Get_Set|].
    eexists file, _, _, fileSize. split; [exact Hopen|]. split; [exact Hstat|reflexivity].
Qed.

Lemma doRequest_result_no_error env req answer res :
  doRequest_result env req answer = Ret (Some res, None) →
  StatusCode res < 400 ∨ StatusCode res = 405.
Proof.
  destruct answer as [[res0|] err]; [|done]. cbn. intros [= -> Hw].
  assert (err = None ∨ err = Some RedirectError ∨
          ∃ e, err = Some e ∧ e ≠ RedirectError) as [->|[->|(e & -> & Hne)]].
  { destruct err as [[]|]; eauto. }
  - apply (handleResponseError_None env). by destruct (handleResponseError env res).
  - apply (handleResponseError_None env). by destruct (handleResponseError env res).
  - destruct (StatusCode res =? 302) eqn:H302; [left; lia|].
    by destruct e.
Qed.

(** X12. Negotiation sends at most one request, which is the POST of
    the OID and size to the endpoint without an OID, asking for the
    metadata media type.  Of the three values it returns: link metadata
    comes exactly with status 202 and no error; an error comes with
    status 0, or with 202 when the links do not decode; and a status
    returned without error is below 400 or is 405. *)
Theorem callPost_result (env : Env) (filehash filename : string) (h : history) :
  ∃ r es, callPost env filehash filename h = (r, h ++ es) ∧
    (http_requests es = [] ∨
     ∃ post, http_requests es = [post] ∧ negotiation_post env filehash post) ∧
    ∀ lm status wErr, r = Ret (lm, status, wErr) →
      (is_Some lm ↔ status = 202 ∧ wErr = None) ∧
      (is_Some wErr → status = 0 ∨ status = 202) ∧
      (wErr = None → status < 400 ∨ status = 405).
Proof.
  destruct (callPost_run env filehash filename h) as (r & es & Hrun & Hcase).
  exists r, es. split; [exact Hrun|].
  destruct Hcase as [[Hes [w ->]]|(es1 & post & es2 & -> & H1 & H2 & Hpost & ->)].
  { split; [by left|]. intros lm status wErr [= <- <- <-].
    split_and!; [|by left|done]. split; [by intros [? ?]|by intros [_ ?]]. }
  split; [right; exists post; split; [by apply http_requests_one|done]|].
  intros lm status wErr Hr.
  destruct (doRequest_result env post (DoHTTP env (h ++ es1) post))
    as [[[res|] [w|]]|] eqn:Hans; cbn [post_outcome] in Hr; try done.
  - injection Hr as <- <- <-.
    split_and!; [|by left|done]. split; [by intros [? ?]|by intros [_ ?]].
  - apply doRequest_result_no_error in Hans.
    destruct (StatusCode res =? 202) eqn:H202.
    + destruct (json_Decode_linkMeta env (res_Body res)); injection Hr as <- <- <-.
      * split_and!; [|right; lia|done]. split; [by intros [? ?]|by intros [_ ?]].
      * split_and!; [|by intros [? ?]|done]. split; [intros _; split; [lia|done]|done].
    + injection Hr as <- <- <-.
      split_and!; [|by intros [? ?]|done].
      split; [by intros [? ?]|intros [? _]; lia].
  - injection Hr as <- <- <-.
    split_and!; [|by left|done]. split; [by intros [? ?]|by intros [_ ?]].
Qed.

(** ** Upload: the statuses that end it *)

(** X13. When negotiation returns a status other than 202, 302 and 405,
    [Upload] does nothing more: the history stays as negotiation left
    it.  It succeeds exactly for status 200 without error; a status
    without error that is not 200 gives an error naming the status; a
    negotiation error is returned wrapped. *)
Theorem Upload_ends_after_negotiation (env : Env) (oidPath filename : string)
    (cb : CopyCallback) (lm : option linkMeta) (status : Z)
    (err : option WrappedError) (h0 h h' : history)
    (r : outcome (option WrappedError)) :
  callPost env oidPath filename h0 = (Ret (lm, status, err), h) →
  status ≠ 202 → status ≠ 302 → status ≠ 405 →
  Upload env oidPath filename cb h0 = (r, h') →
  h' = h ∧
  (r = Ret None ↔ status = 200 ∧ err = None) ∧
  (err = None → status ≠ 200 →
     ∃ w, r = Ret (Some w) ∧
          Message w = "Unexpected HTTP response: " +:+ pretty status) ∧
  (∀ e, err = Some e →
     ∃ w, r = Ret (Some w) ∧ Err w = Some (EWrapped e) ∧
          Message w = "Error starting file upload.").
Proof.
  intros Hpost H202 H302 H405 Hrun. unfold Upload in Hrun.
  rewrite (bind_run _ _ _ _ _ Hpost) in Hrun. unfold Upload_after_callPost in Hrun.
  assert (negb (status =? 302) = true) as H302' by (apply negb_true_iff; lia).
  rewrite H302' in Hrun. destruct err as [e|].
  - injection Hrun as <- <-. split; [done|]. split_and!.
    + split; [done|]. by intros [_ ?].
    + done.
    + intros ? [= <-]. by eexists.
  - unfold Upload_switch in Hrun.
    destruct (status =? 200) eqn:H200.
    + injection Hrun as <- <-. split; [done|]. split_and!.
      * split; [intros _; split; [lia|done]|done].
      * intros _ ?. lia.
      * done.
    + assert ((status =? 405) || (status =? 302) = false) as Hleg
        by (apply orb_false_iff; split; lia).
      assert ((status =? 202) = false) as Hhyp by lia.
      rewrite Hleg, Hhyp in Hrun. injection Hrun as <- <-. split; [done|]. split_and!.
      * split; [done|]. intros [? _]. lia.
      * intros _ _. by eexists.
      * done.
Qed.

(** Witness for X13: negotiation answered 204. *)
Lemma Upload_ends_after_negotiation_witness :
  let env := status_env 204 in
  let h := (callPost env "/objects/abc" "abc.bin" []).2 in
  let run := Upload env "/objects/abc" "abc.bin" sample_cb [] in
  run.2 = h ∧
  (run.1 = Ret None ↔ 204 = 200 ∧ (None : option WrappedError) = None) ∧
  ((None : option WrappedError) = None → 204 ≠ 200 →
     ∃ w, run.1 = Ret (Some w) ∧
          Message w = "Unexpected HTTP response: " +:+ pretty 204) ∧
  (∀ e, None = Some e →
     ∃ w, run.1 = Ret (Some w) ∧ Err w = Some (EWrapped e) ∧
          Message w = "Error starting file upload.").
Proof.
  cbv zeta.
  apply (Upload_ends_after_negotiation (status_env 204) "/objects/abc" "abc.bin"
           sample_cb None 204 None []).
  - vm_compute. reflexivity.
  - discriminate.
  - discriminate.
  - discriminate.
  - apply surjective_pairing.
Defined.

(** X14. The status the probe hands to [Upload]: zero whenever it comes
    with an error, and otherwise a status below 400, or 405; so the
    comparison with 200 never sees an error status. *)
Theorem callOptions_status (env : Env) (filehash : string) (h : history) :
  ∃ r es, callOptions env filehash h = (r, h ++ es) ∧
    ∀ status wErr, r = Ret (status, wErr) →
      (is_Some wErr → status = 0) ∧
      (wErr = None → status < 400 ∨ status = 405).
Proof.
  destruct (callOptions_run env filehash h) as (r & es & Hrun & Hcase).
  exists r, es. split; [exact Hrun|]. intros status wErr Hr.
  destruct Hcase as [[_ [w ->]]|(es1 & opt & es2 & _ & _ & _ & _ & ->)].
  { injection Hr as <- <-. done. }
  destruct (doRequest_result env opt (DoHTTP env (h ++ es1) opt))
    as [[[res|] [w|]]|] eqn:Hans; cbn [probe_outcome] in Hr; try done.
  - by injection Hr as <- <-.
  - injection Hr as <- <-. split; [by intros [? ?]|]. intros _.
    by apply doRequest_result_no_error in Hans.
  - by injection Hr as <- <-.
Qed.

(** ** Upload of an object that is not there *)

(** X15. Negotiation builds its request, credentials included, before
    it looks at the local object.  So for an object that cannot be
    opened the credential helper is asked once, nothing is sent, the
    credential is never approved or rejected, and [Upload] returns the
    open error wrapped twice. *)
Theorem Upload_missing_object (env : Env) (oidPath filename : string)
    (cb : CopyCallback) (h : history) (u : string) (c : option Creds) (e : error) :
  url_Parse env (Config_ObjectUrl env EmptyString) = inr u →
  credentials env h u = (c, None) →
  os_Open env (h ++ [EvCredentials u]) oidPath = inl e →
  Upload env oidPath filename cb h
  = (Ret (Some (Errorf
                  (Some (EWrapped
                           (Errorf (Some e) ("Error attempting to POST " +:+ filename))))
                  "Error starting file upload.")),
     h ++ [EvCredentials u; EvOpen oidPath]).
Proof.
  intros Hu Hc Hopen.
  assert (callPost env oidPath filename h
          = (Ret (None, 0,
                  Some (Errorf (Some e) ("Error attempting to POST " +:+ filename))),
             h ++ [EvCredentials u; EvOpen oidPath])) as Hpost.
  { unfold callPost.
    pose proof (request_exact env "POST" EmptyString h) as Hreq.
    rewrite Hu in Hreq. cbv zeta in Hreq. rewrite Hc in Hreq.
    rewrite (bind_run _ _ _ _ _ Hreq). cbv beta iota.
    rewrite (bind_run _ _ _ _ _ (call_run _ _ _)), Hopen.
    rewrite <- app_assoc. reflexivity. }
  unfold Upload. rewrite (bind_run _ _ _ _ _ Hpost). reflexivity.
Qed.

(** Witness for X15. *)
Lemma Upload_missing_object_witness :
  Upload missing_object_env "/objects/abc" "abc.bin" sample_cb []
  = (Ret (Some (Errorf
                  (Some (EWrapped
                           (Errorf (Some (ExternalError "no such file"))
                              ("Error attempting to POST " +:+ "abc.bin"))))
                  "Error starting file upload.")),
     [] ++ [EvCredentials "https://api/objects/"; EvOpen "/objects/abc"]).
Proof.
  apply (Upload_missing_object missing_object_env "/objects/abc" "abc.bin" sample_cb []
           "https://api/objects/" (Some sample_creds) (ExternalError "no such file"));
    reflexivity.
Defined.

(** ** Relations that are present but null *)

(** X16. A [verify] relation that is present with a null link: the
    hypermedia upload never returns success.  At most the PUT is sent,
    and once the PUT has been answered the function stops on a
    nil-pointer read instead of returning. *)
Theorem callExternalPut_null_verify (env : Env) (filehash filename : string)
    (lm : linkMeta) (up : link) (cb : CopyCallback) (h : history) :
  Rel lm "upload" = (Some up, true) → Rel lm "verify" = (None, true) →
  ∃ r es, callExternalPut env filehash filename (Some lm) cb h = (r, h ++ es) ∧
    r ≠ Ret None ∧
    (http_requests es = [] ∨
     ∃ put, http_requests es = [put] ∧ upload_put env filehash cb up put) ∧
    (∀ es1 put es2 res,
       es = es1 ++ EvHTTP put :: es2 → http_requests es1 = [] →
       DoHTTP env (h ++ es1) put = (Some res, None) → r = Fault).
Proof.
  intros Hup Hve.
  destruct (callExternalPut_run env filehash filename lm up cb h Hup)
    as (r & es & Hrun & Hcase).
  exists r, es. split; [exact Hrun|].
  destruct Hcase as [[Hes [w ->]]|(es1 & put & es2 & -> & H1 & Hput & Hans)].
  { split; [done|]. split; [by left|].
    intros e1 p e2 res Heq. rewrite Heq, http_requests_app in Hes.
    by destruct (http_requests e1). }
  assert (∀ e1 p e2, es1 ++ EvHTTP put :: es2 = e1 ++ EvHTTP p :: e2 →
            http_requests e1 = [] → e1 = es1 ∧ p = put) as Huniq.
  { intros e1 p e2 Heq He1.
    destruct (first_http_unique _ _ _ _ _ _ Heq H1 He1) as (-> & -> & _). done. }
  destruct (DoHTTP env (h ++ es1) put) as [[res|] [e|]] eqn:Hhttp.
  1,3,4: destruct Hans as [-> ->]; split; [done|];
         split; [right; exists put; split; [by apply http_requests_one|done]|];
         intros e1 p e2 res' Heq He1 Hans';
         destruct (Huniq _ _ _ Heq He1) as [-> ->]; congruence.
  destruct Hans as (es_s & es_v & -> & Hs & Hv).
  destruct (callExternalPut_verify_run env filehash filename lm (req_ContentLength put)
              (h ++ es1 ++ EvHTTP put :: es_s)) as (rv & esv & Hv' & Hmatch).
  rewrite Hv in Hv'. injection Hv' as <- Hesv. apply app_inv_head in Hesv as <-.
  rewrite Hve in Hmatch. destruct Hmatch as [-> ->].
  split; [done|]. split; [|done].
  right. exists put. split; [|done].
  apply http_requests_one; [done|]. by rewrite app_nil_r.
Qed.

(** Witness for X16. *)
Lemma callExternalPut_null_verify_witness :
  let env := hyper_env (answer 200) null_verify_links in
  ∃ r es,
    callExternalPut env "/objects/abc" "abc.bin" (Some null_verify_links) sample_cb []
    = (r, [] ++ es) ∧
    r ≠ Ret None ∧
    (http_requests es = [] ∨
     ∃ put, http_requests es = [put] ∧
            upload_put env "/objects/abc" sample_cb sample_upload put) ∧
    (∀ es1 put es2 res,
       es = es1 ++ EvHTTP put :: es2 → http_requests es1 = [] →
       DoHTTP env ([] ++ es1) put = (Some res, None) → r = Fault).
Proof.
  cbv zeta.
  apply (callExternalPut_null_verify (hyper_env (answer 200) null_verify_links)
           "/objects/abc" "abc.bin" null_verify_links sample_upload sample_cb []);
    reflexivity.
Defined.

(** The run of the witness: the object is PUT and the call faults. *)
Example callExternalPut_null_verify_run :
  let run := callExternalPut (hyper_env (answer 200) null_verify_links)
               "/objects/abc" "abc.bin" (Some null_verify_links) sample_cb [] in
  run.1 = Fault ∧ Method <$> http_requests run.2 = ["PUT"].
Proof. vm_compute. done. Qed.

(** X17. An [upload] relation that is present with a null link: the
    hypermedia upload sends nothing and asks the credential helper
    nothing; it returns the error of the object store when the object
    cannot be opened or sized, and otherwise stops on a nil-pointer
    read. *)
Theorem callExternalPut_null_upload (env : Env) (filehash filename : string)
    (lm : linkMeta) (cb : CopyCallback) (h : history) :
  Rel lm "upload" = (None, true) →
  ∃ r es, callExternalPut env filehash filename (Some lm) cb h = (r, h ++ es) ∧
    http_requests es = [] ∧ credential_events es = [] ∧
    match os_Open env h filehash with
    | inl e => r = Ret (Some (Errorf (Some e) ("Error attempting to PUT " +:+ filename)))
    | inr file =>
        match file_Stat env (h ++ [EvOpen filehash]) file with
        | inl e => r = Ret (Some (Errorf (Some e) ("Error attempting to PUT " +:+ filename)))
        | inr _ => r = Fault
        end
    end.
Proof.
  intros Hup. unfold callExternalPut. rewrite Hup. cbn [negb].
  rewrite (bind_run _ _ _ _ _ (call_run _ _ _)).
  destruct (os_Open env h filehash) as [e|file].
  { eexists _, [_]. split; [reflexivity|]. done. }
  rewrite (bind_run _ _ _ _ _ (call_run _ _ _)).
  destruct (file_Stat env (h ++ [EvOpen filehash]) file) as [e|size].
  { eexists _, [_; _]. rewrite <- app_assoc. split; [reflexivity|]. done. }
  eexists _, [_; _]. rewrite <- app_assoc. split; [reflexivity|]. done.
Qed.

(** Witness for X17. *)
Lemma callExternalPut_null_upload_witness :
  ∃ r es,
    callExternalPut (hyper_env (answer 200) null_upload_links)
      "/objects/abc" "abc.bin" (Some null_upload_links) sample_cb []
    = (r, [] ++ es) ∧
    http_requests es = [] ∧ credential_events es = [] ∧ r = Fault.
Proof.
  apply (callExternalPut_null_upload (hyper_env (answer 200) null_upload_links)
           "/objects/abc" "abc.bin" null_upload_links sample_cb []).
  reflexivity.
Defined.

(** * The upload paths, step by step *)

(** ** Why a request is not sent *)

Lemma fetch_failed_shift env h pre es url :
  fetch_failed env (h ++ pre) es url → fetch_failed env h (pre ++ es) url.
Proof.
  intros (es' & c & e & -> & Hc). exists (pre ++ es'), c, e.
  rewrite <- app_assoc in Hc. split; [by rewrite app_assoc|done].
Qed.

Lemma url_blocked_shift env url h pre es :
  url_blocked env url (h ++ pre) es → url_blocked env url h (pre ++ es).
Proof.
  intros [?|(u & Hu & Hf)]; [by left|].
  right. exists u. split; [done|]. by apply fetch_failed_shift.
Qed.

(** Attaching credentials fails only when the fetch fails. *)
Lemma setRequestHeaders_cases env req h :
  ∃ req' creds err es,
    setRequestHeaders env req h = (Ret (req', creds, err), h ++ es) ∧
    http_requests es = [] ∧
    Method req' = Method req ∧ URL req' = URL req ∧
    req_Body req' = req_Body req ∧ req_ContentLength req' = req_ContentLength req ∧
    (is_Some err → fetch_failed env h es (URL req)).
Proof.
  unfold setRequestHeaders.
  destruct (req_Header (set_Header req "User-Agent" (UserAgent env)) !! "Authorization")
    as [v|] eqn:Hauth.
  - eexists _, None, None, []. rewrite app_nil_r. split_and!; try done.
  - mrun. cbn [URL set_Header]. destruct (credentials env h (URL req)) as [c [e|]] eqn:Hc.
    + eexists _, None, (Some e), [_]. split_and!; try done.
      intros _. exists [], c, e. by rewrite app_nil_r.
    + eexists _, c, None, [_]. split_and!; try done.
Qed.

(** A request for the object endpoint cannot be built only when the URL
    does not parse or the credential fetch fails. *)
Lemma request_cases env method oid h :
  ∃ req creds err es,
    request env method oid h = (Ret (req, creds, err), h ++ es) ∧
    http_requests es = [] ∧
    match err with
    | Some _ => url_blocked env (Config_ObjectUrl env oid) h es
    | None =>
        ∃ r, req = Some r ∧ Method r = method ∧
             url_Parse env (Config_ObjectUrl env oid) = inr (URL r) ∧
             req_Body r = NoBody ∧ req_ContentLength r = 0
    end.
Proof.
  unfold request, http_NewRequest.
  destruct (url_Parse env (Config_ObjectUrl env oid)) as [e|u] eqn:Hu.
  - eexists None, None, (Some e), []. rewrite app_nil_r. split_and!; try done.
    left. by exists e.
  - destruct (setRequestHeaders_cases env (mkRequest method u ∅ NoBody 0) h)
      as (req' & creds & err & es & Hrun & Hes & Hm & Hurl & Hb & Hcl & Hfail).
    rewrite (bind_run _ _ _ _ _ Hrun). cbn in *.
    eexists (Some req'), creds, err, es. split_and!; try done.
    destruct err as [e|].
    + right. exists u. split; [done|]. by apply Hfail.
    + exists req'. split_and!; try done. by rewrite Hurl.
Qed.

(** The probe is sent unless the object cannot be stat'ed or the request
    cannot be built. *)
Lemma callOptions_cases env filehash h :
  ∃ r es, callOptions env filehash h = (r, h ++ es) ∧
    ((http_requests es = [] ∧ probe_blocked env filehash h es ∧
      ∃ w, r = Ret (0, Some w)) ∨
     ∃ es1 opt es2,
       es = es1 ++ EvHTTP opt :: es2 ∧
       http_requests es1 = [] ∧ http_requests es2 = [] ∧
       options_probe env filehash opt ∧
       r = probe_outcome (doRequest_result env opt (DoHTTP env (h ++ es1) opt))).
Proof.
  unfold callOptions.
  rewrite (bind_run _ _ _ _ _ (call_run _ _ _)).
  destruct (os_Stat env h filehash) as [e|] eqn:Hstat.
  { eexists _, [_]. split; [reflexivity|]. left. split; [done|].
    split; [left; by exists e|eauto]. }
  destruct (request_cases env "OPTIONS" (filepath_Base filehash) (h ++ [EvStat filehash]))
    as (req & creds & err & es & Hreq & Hes & Hr).
  rewrite (bind_run _ _ _ _ _ Hreq). cbv beta iota.
  destruct err as [e|].
  { eexists _, (_ :: es). rewrite <- app_assoc. split; [reflexivity|]. left.
    split; [done|]. split; [|eauto].
    right. by apply (url_blocked_shift _ _ _ [EvStat filehash]). }
  destruct Hr as (req0 & -> & Hm & Hu & Hb & _).
  destruct (doRequest_run env req0 creds ((h ++ [EvStat filehash]) ++ es))
    as (es2 & Hdo & Hes2 & _).
  rewrite <- (app_assoc h) in Hdo.
  set (ans := doRequest_result env req0 (DoHTTP env (h ++ [EvStat filehash] ++ es) req0)) in *.
  eexists (probe_outcome ans), (([EvStat filehash] ++ es) ++ EvHTTP req0 :: es2).
  split.
  - mrun. rewrite <- (app_assoc h), Hdo, <- (app_assoc h).
    by destruct ans as [[[res|] [w|]]|].
  - right. eexists _, req0, es2. split; [reflexivity|]. split_and!; done.
Qed.

(** The legacy PUT is sent unless the object cannot be opened or sized
    or the request cannot be built. *)
Lemma callPut_cases env filehash filename cb h :
  ∃ r es, callPut env filehash filename cb h = (r, h ++ es) ∧
    ((http_requests es = [] ∧ legacy_put_blocked env filehash h es ∧
      ∃ w, r = Ret (Some w)) ∨
     ∃ es1 put es2,
       es = es1 ++ EvHTTP put :: es2 ∧
       http_requests es1 = [] ∧ http_requests es2 = [] ∧
       legacy_put env filehash cb put ∧
       r = put_outcome (doRequest_result env put (DoHTTP env (h ++ es1) put))).
Proof.
  unfold callPut.
  rewrite (bind_run _ _ _ _ _ (call_run _ _ _)).
  destruct (os_Open env h filehash) as [e|file] eqn:Hopen.
  { eexists _, [_]. split; [reflexivity|]. left. split; [done|].
    split; [left; left; by exists e|eauto]. }
  rewrite (bind_run _ _ _ _ _ (call_run _ _ _)).
  destruct (file_Stat env (h ++ [EvOpen filehash]) file) as [e|fileSize] eqn:Hstat.
  { eexists _, [_; _]. rewrite <- app_assoc. split; [reflexivity|]. left.
    split; [done|]. split; [left; right; by exists file, e|eauto]. }
  set (pre := [EvOpen filehash; EvFileStat file]).
  replace ((h ++ [EvOpen filehash]) ++ [EvFileStat file]) with (h ++ pre)
    by (by rewrite <- app_assoc).
  destruct (request_cases env "PUT" (filepath_Base filehash) (h ++ pre))
    as (req & creds & err & es & Hreq & Hes & Hr).
  rewrite (bind_run _ _ _ _ _ Hreq). cbv beta iota.
  destruct err as [e|].
  { eexists _, (pre ++ es). rewrite app_assoc. split; [reflexivity|]. left.
    split; [by rewrite http_requests_app, Hes|]. split; [|eauto].
    right. by apply url_blocked_shift. }
  destruct Hr as (req0 & -> & Hm & Hu & Hb & Hcl).
  mrun. set (put := set_ContentLength _ fileSize).
  destruct (doRequest_run env put creds ((h ++ pre) ++ es)) as (es2 & Hdo & Hes2 & _).
  rewrite <- (app_assoc h) in Hdo.
  set (ans := doRequest_result env put (DoHTTP env (h ++ pre ++ es) put)) in *.
  eexists (put_outcome ans), ((pre ++ es) ++ EvHTTP put :: es2).
  split.
  - rewrite <- (app_assoc h), Hdo, <- (app_assoc h).
    by destruct ans as [[[res|] [w|]]|].
  - right. eexists _, put, es2. split; [reflexivity|].
    split; [by rewrite http_requests_app, Hes|].
    split; [exact Hes2|]. split; [|reflexivity].
    unfold legacy_put. split; [exact Hm|]. split; [exact Hu|].
    split; [|split].
    + cbn. rewrite Header_Get_Set_ne by done. apply Header_Get_Set.
    + cbn. apply Header_Get_Set.
    + eexists file, _, _. split; [exact Hopen|]. split; [exact Hstat|]. reflexivity.
Qed.

(** Which exchanges [doRequest] reports as failed. *)
Lemma doRequest_result_fails env req res err :
  ∃ wErr, doRequest_result env req (Some res, err) = Ret (Some res, wErr) ∧
          (wErr = None ↔ exchange_fails res err = false).
Proof.
  unfold doRequest_result, exchange_fails.
  assert (err = None ∨ err = Some RedirectError ∨
          ∃ e, err = Some e ∧ e ≠ RedirectError) as [->|[->|(e & -> & Hne)]].
  { destruct err as [[]|]; eauto. }
  1,2: eexists; split; [reflexivity|];
    rewrite fmap_None, (handleResponseError_None env), negb_false_iff, orb_true_iff;
    split; (intros [?|?]; [left|right]; lia).
  assert (match Some e with
          | None | Some RedirectError => handleResponseError env res
          | Some e0 =>
              if StatusCode res =? 302 then None
              else Some (Errorf (Some e0) ("Error sending HTTP request to " +:+ URL req))
          end
          = if StatusCode res =? 302 then None
            else Some (Errorf (Some e) ("Error sending HTTP request to " +:+ URL req)))
    as -> by (by destruct e).
  assert (match Some e with
          | None | Some RedirectError =>
              negb ((StatusCode res <? 400) || (StatusCode res =? 405))
          | Some _ => negb (StatusCode res =? 302)
          end = negb (StatusCode res =? 302)) as -> by (by destruct e).
  eexists; split; [reflexivity|]. by destruct (StatusCode res =? 302).
Qed.

(** The verify POST is sent unless its request cannot be built. *)
Lemma callExternalPut_verify_cases env filehash filename lm ve size h :
  Rel lm "verify" = (Some ve, true) →
  ∃ r es, callExternalPut_verify env filehash filename lm size h = (r, h ++ es) ∧
    ((http_requests es = [] ∧ link_blocked env ve h es ∧ ∃ w, r = Ret (Some w)) ∨
     ∃ es1 post es2,
       es = es1 ++ EvHTTP post :: es2 ∧
       http_requests es1 = [] ∧ http_requests es2 = [] ∧
       verify_post env filehash ve size post ∧
       match DoHTTP env (h ++ es1) post with
       | (_, Some e) =>
           es2 = [] ∧
           r = Ret (Some (Errorf (Some e) ("Error attempting to verify " +:+ filename)))
       | (None, None) => es2 = [] ∧ r = Fault
       | (Some _, None) => r = Ret None
       end).
Proof.
  intros Hve. unfold callExternalPut_verify. rewrite Hve.
  mrun. unfold http_NewRequest.
  destruct (url_Parse env (Href ve)) as [e|u] eqn:Hu.
  { eexists _, []. rewrite app_nil_r. split; [reflexivity|]. left.
    split; [done|]. split; [left; by exists e|eauto]. }
  set (req0 := set_Headers _ _).
  destruct (set_Headers_fields (range_Header (link_Header ve))
              (mkRequest "POST" u ∅ NoBody 0)) as (H1 & H2 & _).
  fold req0 in H1, H2. cbn in H1, H2.
  destruct (setRequestHeaders_cases env req0 h)
    as (req' & creds & err & es & Hrun & Hes & Hm & Hurl & Hb & Hcl & Hfail).
  rewrite Hrun.
  destruct err as [e|].
  { eexists _, es. split; [reflexivity|]. left. split; [done|]. split; [|eauto].
    right. exists u. split; [done|]. rewrite <- H2. by apply Hfail. }
  set (post := set_Body req' _).
  assert (verify_post env filehash ve size post) as Hpost.
  { unfold verify_post. split; [cbn; congruence|]. split; [|reflexivity].
    rewrite Hu. f_equal. cbn. congruence. }
  destruct (DoHTTP env (h ++ es) post) as [res [e|]] eqn:Hhttp.
  { eexists _, (es ++ [EvHTTP post]). rewrite app_assoc. split; [reflexivity|].
    right. eexists es, post, []. rewrite Hhttp. split_and!; try done; by destruct res. }
  destruct res as [res|].
  2:{ eexists _, (es ++ [EvHTTP post]). rewrite app_assoc. split; [reflexivity|].
      right. eexists es, post, []. rewrite Hhttp. split_and!; done. }
  destruct (saveCredentials_run creds (Some res) ((h ++ es) ++ [EvHTTP post]))
    as (r & es2 & Hs & Hes2 & _ & Hr).
  rewrite Hr in Hs by done. rewrite Hs.
  eexists _, (es ++ EvHTTP post :: es2). split.
  - rewrite <- !app_assoc. reflexivity.
  - right. eexists es, post, es2. split_and!; try done. by rewrite Hhttp.
Qed.

(** The hypermedia PUT is sent unless the object cannot be opened or
    sized or the request cannot be built; once it is answered, the
    verify block runs. *)
Lemma callExternalPut_cases env filehash filename lm up cb h :
  Rel lm "upload" = (Some up, true) →
  ∃ r es, callExternalPut env filehash filename (Some lm) cb h = (r, h ++ es) ∧
    ((http_requests es = [] ∧
      (object_unreadable env filehash h ∨ link_blocked env up h es) ∧
      ∃ w, r = Ret (Some w)) ∨
     ∃ es1 put es2,
       es = es1 ++ EvHTTP put :: es2 ∧
       http_requests es1 = [] ∧
       upload_put env filehash cb up put ∧
       match DoHTTP env (h ++ es1) put with
       | (_, Some e) =>
           es2 = [] ∧
           r = Ret (Some (Errorf (Some e) ("Error attempting to PUT " +:+ filename)))
       | (None, None) => es2 = [] ∧ r = Fault
       | (Some _, None) =>
           ∃ es_s es_v,
             es2 = es_s ++ es_v ∧ http_requests es_s = [] ∧
             callExternalPut_verify env filehash filename lm (req_ContentLength put)
               (h ++ es1 ++ EvHTTP put :: es_s)
             = (r, (h ++ es1 ++ EvHTTP put :: es_s) ++ es_v)
       end).
Proof.
  intros Hup. unfold callExternalPut. rewrite Hup. cbn [negb].
  rewrite (bind_run _ _ _ _ _ (call_run _ _ _)).
  destruct (os_Open env h filehash) as [e|file] eqn:Hopen.
  { eexists _, [_]. split; [reflexivity|]. left. split; [done|].
    split; [left; left; by exists e|eauto]. }
  rewrite (bind_run _ _ _ _ _ (call_run _ _ _)).
  destruct (file_Stat env (h ++ [EvOpen filehash]) file) as [e|fileSize] eqn:Hstat.
  { eexists _, [_; _]. rewrite <- app_assoc. split; [reflexivity|]. left.
    split; [done|]. split; [left; right; by exists file, e|eauto]. }
  set (pre := [EvOpen filehash; EvFileStat file]).
  replace ((h ++ [EvOpen filehash]) ++ [EvFileStat file]) with (h ++ pre)
    by (by rewrite <- app_assoc).
  mrun. unfold http_NewRequest.
  destruct (url_Parse env (Href up)) as [e|u] eqn:Hu.
  { eexists _, pre. split; [reflexivity|]. left. split; [done|].
    split; [right; left; by exists e|eauto]. }
  set (req0 := set_Headers _ _).
  destruct (set_Headers_fields (range_Header (link_Header up))
              (mkRequest "PUT" u ∅ NoBody 0)) as (H1 & H2 & _).
  fold req0 in H1, H2. cbn in H1, H2.
  destruct (setRequestHeaders_cases env req0 (h ++ pre))
    as (req' & creds & err & es & Hrun & Hes & Hm & Hurl & Hb & Hcl & Hfail).
  rewrite Hrun.
  destruct err as [e|].
  { eexists _, (pre ++ es). rewrite app_assoc. split; [reflexivity|]. left.
    split; [by rewrite http_requests_app, Hes|]. split; [|eauto].
    right. apply url_blocked_shift. right. exists u. split; [done|].
    rewrite <- H2. by apply Hfail. }
  set (put := set_ContentLength _ fileSize).
  assert (upload_put env filehash cb up put) as Hput.
  { unfold upload_put. split; [cbn; congruence|]. split.
    - rewrite Hu. f_equal. cbn. congruence.
    - eexists file, _, _. split; [exact Hopen|]. split; [exact Hstat|reflexivity]. }
  assert (http_requests (pre ++ es) = []) as Hpre
    by (by rewrite http_requests_app, Hes).
  destruct (DoHTTP env ((h ++ pre) ++ es) put) as [res [e|]] eqn:Hhttp.
  { eexists _, ((pre ++ es) ++ [EvHTTP put]). rewrite !app_assoc. split; [reflexivity|].
    right. eexists (pre ++ es), put, []. rewrite app_assoc, Hhttp.
    split_and!; try done; by destruct res. }
  destruct res as [res|].
  2:{ eexists _, ((pre ++ es) ++ [EvHTTP put]). rewrite !app_assoc. split; [reflexivity|].
      right. eexists (pre ++ es), put, []. rewrite app_assoc, Hhttp.
      split_and!; done. }
  destruct (saveCredentials_run creds (Some res) (((h ++ pre) ++ es) ++ [EvHTTP put]))
    as (r & es2 & Hs & Hes2 & _ & Hr).
  rewrite Hr in Hs by done. rewrite Hs.
  destruct (callExternalPut_verify_run env filehash filename lm fileSize
              ((((h ++ pre) ++ es) ++ [EvHTTP put]) ++ es2)) as (rv & esv & Hv & _).
  eexists rv, ((pre ++ es) ++ EvHTTP put :: es2 ++ esv). split.
  - rewrite Hv. f_equal. rewrite <- !app_assoc. reflexivity.
  - right. eexists (pre ++ es), put, (es2 ++ esv). split_and!; try done.
    rewrite app_assoc, Hhttp. eexists es2, esv. split_and!; try done.
    replace (h ++ (pre ++ es) ++ EvHTTP put :: es2)
      with ((((h ++ pre) ++ es) ++ [EvHTTP put]) ++ es2)
      by (rewrite <- !app_assoc; reflexivity).
    exact Hv.
Qed.

(** Link metadata comes with status 202 exactly when there is no error. *)
Lemma callPost_202 env filehash filename h links err h' :
  callPost env filehash filename h = (Ret (links, 202, err), h') →
  (links = None ∧ is_Some err) ∨ (is_Some links ∧ err = None).
Proof.
  intros Hrun.
  destruct (callPost_run env filehash filename h) as (r & es & Hrun' & Hcase).
  rewrite Hrun in Hrun'. injection Hrun' as <- _.
  destruct Hcase as [[_ [w [=]]]|(es1 & post & es2 & _ & _ & _ & _ & Hr)].
  destruct (doRequest_result env post (DoHTTP env (h ++ es1) post))
    as [[[res|] [w|]]|]; cbn [post_outcome] in Hr; try done.
  destruct (StatusCode res =? 202) eqn:H202.
  - destruct (json_Decode_linkMeta env (res_Body res)); injection Hr as Hl _ He;
      subst links err; [left|right]; done.
  - injection Hr as _ Hst _. lia.
Qed.

Lemma bind_transfer_result oidPath filename (m : M (option WrappedError)) h r h' :
  m h = (r, h') →
  (err ← m;
   match err with
   | Some e =>
       mret (Some (Errorf (Some (EWrapped e))
                     ("Error uploading file " +:+ filename +:+ " ("
                      +:+ filepath_Base oidPath +:+ ")")))
   | None => mret None
   end) h = (transfer_result oidPath filename r, h').
Proof.
  intros Hm. destruct r as [[w|]|].
  - by rewrite (bind_run _ _ _ _ _ Hm).
  - by rewrite (bind_run _ _ _ _ _ Hm).
  - by rewrite (bind_Fault _ _ _ _ Hm).
Qed.

(** [Upload] after a negotiation without error: the switch. *)
Lemma Upload_after_negotiation env oidPath filename cb h0 lm status h :
  callPost env oidPath filename h0 = (Ret (lm, status, None), h) →
  Upload env oidPath filename cb h0
  = Upload_switch env oidPath filename cb lm status None h.
Proof. intros Hpost. unfold Upload. by rewrite (bind_run _ _ _ _ _ Hpost). Qed.

(** [Upload] after a negotiation error that does not come with 302. *)
Lemma Upload_after_negotiation_error env oidPath filename cb h0 lm status w h :
  callPost env oidPath filename h0 = (Ret (lm, status, Some w), h) →
  status ≠ 302 →
  Upload env oidPath filename cb h0
  = (Ret (Some (Errorf (Some (EWrapped w)) "Error starting file upload.")), h).
Proof.
  intros Hpost Hne. unfold Upload. rewrite (bind_run _ _ _ _ _ Hpost).
  unfold Upload_after_callPost.
  assert (negb (status =? 302) = true) as -> by (apply negb_true_iff; lia).
  reflexivity.
Qed.

(** ** The hypermedia path, step by step *)

(** C1, as the code has it.  Negotiation returned status 202.  Without
    link metadata (the links did not decode) [Upload] returns the
    negotiation error, wrapped, and does nothing more.  With link
    metadata that has no [upload] relation it returns the protocol error
    and does nothing more.  With an [upload] link [up] and a [verify]
    link [ve] it goes through these steps, and each one is taken unless
    the one before it failed in the way named:
    - the PUT to [up], streaming the object, is sent exactly once,
      unless the local object cannot be opened or sized, the URL of [up]
      does not parse, or the credential fetch for it fails;
    - when the transport of the PUT reports an error the upload fails
      with it and nothing more happens, and without a response it stops
      on a nil-pointer read;
    - otherwise the POST to [ve], carrying the OID and the size, is sent
      exactly once, unless the URL of [ve] does not parse or the
      credential fetch for it fails;
    - the upload succeeds exactly when the transport of that POST
      answers without error. *)
Theorem Upload_hypermedia_path (env : Env) (oidPath filename : string)
    (cb : CopyCallback) (h0 h h' : history) (links : option linkMeta)
    (err : option WrappedError) (r : outcome (option WrappedError)) :
  callPost env oidPath filename h0 = (Ret (links, 202, err), h) →
  Upload env oidPath filename cb h0 = (r, h') →
  (links = None →
     h' = h ∧
     ∃ w, err = Some w ∧
          r = Ret (Some (Errorf (Some (EWrapped w)) "Error starting file upload."))) ∧
  (∀ lm, links = Some lm → (Rel lm "upload").2 = false →
     h' = h ∧
     r = Ret (Some (upload_failed oidPath filename
                      (Errorf (Some (errors_New "No upload link provided"))
                         ("Error attempting to PUT " +:+ filename))))) ∧
  (∀ lm up ve, links = Some lm →
     Rel lm "upload" = (Some up, true) → Rel lm "verify" = (Some ve, true) →
     ∃ es, h' = h ++ es ∧
       ((http_requests es = [] ∧
         (object_unreadable env oidPath h ∨ link_blocked env up h es) ∧
         ∃ w, r = Ret (Some w)) ∨
        ∃ es1 put es2,
          es = es1 ++ EvHTTP put :: es2 ∧
          http_requests es1 = [] ∧
          upload_put env oidPath cb up put ∧
          match DoHTTP env (h ++ es1) put with
          | (_, Some e) =>
              es2 = [] ∧
              r = Ret (Some (upload_failed oidPath filename
                               (Errorf (Some e) ("Error attempting to PUT " +:+ filename))))
          | (None, None) => es2 = [] ∧ r = Fault
          | (Some _, None) =>
              ∃ es_s es_v,
                es2 = es_s ++ es_v ∧ http_requests es_s = [] ∧
                ((http_requests es_v = [] ∧
                  link_blocked env ve (h ++ es1 ++ EvHTTP put :: es_s) es_v ∧
                  ∃ w, r = Ret (Some w)) ∨
                 ∃ es3 post es4,
                   es_v = es3 ++ EvHTTP post :: es4 ∧
                   http_requests es3 = [] ∧ http_requests es4 = [] ∧
                   verify_post env oidPath ve (req_ContentLength put) post ∧
                   http_requests es = [put; post] ∧
                   match DoHTTP env (h ++ es1 ++ EvHTTP put :: es_s ++ es3) post with
                   | (_, Some e) =>
                       es4 = [] ∧
                       r = Ret (Some (upload_failed oidPath filename
                                        (Errorf (Some e)
                                           ("Error attempting to verify " +:+ filename))))
                   | (None, None) => es4 = [] ∧ r = Fault
                   | (Some _, None) => r = Ret None
                   end)
          end)).
Proof.
  intros Hpost Hrun.
  destruct (callPost_202 _ _ _ _ _ _ _ Hpost) as [[-> [w ->]]|[[lm ->] ->]].
  { rewrite (Upload_after_negotiation_error _ _ _ _ _ _ _ _ _ Hpost) in Hrun by done.
    injection Hrun as <- <-. split_and!; [|done|done]. intros _. split; [done|]. by exists w. }
  rewrite (Upload_after_negotiation _ _ _ _ _ _ _ _ Hpost), Upload_switch_hypermedia in Hrun.
  split; [done|]. split.
  { intros ? [= <-] Hok. unfold callExternalPut in Hrun.
    destruct (Rel lm "upload") as [l ok]. cbn in Hok. subst ok. cbn [negb] in Hrun.
    erewrite bind_run in Hrun by reflexivity. by injection Hrun as <- <-. }
  intros ? up ve [= <-] Hup Hve.
  destruct (callExternalPut_cases env oidPath filename lm up cb h Hup)
    as (rc & es & Hc & Hcase).
  rewrite (bind_transfer_result _ _ _ _ _ _ Hc) in Hrun. injection Hrun as <- <-.
  exists es. split; [done|].
  destruct Hcase as [(Hes & Hwhy & w & ->)|(es1 & put & es2 & -> & H1 & Hput & Hans)].
  { left. split_and!; [done|done|]. by eexists. }
  right. exists es1, put, es2. split_and!; try done.
  destruct (DoHTTP env (h ++ es1) put) as [[res|] [e|]].
  1,3,4: by destruct Hans as [-> ->].
  destruct Hans as (es_s & es_v & -> & Hs & Hv).
  exists es_s, es_v. split_and!; try done.
  destruct (callExternalPut_verify_cases env oidPath filename lm ve (req_ContentLength put)
              (h ++ es1 ++ EvHTTP put :: es_s) Hve) as (rv & esv & Hv' & Hvcase).
  rewrite Hv in Hv'. injection Hv' as <- Hesv. apply app_inv_head in Hesv as <-.
  destruct Hvcase as [(Hes & Hwhy & w & ->)|(es3 & post & es4 & -> & H3 & H4 & Hvp & Hans)].
  { left. split_and!; [done|done|]. by eexists. }
  right. exists es3, post, es4. split_and!; try done.
  - rewrite (app_assoc es_s). apply http_requests_two; [done| |done].
    by rewrite http_requests_app, Hs, H3.
  - replace (h ++ es1 ++ EvHTTP put :: es_s ++ es3)
      with ((h ++ es1 ++ EvHTTP put :: es_s) ++ es3)
      by (by rewrite <- !app_assoc).
    destruct (DoHTTP env ((h ++ es1 ++ EvHTTP put :: es_s) ++ es3) post) as [[res'|] [e|]].
    1,3,4: by destruct Hans as [-> ->].
    by subst rc.
Qed.

(** Witness for C1: negotiation answered 202 with both links, every
    other request answered 200. *)
Lemma Upload_hypermedia_path_witness :
  let env := hyper_env (answer 200) sample_links in
  let oidPath := "/objects/abc" in
  let filename := "abc.bin" in
  let h := (callPost env oidPath filename []).2 in
  let run := Upload env oidPath filename sample_cb [] in
  let r := run.1 in
  ∃ es, run.2 = h ++ es ∧
    ((http_requests es = [] ∧
      (object_unreadable env oidPath h ∨ link_blocked env sample_upload h es) ∧
      ∃ w, r = Ret (Some w)) ∨
     ∃ es1 put es2,
       es = es1 ++ EvHTTP put :: es2 ∧
       http_requests es1 = [] ∧
       upload_put env oidPath sample_cb sample_upload put ∧
       match DoHTTP env (h ++ es1) put with
       | (_, Some e) =>
           es2 = [] ∧
           r = Ret (Some (upload_failed oidPath filename
                            (Errorf (Some e) ("Error attempting to PUT " +:+ filename))))
       | (None, None) => es2 = [] ∧ r = Fault
       | (Some _, None) =>
           ∃ es_s es_v,
             es2 = es_s ++ es_v ∧ http_requests es_s = [] ∧
             ((http_requests es_v = [] ∧
               link_blocked env sample_verify (h ++ es1 ++ EvHTTP put :: es_s) es_v ∧
               ∃ w, r = Ret (Some w)) ∨
              ∃ es3 post es4,
                es_v = es3 ++ EvHTTP post :: es4 ∧
                http_requests es3 = [] ∧ http_requests es4 = [] ∧
                verify_post env oidPath sample_verify (req_ContentLength put) post ∧
                http_requests es = [put; post] ∧
                match DoHTTP env (h ++ es1 ++ EvHTTP put :: es_s ++ es3) post with
                | (_, Some e) =>
                    es4 = [] ∧
                    r = Ret (Some (upload_failed oidPath filename
                                     (Errorf (Some e)
                                        ("Error attempting to verify " +:+ filename))))
                | (None, None) => es4 = [] ∧ r = Fault
                | (Some _, None) => r = Ret None
                end)
       end).
Proof.
  cbv zeta.
  refine (proj2 (proj2 (Upload_hypermedia_path (hyper_env (answer 200) sample_links)
            "/objects/abc" "abc.bin" sample_cb [] _ _ (Some sample_links) None _ _ _))
            sample_links sample_upload sample_verify eq_refl eq_refl eq_refl).
  - vm_compute. reflexivity.
  - apply surjective_pairing.
Defined.

(** The two ways to have no [upload] link after a 202: metadata without
    the relation gives the protocol error, a body that does not decode
    gives the decode error; in both only the negotiation POST was
    sent. *)
Example Upload_without_upload_link :
  let env := hyper_env (answer 200) verify_only_links in
  let run := Upload env "/objects/abc" "abc.bin" sample_cb [] in
  (callPost env "/objects/abc" "abc.bin" []).1 = Ret (Some verify_only_links, 202, None) ∧
  run.2 = (callPost env "/objects/abc" "abc.bin" []).2 ∧
  Method <$> http_requests run.2 = ["POST"] ∧
  run.1 = Ret (Some (upload_failed "/objects/abc" "abc.bin"
                       (Errorf (Some (errors_New "No upload link provided"))
                          "Error attempting to PUT abc.bin"))).
Proof. vm_compute. done. Qed.

Example Upload_202_without_links :
  let env := undecodable_links_env in
  let run := Upload env "/objects/abc" "abc.bin" sample_cb [] in
  let w := Errorf (Some (ExternalError "no JSON"))
             "Error decoding JSON from POST https://api/objects/." in
  (callPost env "/objects/abc" "abc.bin" []).1 = Ret (None, 202, Some w) ∧
  run.2 = (callPost env "/objects/abc" "abc.bin" []).2 ∧
  Method <$> http_requests run.2 = ["POST"] ∧
  run.1 = Ret (Some (Errorf (Some (EWrapped w)) "Error starting file upload.")).
Proof. vm_compute. done. Qed.

(** ** The legacy path, step by step *)

(** C5, as the code has it.  After a negotiation answered 405 or 302,
    [Upload] goes through these steps, and each one is taken unless the
    one before it failed in the way named:
    - the OPTIONS probe for the OID is sent exactly once, unless the
      local object cannot be stat'ed, the object URL does not parse or
      the credential fetch fails;
    - a probe that comes back without a response stops the upload on a
      nil-pointer read; a probe that fails (a status of 400 or above
      other than 405, or a transport error next to a response that is
      not a 302) ends the upload with an error; a probe answered 200
      ends it with success; in all three cases nothing is sent after
      the probe;
    - for every other answer the PUT of the file to the object endpoint,
      with the two media types, is sent exactly once, unless the local
      object cannot be opened or sized, the object URL does not parse or
      the credential fetch fails;
    - the upload then succeeds exactly when the PUT does not fail. *)
Theorem Upload_legacy_path (env : Env) (oidPath filename : string)
    (cb : CopyCallback) (h0 h h' : history) (lm : option linkMeta) (status : Z)
    (r : outcome (option WrappedError)) :
  callPost env oidPath filename h0 = (Ret (lm, status, None), h) →
  status = 405 ∨ status = 302 →
  Upload env oidPath filename cb h0 = (r, h') →
  ∃ es, h' = h ++ es ∧
    ((http_requests es = [] ∧ probe_blocked env oidPath h es ∧
      ∃ w, r = Ret (Some w)) ∨
     ∃ es1 opt es_s es2,
       es = es1 ++ EvHTTP opt :: es_s ++ es2 ∧
       http_requests es1 = [] ∧ http_requests es_s = [] ∧
       options_probe env oidPath opt ∧
       match DoHTTP env (h ++ es1) opt with
       | (None, _) => es2 = [] ∧ r = Fault
       | (Some res, err) =>
           if exchange_fails res err then es2 = [] ∧ ∃ w, r = Ret (Some w)
           else if StatusCode res =? 200 then es2 = [] ∧ r = Ret None
           else
             (http_requests es2 = [] ∧
              legacy_put_blocked env oidPath (h ++ es1 ++ EvHTTP opt :: es_s) es2 ∧
              ∃ w, r = Ret (Some w)) ∨
             ∃ es3 put es4,
               es2 = es3 ++ EvHTTP put :: es4 ∧
               http_requests es3 = [] ∧ http_requests es4 = [] ∧
               legacy_put env oidPath cb put ∧
               http_requests es = [opt; put] ∧
               match DoHTTP env (h ++ es1 ++ EvHTTP opt :: es_s ++ es3) put with
               | (None, _) => r = Fault
               | (Some res', err') =>
                   if exchange_fails res' err' then ∃ w, r = Ret (Some w)
                   else r = Ret None
               end
       end).
Proof.
  intros Hpost Hst Hrun.
  rewrite (Upload_after_negotiation _ _ _ _ _ _ _ _ Hpost), Upload_switch_legacy in Hrun
    by done.
  unfold legacy_fallback in Hrun.
  destruct (callOptions_cases env oidPath h) as (ro & eso & Ho & Hcase).
  destruct Hcase as [(Hes & Hwhy & w & ->)|(es1 & opt & es_s & -> & H1 & Hs & Hopt & ->)].
  { rewrite (bind_run _ _ _ _ _ Ho) in Hrun. injection Hrun as <- <-.
    exists eso. split; [done|]. left. split_and!; [done|done|]. by eexists. }
  assert (∀ es2, es1 ++ EvHTTP opt :: es_s ++ es2 = (es1 ++ EvHTTP opt :: es_s) ++ es2)
    as Hassoc by (intros; by rewrite <- app_assoc).
  destruct (DoHTTP env (h ++ es1) opt) as [[res|] err] eqn:Hhttp.
  2:{ cbn [doRequest_result probe_outcome] in Ho.
      rewrite (bind_Fault _ _ _ _ Ho) in Hrun. injection Hrun as <- <-.
      exists (es1 ++ EvHTTP opt :: es_s). split; [done|]. right.
      exists es1, opt, es_s, []. rewrite app_nil_r, Hhttp. done. }
  destruct (doRequest_result_fails env opt res err) as (wErr & Hres & Hfail).
  rewrite Hres in Ho. cbn [probe_outcome] in Ho.
  destruct wErr as [w|].
  { rewrite (bind_run _ _ _ _ _ Ho) in Hrun. injection Hrun as <- <-.
    exists (es1 ++ EvHTTP opt :: es_s). split; [done|]. right.
    exists es1, opt, es_s, []. rewrite app_nil_r, Hhttp.
    assert (exchange_fails res err = true) as ->.
    { apply not_false_iff_true. intros Hf. by apply Hfail in Hf. }
    split_and!; try done. by eexists. }
  assert (exchange_fails res err = false) as Hok by (by apply Hfail).
  rewrite (bind_run _ _ _ _ _ Ho) in Hrun. cbv beta iota in Hrun.
  destruct (StatusCode res =? 200) eqn:H200; cbn [negb] in Hrun.
  { injection Hrun as <- <-.
    exists (es1 ++ EvHTTP opt :: es_s). split; [done|]. right.
    exists es1, opt, es_s, []. rewrite app_nil_r, Hhttp, Hok, H200. done. }
  destruct (callPut_cases env oidPath filename cb (h ++ es1 ++ EvHTTP opt :: es_s))
    as (rp & esp & Hp & Hpcase).
  rewrite (bind_transfer_result _ _ _ _ _ _ Hp) in Hrun. injection Hrun as <- <-.
  exists ((es1 ++ EvHTTP opt :: es_s) ++ esp). split; [by rewrite <- !app_assoc|].
  right. exists es1, opt, es_s, esp. rewrite Hhttp, Hok, H200.
  split_and!; try done.
  destruct Hpcase as [(Hes & Hwhy & w & ->)|(es3 & put & es4 & -> & H3 & H4 & Hput & ->)].
  { left. split_and!; [done|done|]. by eexists. }
  right. exists es3, put, es4. split_and!; try done.
  - rewrite <- Hassoc, (app_assoc es_s).
    apply http_requests_two; [done| |done]. by rewrite http_requests_app, Hs, H3.
  - replace (h ++ es1 ++ EvHTTP opt :: es_s ++ es3)
      with ((h ++ es1 ++ EvHTTP opt :: es_s) ++ es3)
      by (by rewrite <- !app_assoc).
    destruct (DoHTTP env ((h ++ es1 ++ EvHTTP opt :: es_s) ++ es3) put)
      as [[res'|] err']; [|done].
    destruct (doRequest_result_fails env put res' err') as (wErr & -> & Hfail').
    cbn [put_outcome transfer_result].
    destruct wErr as [w|].
    + assert (exchange_fails res' err' = true) as ->.
      { apply not_false_iff_true. intros Hf. by apply Hfail' in Hf. }
      by eexists.
    + by rewrite (proj1 Hfail' eq_refl).
Qed.

(** Witness for C5: negotiation answered 405, the probe 204, the PUT
    200. *)
Lemma Upload_legacy_path_witness :
  let env := legacy_env 204 200 in
  let oidPath := "/objects/abc" in
  let filename := "abc.bin" in
  let h := (callPost env oidPath filename []).2 in
  let run := Upload env oidPath filename sample_cb [] in
  let r := run.1 in
  ∃ es, run.2 = h ++ es ∧
    ((http_requests es = [] ∧ probe_blocked env oidPath h es ∧
      ∃ w, r = Ret (Some w)) ∨
     ∃ es1 opt es_s es2,
       es = es1 ++ EvHTTP opt :: es_s ++ es2 ∧
       http_requests es1 = [] ∧ http_requests es_s = [] ∧
       options_probe env oidPath opt ∧
       match DoHTTP env (h ++ es1) opt with
       | (None, _) => es2 = [] ∧ r = Fault
       | (Some res, err) =>
           if exchange_fails res err then es2 = [] ∧ ∃ w, r = Ret (Some w)
           else if StatusCode res =? 200 then es2 = [] ∧ r = Ret None
           else
             (http_requests es2 = [] ∧
              legacy_put_blocked env oidPath (h ++ es1 ++ EvHTTP opt :: es_s) es2 ∧
              ∃ w, r = Ret (Some w)) ∨
             ∃ es3 put es4,
               es2 = es3 ++ EvHTTP put :: es4 ∧
               http_requests es3 = [] ∧ http_requests es4 = [] ∧
               legacy_put env oidPath sample_cb put ∧
               http_requests es = [opt; put] ∧
               match DoHTTP env (h ++ es1 ++ EvHTTP opt :: es_s ++ es3) put with
               | (None, _) => r = Fault
               | (Some res', err') =>
                   if exchange_fails res' err' then ∃ w, r = Ret (Some w)
                   else r = Ret None
               end
       end).
Proof.
  cbv zeta.
  apply (Upload_legacy_path (legacy_env 204 200) "/objects/abc" "abc.bin" sample_cb
           [] _ _ None 405).
  - vm_compute. reflexivity.
  - left. reflexivity.
  - apply surjective_pairing.
Defined.

(** ** Negotiation errors and the 302 exception *)

(** C9.  [Upload] keeps going after a negotiation error only next to
    status 302, and the only place where an error meets a 302 is the
    negotiation exchange itself, where [doRequest] drops it.
    - Whatever error [callPost] returns makes [Upload] return at once
      with that error wrapped; and such an error never comes with
      status 302.
    - When the executor answers the negotiation POST with an error next
      to a response: for a status other than 302 (and an error that is
      not the redirect signal) [callPost] returns the transport error,
      and [Upload] returns it wrapped, at once; for status 302
      [doRequest] returns the response without error, [callPost]
      returns status 302 without error, as for a 302 answered cleanly,
      and [Upload] runs the legacy path: [callOptions], then, unless
      the probe failed or answered 200, [callPut]; so the next request,
      unless the probe cannot be built, is the OPTIONS probe. *)
Theorem Upload_negotiation_error (env : Env) (oidPath filename : string)
    (cb : CopyCallback) (h0 h : history)
    (rp : outcome (option linkMeta * Z * option WrappedError)) :
  callPost env oidPath filename h0 = (rp, h) →
  (∀ lm status w, rp = Ret (lm, status, Some w) →
     status ≠ 302 ∧
     Upload env oidPath filename cb h0
     = (Ret (Some (Errorf (Some (EWrapped w)) "Error starting file upload.")), h)) ∧
  (∀ es1 post es2 res e,
     h = h0 ++ es1 ++ EvHTTP post :: es2 → http_requests es1 = [] →
     DoHTTP env (h0 ++ es1) post = (Some res, Some e) →
     (StatusCode res ≠ 302 → e ≠ RedirectError →
        ∃ w, Err w = Some e ∧
             rp = Ret (None, 0, Some w) ∧
             Upload env oidPath filename cb h0
             = (Ret (Some (Errorf (Some (EWrapped w)) "Error starting file upload.")),
                h)) ∧
     (StatusCode res = 302 →
        (∀ creds, (doRequest env post creds (h0 ++ es1)).1 = Ret (Some res, None)) ∧
        rp = Ret (None, 302, None) ∧
        (∃ ro h1, callOptions env oidPath h = (ro, h1) ∧
           match ro with
           | Fault => Upload env oidPath filename cb h0 = (Fault, h1)
           | Ret (_, Some w) => Upload env oidPath filename cb h0 = (Ret (Some w), h1)
           | Ret (st, None) =>
               if st =? 200 then Upload env oidPath filename cb h0 = (Ret None, h1)
               else
                 ∃ rput h2, callPut env oidPath filename cb h1 = (rput, h2) ∧
                   Upload env oidPath filename cb h0
                   = (transfer_result oidPath filename rput, h2)
           end) ∧
        ∃ es, (Upload env oidPath filename cb h0).2 = h ++ es ∧
          ((http_requests es = [] ∧ probe_blocked env oidPath h es) ∨
           ∃ es3 opt es4,
             es = es3 ++ EvHTTP opt :: es4 ∧ http_requests es3 = [] ∧
             options_probe env oidPath opt))).
Proof.
  intros Hpost. split.
  { intros lm status w ->.
    assert (status ≠ 302) as Hne.
    { destruct (callPost_error_status _ _ _ _ _ _ _ _ Hpost); lia. }
    split; [done|]. by apply (Upload_after_negotiation_error _ _ _ _ _ _ _ _ _ Hpost). }
  intros es1 post es2 res e Hh H1 Hhttp.
  destruct (callPost_run env oidPath filename h0) as (r & es & Hrun & Hcase).
  rewrite Hpost in Hrun. injection Hrun as <- Hes. rewrite Hh in Hes.
  apply app_inv_head in Hes as <-.
  destruct Hcase as [[Hnil _]|(es1' & post' & es2' & Heq & H1' & _ & _ & Hr)].
  { by rewrite http_requests_app in Hnil; destruct (http_requests es1). }
  apply first_http_unique in Heq as (<- & <- & <-); [|done..].
  rewrite Hhttp in Hr. split.
  - intros H302 Hred.
    assert ((StatusCode res =? 302) = false) as H302' by lia.
    exists (setErrorResponseContext env
              (Errorf (Some e) ("Error sending HTTP request to " +:+ URL post)) res).
    assert (rp = Ret (None, 0,
              Some (setErrorResponseContext env
                      (Errorf (Some e) ("Error sending HTTP request to " +:+ URL post))
                      res))) as Hrp.
    { rewrite Hr. cbn. destruct e; try done; by rewrite H302'. }
    split; [by rewrite Err_setErrorResponseContext|]. split; [exact Hrp|].
    rewrite Hrp in Hpost.
    by apply (Upload_after_negotiation_error _ _ _ _ _ _ _ _ _ Hpost).
  - intros H302.
    assert ((StatusCode res =? 302) = true) as H302' by lia.
    assert (doRequest_result env post (Some res, Some e) = Ret (Some res, None)) as Hres.
    { cbn. assert (handleResponseError env res = None) as Hnone
        by (apply (handleResponseError_None env); lia).
      destruct e; by rewrite ?H302', ?Hnone. }
    assert (rp = Ret (None, 302, None)) as Hrp.
    { rewrite Hr, Hres. cbn [post_outcome].
      assert ((StatusCode res =? 202) = false) as -> by lia. by rewrite H302. }
    split.
    { intros creds. destruct (doRequest_run env post creds (h0 ++ es1)) as (es' & -> & _).
      by rewrite Hhttp, Hres. }
    split; [exact Hrp|].
    rewrite Hrp in Hpost.
    rewrite (Upload_after_negotiation _ _ _ _ _ _ _ _ Hpost), Upload_switch_legacy
      by (by right).
    unfold legacy_fallback.
    destruct (callOptions_cases env oidPath h) as (ro & eso & Ho & Hocase).
    assert (∀ esp,
      (∀ w, ro = Ret (0, Some w) → esp = []) →
      (http_requests (eso ++ esp) = [] ∧ probe_blocked env oidPath h (eso ++ esp)) ∨
      ∃ es3 opt es4,
        eso ++ esp = es3 ++ EvHTTP opt :: es4 ∧ http_requests es3 = [] ∧
        options_probe env oidPath opt) as Hfirst.
    { intros esp Hesp.
      destruct Hocase as [(Hnil & Hwhy & w & ->)|(es3 & opt & es4 & -> & H3 & _ & Hopt & _)].
      - left. rewrite (Hesp w eq_refl), app_nil_r. done.
      - right. exists es3, opt, (es4 ++ esp). split_and!; try done.
        by rewrite <- app_assoc. }
    destruct ro as [[st [w|]]|].
    + rewrite (bind_run _ _ _ _ _ Ho). cbv beta iota. split.
      * exists (Ret (st, Some w)), (h ++ eso). done.
      * exists eso. split; [done|]. rewrite <- (app_nil_r eso). by apply Hfirst.
    + rewrite (bind_run _ _ _ _ _ Ho). cbv beta iota.
      destruct (st =? 200) eqn:H200; cbn [negb].
      * split.
        -- exists (Ret (st, None)), (h ++ eso). rewrite H200. done.
        -- exists eso. split; [done|]. rewrite <- (app_nil_r eso). by apply Hfirst.
      * destruct (callPut_cases env oidPath filename cb (h ++ eso))
          as (rput & esp & Hput & _).
        rewrite (bind_transfer_result _ _ _ _ _ _ Hput). split.
        -- exists (Ret (st, None)), (h ++ eso). rewrite H200. split; [done|].
          by exists rput, ((h ++ eso) ++ esp).
        -- exists (eso ++ esp). split; [cbn; by rewrite app_assoc|]. by apply Hfirst.
    + rewrite (bind_Fault _ _ _ _ Ho). split.
      * exists Fault, (h ++ eso). done.
      * exists eso. split; [done|]. rewrite <- (app_nil_r eso). by apply Hfirst.
Qed.

(** Witness for C9: the executor reports an error next to a 302 for the
    negotiation POST. *)
Lemma Upload_negotiation_error_witness :
  let env := redirecting_env in
  let oidPath := "/objects/abc" in
  let filename := "abc.bin" in
  let es1 := [EvCredentials "https://api/objects/"; EvOpen oidPath;
              EvFileStat (mkFile oidPath sample_data)] in
  let h := es1 ++ [EvHTTP sample_negotiation] in
  (∀ creds, (doRequest env sample_negotiation creds ([] ++ es1)).1
            = Ret (Some (plain_response 302 sample_negotiation), None)) ∧
  (callPost env oidPath filename []).1 = Ret (None, 302, None) ∧
  (∃ ro h1, callOptions env oidPath h = (ro, h1) ∧
     match ro with
     | Fault => Upload env oidPath filename sample_cb [] = (Fault, h1)
     | Ret (_, Some w) => Upload env oidPath filename sample_cb [] = (Ret (Some w), h1)
     | Ret (st, None) =>
         if st =? 200 then Upload env oidPath filename sample_cb [] = (Ret None, h1)
         else
           ∃ rput h2, callPut env oidPath filename sample_cb h1 = (rput, h2) ∧
             Upload env oidPath filename sample_cb []
             = (transfer_result oidPath filename rput, h2)
     end) ∧
  ∃ es, (Upload env oidPath filename sample_cb []).2 = h ++ es ∧
    ((http_requests es = [] ∧ probe_blocked env oidPath h es) ∨
     ∃ es3 opt es4,
       es = es3 ++ EvHTTP opt :: es4 ∧ http_requests es3 = [] ∧
       options_probe env oidPath opt).
Proof.
  cbv zeta.
  refine (proj2 (proj2 (Upload_negotiation_error redirecting_env "/objects/abc" "abc.bin"
            sample_cb [] _ _ _)
            [EvCredentials "https://api/objects/"; EvOpen "/objects/abc";
             EvFileStat (mkFile "/objects/abc" sample_data)]
            sample_negotiation [] (plain_response 302 sample_negotiation)
            (ExternalError "stopped after 10 redirects")
            eq_refl eq_refl eq_refl) eq_refl).
  vm_compute. reflexivity.
Defined.

(** The same run, read off: the error of the negotiation exchange is
    dropped, and the probe and the PUT follow. *)
Example Upload_negotiation_302_run :
  let env := redirecting_env in
  let run := Upload env "/objects/abc" "abc.bin" sample_cb [] in
  (∀ h req, ∃ res e, DoHTTP env h req = (Some res, Some e) ∧ StatusCode res = 302) ∧
  run.1 = Ret None ∧
  Method <$> http_requests run.2 = ["POST"; "OPTIONS"; "PUT"].
Proof.
  cbv zeta. split_and!.
  - intros h req. by eexists _, _.
  - vm_compute. reflexivity.
  - vm_compute. reflexivity.
Qed.

(** An error next to a 500: negotiation returns it with status 0 and
    the upload ends at once, after the one POST. *)
Example Upload_negotiation_500_run :
  let env := failing_env 500 (ExternalError "reset") in
  let run := Upload env "/objects/abc" "abc.bin" sample_cb [] in
  (∃ w, (callPost env "/objects/abc" "abc.bin" []).1 = Ret (None, 0, Some w) ∧
        Err w = Some (ExternalError "reset") ∧
        run.1 = Ret (Some (Errorf (Some (EWrapped w)) "Error starting file upload."))) ∧
  Method <$> http_requests run.2 = ["POST"].
Proof.
  cbv zeta. split.
  - eexists. split; [vm_compute; reflexivity|]. split; vm_compute; reflexivity.
  - vm_compute. reflexivity.
Qed.

(** A step that fails before its request: without a credential for the
    storage host the PUT is never sent. *)
Example Upload_no_credentials_for_upload_link :
  let env := no_store_credentials_env in
  let run := Upload env "/objects/abc" "abc.bin" sample_cb [] in
  (callPost env "/objects/abc" "abc.bin" []).1 = Ret (Some sample_links, 202, None) ∧
  (λ req, (Method req, URL req)) <$> http_requests run.2
  = [("POST", "https://api/objects/")] ∧
  last run.2 = Some (EvCredentials "https://store/x") ∧
  run.1 = Ret (Some (upload_failed "/objects/abc" "abc.bin"
                       (Errorf (Some (ExternalError "no credentials"))
                          "Error attempting to PUT abc.bin"))).
Proof. vm_compute. done. Qed.

(** A step that fails before its request: an object that cannot be
    stat'ed is never probed for. *)
Example Upload_unstatable_object_sends_no_probe :
  let env := unstatable_env in
  let run := Upload env "/objects/abc" "abc.bin" sample_cb [] in
  (callPost env "/objects/abc" "abc.bin" []).1 = Ret (None, 405, None) ∧
  Method <$> http_requests run.2 = ["POST"] ∧
  last run.2 = Some (EvStat "/objects/abc") ∧
  run.1 = Ret (Some (Errorf (Some (ExternalError "permission denied"))
                       "Internal object does not exist: /objects/abc")).
Proof. vm_compute. done. Qed.
